(** * BlitzMail: a shallow embedding of the session, bulletin and
    notification code, and the properties of its specification.

    The development follows the Python sources module by module:
    - [Py]       the Python 2 primitives the code relies on (str methods,
                 int(), str(), exceptions, struct packing);
    - [Re]       a backtracking matcher for the regular expressions used;
    - [Session]  session.py (Session and BlitzSession wire primitives);
    - [Bmesg]    bmesg.py (BlitzHeader, BlitzSummary);
    - [Bfold]    bfold.py (BlitzFolder);
    - [Bulls]    bulls.py (Topic read-list parsing and compaction);
    - [Packet]   notify/packet.py;
    - [Ntypes]   notify/ntypes.py (QElem, ATPObject reader and writer);
    - [Notifyd]  notify/notifyd.py (UDP server, TCP control handler).

    Definitions come first; the theorems follow in the second half. *)

From Stdlib Require Import ZArith Lia Ascii String List Bool.
From Stdlib Require Import DecimalString DecimalZ DecimalFacts DecimalPos.
From Stdlib Require Import Sorting.Permutation.
From stdpp Require Import base tactics option list gmap sets strings sorting.

Local Open Scope string_scope.
Local Open Scope list_scope.
Local Open Scope Z_scope.

(* ===================================================================== *)
(** * Python primitives *)
(* ===================================================================== *)

Module Py.

(** Exceptions raised by the modelled code.  Messages are dropped, except
    for [ProtocolError], whose [key] and [value] fields the code reads. *)
Inductive exn : Type :=
  | ValueError
  | NameError
  | IndexError
  | KeyError
  | TypeError
  | StructError                      (* struct.error *)
  | NotConnectedError
  | LostConnectionError
  | ProtocolError (key : Z) (value : string)
  | BlitzNotifyError
  | SocketError
  | AttributeError
  | StopIteration.

Inductive result (A : Type) : Type :=
  | Ok (a : A)
  | Raise (e : exn).
Arguments Ok {A} a.
Arguments Raise {A} e.

Definition rbind {A B} (r : result A) (f : A -> result B) : result B :=
  match r with
  | Ok a => f a
  | Raise e => Raise e
  end.

Definition of_option {A} (e : exn) (o : option A) : result A :=
  match o with
  | Some a => Ok a
  | None => Raise e
  end.

(** Sequencing, shared by pure code that may raise ([result]) and by
    stateful code ([M], below). *)
Class Bind (T : Type -> Type) : Type :=
  bind : ∀ {A B : Type}, T A -> (A -> T B) -> T B.
Class Ret (T : Type -> Type) : Type :=
  ret : ∀ {A : Type}, A -> T A.

Notation "x <- m ;; k" := (bind m (fun x => k))
  (at level 20, m at level 99, k at level 200, only parsing).
Notation "' pat <- m ;; k" := (bind m (fun x => match x with pat => k end))
  (at level 20, pat pattern, m at level 99, k at level 200, only parsing).

#[global] Instance result_Bind : Bind result := @rbind.
#[global] Instance result_Ret : Ret result := @Ok.

(** The newline character and one-character strings. *)
Definition LF : ascii := "010"%char.
Definition CR : ascii := "013"%char.
Definition nl : string := String LF EmptyString.
Definition CRLF : string := String CR (String LF EmptyString).
Definition DQ : ascii := "034"%char.

(** [c.isspace()] for a byte in the C locale: space, \t, \n, \v, \f, \r. *)
Definition isspace (c : ascii) : bool :=
  let n := nat_of_ascii c in
  (n =? 32)%nat || ((9 <=? n)%nat && (n <=? 13)%nat).

Definition isdigit (c : ascii) : bool :=
  let n := nat_of_ascii c in (48 <=? n)%nat && (n <=? 57)%nat.

Definition isupper (c : ascii) : bool :=
  let n := nat_of_ascii c in (65 <=? n)%nat && (n <=? 90)%nat.

Definition islower (c : ascii) : bool :=
  let n := nat_of_ascii c in (97 <=? n)%nat && (n <=? 122)%nat.

Definition isalpha (c : ascii) : bool := isupper c || islower c.

Definition lower_char (c : ascii) : ascii :=
  if isupper c then ascii_of_nat (nat_of_ascii c + 32) else c.

(** [s.lower()] *)
Fixpoint lower (s : string) : string :=
  match s with
  | EmptyString => EmptyString
  | String c r => String (lower_char c) (lower r)
  end.

Definition upper_char (c : ascii) : ascii :=
  if islower c then ascii_of_nat (nat_of_ascii c - 32) else c.

(** [s.upper()] *)
Fixpoint upper (s : string) : string :=
  match s with
  | EmptyString => EmptyString
  | String c r => String (upper_char c) (upper r)
  end.

(** [s.lstrip()], also [re.sub(r'^\s+', '', s)] *)
Fixpoint lstrip (s : string) : string :=
  match s with
  | EmptyString => EmptyString
  | String c r => if isspace c then lstrip r else s
  end.

(** [s.rstrip()] *)
Fixpoint rstrip (s : string) : string :=
  match s with
  | EmptyString => EmptyString
  | String c r =>
      match rstrip r with
      | EmptyString => if isspace c then EmptyString else String c EmptyString
      | r' => String c r'
      end
  end.

Definition strip (s : string) : string := lstrip (rstrip s).

(** [s.find(c) >= 0] for a one-character needle. *)
Fixpoint contains_char (c : ascii) (s : string) : bool :=
  match s with
  | EmptyString => false
  | String d r => Ascii.eqb c d || contains_char c r
  end.

(** [s.split(sep)] for a one-character separator: never the empty list. *)
Fixpoint split (sep : ascii) (s : string) : list string :=
  match s with
  | EmptyString => [EmptyString]
  | String c r =>
      if Ascii.eqb c sep then EmptyString :: split sep r
      else match split sep r with
           | w :: ws => String c w :: ws
           | [] => [String c EmptyString]
           end
  end.

(** [s.split(sep, 1)]: cut at the first separator only. *)
Fixpoint split1 (sep : ascii) (s : string) : list string :=
  match s with
  | EmptyString => [EmptyString]
  | String c r =>
      if Ascii.eqb c sep then [EmptyString; r]
      else match split1 sep r with
           | w :: ws => String c w :: ws
           | [] => [String c EmptyString]
           end
  end.

(** [sep.join(l)] *)
Fixpoint join (sep : string) (l : list string) : string :=
  match l with
  | [] => EmptyString
  | [w] => w
  | w :: ws => w +:+ sep +:+ join sep ws
  end.

(** [s.replace(a, b)] for one-character [a] and [b]. *)
Fixpoint replace_char (a b : ascii) (s : string) : string :=
  match s with
  | EmptyString => EmptyString
  | String c r => String (if Ascii.eqb c a then b else c) (replace_char a b r)
  end.

(** [s.replace(q, q + q)] for the double-quote character [q]. *)
Fixpoint double_quotes (s : string) : string :=
  match s with
  | EmptyString => EmptyString
  | String c r =>
      if Ascii.eqb c DQ then String c (String c (double_quotes r))
      else String c (double_quotes r)
  end.

(** [re.split(r', *', s)]: cut at each comma, the blanks that follow a
    comma belonging to the separator.  [skip] tells that a comma has just
    been passed. *)
Fixpoint re_split_comma_go (skip : bool) (s : string) : list string :=
  match s with
  | EmptyString => [EmptyString]
  | String c r =>
      if skip && Ascii.eqb c " " then re_split_comma_go true r
      else if Ascii.eqb c "," then EmptyString :: re_split_comma_go true r
      else match re_split_comma_go false r with
           | w :: ws => String c w :: ws
           | [] => [String c EmptyString]
           end
  end.

Definition re_split_comma (s : string) : list string :=
  re_split_comma_go false s.

(** [f.readline()] on the bytes still to be read: the line with its
    newline, and what follows it. *)
Fixpoint readline (s : string) : string * string :=
  match s with
  | EmptyString => (EmptyString, EmptyString)
  | String c r =>
      if Ascii.eqb c "010" then (String c EmptyString, r)
      else let '(l, rest) := readline r in (String c l, rest)
  end.

(** [str(n)] and ['%d' % n] for an int or long. *)
Definition str (n : Z) : string := NilZero.string_of_int (Z.to_int n).

(** Digits of an unsigned decimal literal; the empty string is not one. *)
Definition uint_lit (s : string) : option Z :=
  match NilZero.uint_of_string s with
  | Some d => Some (Z.of_uint d)
  | None => None
  end.

(** [int(s)] for a str in base 10, as Python 2 reads it: surrounding
    white space is skipped, one sign is allowed, white space may follow the
    sign, and at least one digit is required. *)
Definition int (s : string) : result Z :=
  match strip s with
  | String "-" r => of_option ValueError (option_map Z.opp (uint_lit (lstrip r)))
  | String "+" r => of_option ValueError (uint_lit (lstrip r))
  | r => of_option ValueError (uint_lit r)
  end.

(** [s.isdigit()]: at least one character, and digits only. *)
Fixpoint all_digits (s : string) : bool :=
  match s with
  | EmptyString => true
  | String c r => isdigit c && all_digits r
  end.

Definition str_isdigit (s : string) : bool :=
  match s with
  | EmptyString => false
  | _ => all_digits s
  end.

(** Bytes as numbers: [ord(c)] and [chr(n)]. *)
Definition ord (c : ascii) : Z := Z.of_nat (nat_of_ascii c).
Definition chr (n : Z) : ascii := ascii_of_nat (Z.to_nat (n mod 256)).

(** [s[i]] *)
Definition index (s : string) (i : nat) : result ascii :=
  of_option IndexError (String.get i s).

(** [s[a:]], [s[:b]] and [s[a:b]] for non-negative bounds. *)
Fixpoint sdrop (n : nat) (s : string) : string :=
  match n, s with
  | O, _ => s
  | S n', String _ r => sdrop n' r
  | S _, EmptyString => EmptyString
  end.

Fixpoint stake (n : nat) (s : string) : string :=
  match n, s with
  | O, _ => EmptyString
  | S n', String c r => String c (stake n' r)
  | S _, EmptyString => EmptyString
  end.

Definition slice (a b : nat) (s : string) : string := stake (b - a) (sdrop a s).

(** Big-endian unsigned integers, as [struct.unpack('>H')] and ['>I'] read
    them and [struct.pack] writes them.  Packing reduces the value modulo
    the field width, which is what the Python releases contemporary with
    the code (2.4 to 2.6) do for standard-size formats. *)
Fixpoint be_decode (s : string) (acc : Z) : Z :=
  match s with
  | EmptyString => acc
  | String c r => be_decode r (acc * 256 + ord c)
  end.

Fixpoint be_encode (width : nat) (n : Z) : string :=
  match width with
  | O => EmptyString
  | S w => String (chr (Z.shiftr n (8 * Z.of_nat w))) (be_encode w n)
  end.

Definition pack_H (n : Z) : string := be_encode 2 n.
Definition pack_I (n : Z) : string := be_encode 4 n.

(** [struct.unpack('>' + 'I' * n, s)]: the string must hold exactly [4 * n]
    bytes, otherwise struct.error is raised. *)
Fixpoint unpack_Is_go (n : nat) (s : string) : list Z :=
  match n with
  | O => []
  | S n' => be_decode (stake 4 s) 0 :: unpack_Is_go n' (sdrop 4 s)
  end.

Definition unpack_Is (n : Z) (s : string) : result (list Z) :=
  if Z.of_nat (String.length s) =? 4 * n
  then Ok (unpack_Is_go (Z.to_nat n) s)
  else Raise StructError.

(** Stateful code that may raise: the state reached when an exception
    escapes is kept, as mutations made before a raise persist in Python. *)
Definition M (S A : Type) : Type := S -> result A * S.

Definition mret' {S A} (a : A) : M S A := fun s => (Ok a, s).

Definition mbind' {S A B} (m : M S A) (f : A -> M S B) : M S B :=
  fun s => match m s with
           | (Ok a, s') => f a s'
           | (Raise e, s') => (Raise e, s')
           end.

#[global] Instance M_Bind {S} : Bind (M S) := @mbind' S.
#[global] Instance M_Ret {S} : Ret (M S) := @mret' S.

Definition raise {S A} (e : exn) : M S A := fun s => (Raise e, s).
Definition lift {S A} (r : result A) : M S A := fun s => (r, s).
Definition gets {S A} (f : S -> A) : M S A := fun s => (Ok (f s), s).
Definition modify {S} (f : S -> S) : M S unit := fun s => (Ok tt, f s).

(** [try: m / except <e matching is_cls>: handler] *)
Definition catch {S A} (m : M S A) (is_cls : exn -> bool) (handler : M S A)
    : M S A :=
  fun s => match m s with
           | (Ok a, s') => (Ok a, s')
           | (Raise e, s') => if is_cls e then handler s' else (Raise e, s')
           end.

(** [try: m / finally: fin]: an exception of [fin] replaces that of [m]. *)
Definition finally_ {S A} (m : M S A) (fin : M S unit) : M S A :=
  fun s => match m s with
           | (r, s') =>
               match fin s' with
               | (Ok _, s'') => (r, s'')
               | (Raise e, s'') => (Raise e, s'')
               end
           end.

(** [for x in l: body(x)] *)
Fixpoint for_each {S A} (l : list A) (body : A -> M S unit) : M S unit :=
  match l with
  | [] => mret' tt
  | x :: r => mbind' (body x) (fun _ => for_each r body)
  end.

End Py.

(* ===================================================================== *)
(** * Regular expressions (module re) *)
(* ===================================================================== *)

Module Re.
Import Py.

(** The fragment of the pattern language the sources use, with Python's
    matching order: a star takes as many turns as it can before giving
    turns back, and the left branch of an alternative is tried first. *)
Inductive re : Type :=
  | Eps
  | Chr (p : ascii -> bool)
  | Seq (a b : re)
  | Alt (a b : re)
  | Star (a : re)
  | Group (i : nat) (a : re)
  | Eos.                       (* the dollar sign *)

Definition caps : Type := list (nat * string).

(** [match.group(i)]; the last capture of a group is the one kept. *)
Fixpoint group (i : nat) (c : caps) : string :=
  match c with
  | [] => EmptyString
  | (j, s) :: r => if (j =? i)%nat then s else group i r
  end.

Definition at_end (s : string) : bool :=
  String.eqb s EmptyString || String.eqb s nl.

Fixpoint m (r : re) (s : string) (c : caps)
    (k : string -> caps -> option caps) {struct r} : option caps :=
  match r with
  | Eps => k s c
  | Chr p =>
      match s with
      | String x s' => if p x then k s' c else None
      | EmptyString => None
      end
  | Seq a b => m a s c (fun s' c' => m b s' c' k)
  | Alt a b =>
      match m a s c k with
      | Some x => Some x
      | None => m b s c k
      end
  | Star a =>
      (fix star (n : nat) (s : string) (c : caps) {struct n} : option caps :=
         match n with
         | O => k s c
         | S n' =>
             match m a s c (fun s' c' =>
                              if (String.length s' <? String.length s)%nat
                              then star n' s' c' else None) with
             | Some x => Some x
             | None => k s c
             end
         end) (String.length s) s c
  | Group i a =>
      m a s c (fun s' c' =>
                 k s' ((i, stake (String.length s - String.length s') s) :: c'))
  | Eos => if at_end s then k s c else None
  end.

(** [re.match(r, s)] *)
Definition rmatch (r : re) (s : string) : option caps :=
  m r s [] (fun _ c => Some c).

Definition Plus (a : re) : re := Seq a (Star a).

Fixpoint Lit (s : string) : re :=
  match s with
  | EmptyString => Eps
  | String c r => Seq (Chr (Ascii.eqb c)) (Lit r)
  end.

Fixpoint Rep (n : nat) (a : re) : re :=
  match n with
  | O => Eps
  | S n' => Seq a (Rep n' a)
  end.

Fixpoint Cat (l : list re) : re :=
  match l with
  | [] => Eps
  | [a] => a
  | a :: r => Seq a (Cat r)
  end.

Definition digit : re := Chr isdigit.                            (* \d *)
Definition space : re := Chr isspace.                            (* \s *)
Definition dot : re := Chr (fun c => negb (Ascii.eqb c LF)).     (* . *)
Definition not_quote : re := Chr (fun c => negb (Ascii.eqb c DQ)).
Definition quote : re := Chr (Ascii.eqb DQ).

End Re.

(* ===================================================================== *)
(** * session.py *)
(* ===================================================================== *)

Module Session.
Import Py.

(** A session: whether a socket is held, what has been written to it, and
    the lines the server is going to send, each with its newline.  The
    warning flag belongs to BlitzSession.  Socket errors other than the end
    of the stream are not part of the model. *)
Record Session : Type := mk_Session {
  _conn : bool;
  sent : list string;
  _input : list string;
  warn_flag : bool
}.

Definition is_connected (s : Session) : bool := _conn s.

(** [_close()] *)
Definition _close : M Session unit :=
  modify (fun s => mk_Session false (sent s) [] (warn_flag s)).

(** [_rawsend(data)] *)
Definition _rawsend (data : string) : M Session unit :=
  c <- gets _conn ;;
  if c then modify (fun s => mk_Session (_conn s) (sent s ++ [data])
                               (_input s) (warn_flag s))
  else raise NotConnectedError.

Definition _cmd0 (cmd : string) : M Session unit :=
  _rawsend (cmd +:+ nl).

Definition _cmd1 (cmd arg : string) : M Session unit :=
  _rawsend (cmd +:+ " " +:+ arg +:+ nl).

Definition _cmd2 (cmd arg1 arg2 sep : string) : M Session unit :=
  _rawsend (cmd +:+ " " +:+ arg1 +:+ sep +:+ arg2 +:+ nl).

Definition _cmd3 (cmd arg1 arg2 arg3 sep : string) : M Session unit :=
  _rawsend (cmd +:+ " " +:+ join sep [arg1; arg2; arg3] +:+ nl).

(** [_readline()] *)
Definition _readline : M Session (Z * string) :=
  c <- gets _conn ;;
  if negb c then raise NotConnectedError
  else
    lines <- gets _input ;;
    match lines with
    | [] => _ <- _close ;; raise LostConnectionError
    | line :: rest =>
        _ <- modify (fun s => mk_Session (_conn s) (sent s) rest (warn_flag s)) ;;
        if String.eqb line EmptyString
        then _ <- _close ;; raise LostConnectionError
        else
          match split1 " " line with
          | [key; data] =>
              k <- lift (int key) ;;
              ret (k, rstrip data)
          | _ => raise ValueError
          end
    end.

(** [Session._expect] with the wanted codes. *)
Definition _expect (wanted : list Z) : M Session (Z * string) :=
  '(key, data) <- _readline ;;
  if bool_decide (key ∈ wanted) then ret (key, data)
  else raise (ProtocolError key data).

(** [BlitzSession._expect] with the wanted codes. *)
Definition blitz_expect (wanted : list Z) : M Session (Z * string) :=
  '(key, data) <- _readline ;;
  let flag := key / 100 in
  let value := key mod 100 in
  if bool_decide (value ∈ map (fun k => k mod 100) wanted) then
    _ <- modify (fun s => mk_Session (_conn s) (sent s) (_input s)
                            (negb (flag =? 0))) ;;
    ret (value, data)
  else raise (ProtocolError key data).

End Session.

(* ===================================================================== *)
(** * bmesg.py and bfold.py *)
(* ===================================================================== *)

Module Bmesg.
Import Py Re Session.

(** The offset in seconds between 01-Jan-1970 and 01-Jan-1904. *)
Definition _time_offset : Z := -2082826800.

(** What the code takes from outside the repository: [sys.maxint], and
    [time.mktime(time.strptime(text, format))] in the local time zone, which
    fails with ValueError when the text does not fit the format. *)
Record Platform : Type := mk_Platform {
  INT_MAX : Z;
  mktime_strptime : string -> string -> option Z
}.

(** A quoted field of the summary line: between two double quotes, a
    captured run of characters other than the double quote and of doubled
    double quotes. *)
Definition quoted (i : nat) : re :=
  Cat [quote; Group i (Star (Alt not_quote (Seq quote quote))); quote].

Definition comma : re := Lit ",".

(** [_summ_re] *)
Definition _summ_re : re :=
  Cat [ Group 1 (Plus digit); comma;
        Group 2 (Cat [Rep 2 digit; Lit "/"; Rep 2 digit; Lit "/"; Rep 2 digit]);
        comma;
        Group 3 (Cat [Rep 2 digit; Lit ":"; Rep 2 digit; Lit ":"; Rep 2 digit]);
        comma;
        Group 4 digit; comma;
        quoted 5; comma; quoted 6; comma; quoted 7; comma;
        Group 8 (Plus digit); comma;
        Group 9 (Plus digit); comma;
        Group 10 (Chr isupper); comma;
        Group 11 (Plus digit); Eos ].

(** ** class BlitzHeader *)

(** A character of a header name after the first: a letter, a digit or a
    hyphen.  The pattern is compiled with the flag i, so that letters of
    both cases are accepted. *)
Definition name_char (c : ascii) : bool :=
  isalpha c || isdigit c || Ascii.eqb c "-".

(** The pattern of [parse]: a name, a colon, white space, the rest. *)
Definition header_re : re :=
  Cat [ Group 1 (Seq (Chr isalpha) (Star (Chr name_char))); Lit ":";
        Star space; Group 2 (Plus dot); Eos ].

(** The first loop of [parse]: continuation lines are joined to the line
    before them; a continuation line with no line before it makes
    [unfolded[-1]] raise IndexError. *)
Fixpoint unfold_lines (lines unfolded : list string) : result (list string) :=
  match lines with
  | [] => Ok unfolded
  | line :: rest =>
      match line with
      | EmptyString => unfold_lines rest unfolded
      | String c _ =>
          if isspace c then
            match last unfolded with
            | None => Raise IndexError
            | Some l =>
                unfold_lines rest
                  (removelast unfolded ++ [l +:+ " " +:+ lstrip line])
            end
          else unfold_lines rest (unfolded ++ [line])
      end
  end.

(** The second loop: the lines that match, as pairs (name, data). *)
Definition unpack (unfolded : list string) : list (string * string) :=
  omap (fun line => match rmatch header_re line with
                    | Some g => Some (group 1 g, group 2 g)
                    | None => None
                    end) unfolded.

(** A dict with str keys, as the list of its items in the order in which
    the keys were first set.  The order in which Python 2 iterates over a
    dict is another matter: see [dict_order] below. *)
Definition dict (V : Type) : Type := list (string * V).

Fixpoint dict_get {V} (k : string) (d : dict V) : option V :=
  match d with
  | [] => None
  | (k', v) :: r => if String.eqb k' k then Some v else dict_get k r
  end.

Fixpoint dict_set {V} (k : string) (v : V) (d : dict V) : dict V :=
  match d with
  | [] => [(k, v)]
  | (k', v') :: r =>
      if String.eqb k' k then (k, v) :: r else (k', v') :: dict_set k v r
  end.

(** [self.index.setdefault(key, (hdr, []))[1].append(data)] *)
Definition index_add (idx : dict (string * list string))
    (entry : string * string) : dict (string * list string) :=
  let '(hdr, data) := entry in
  let key := lower hdr in
  match dict_get key idx with
  | Some (name, lst) => dict_set key (name, lst ++ [data]) idx
  | None => dict_set key (hdr, [data]) idx
  end.

Definition build_index (unpacked : list (string * string))
    : dict (string * list string) :=
  foldl index_add [] unpacked.

Record BlitzHeader : Type := mk_Header {
  data : string;
  index : dict (string * list string)
}.

(** The header lines of a text, in the order of the message. *)
Definition header_lines (text : string) : result (list (string * string)) :=
  unfolded <- unfold_lines (split LF text) [] ;;
  Ok (unpack unfolded).

(** [BlitzHeader(text)] for a str. *)
Definition BlitzHeader_init (text : string) : result BlitzHeader :=
  unpacked <- header_lines text ;;
  Ok (mk_Header text (build_index unpacked)).

(** [get(hdr)], the iterator as the list of what it yields. *)
Definition get (h : BlitzHeader) (hdr : string)
    : result (list (string * string)) :=
  match dict_get (lower hdr) (index h) with
  | Some (name, lst) => Ok (map (pair name) lst)
  | None => Raise KeyError
  end.

(** [first(hdr)] and [__getitem__] *)
Definition first (h : BlitzHeader) (hdr : string) : result (string * string) :=
  l <- get h hdr ;;
  match l with
  | x :: _ => Ok x
  | [] => Raise StopIteration
  end.

Definition getitem (h : BlitzHeader) (key : string) : result (string * string) :=
  first h key.

(** [__len__] *)
Definition header_len (h : BlitzHeader) : nat := length (index h).

Section DictOrder.
(** The order in which [itervalues] goes through the items of a dict; it
    depends on the hashes of the keys and nothing is promised about it. *)
Variable dict_order : dict (string * list string) -> dict (string * list string).

(** [keys()] *)
Definition keys (h : BlitzHeader) : list string :=
  map (fun z => z.2.1) (dict_order (index h)).

(** [iteritems()] and [items()] *)
Definition items (h : BlitzHeader) : list (string * string) :=
  concat (map (fun z => map (pair z.2.1) z.2.2) (dict_order (index h))).

(** [__iter__]: [itertools.chain] of [get(x)] over [keys()]. *)
Fixpoint chain_gets (h : BlitzHeader) (names : list string)
    : result (list (string * string)) :=
  match names with
  | [] => Ok []
  | x :: r => l <- get h x ;; ls <- chain_gets h r ;; Ok (l ++ ls)
  end.

Definition iter (h : BlitzHeader) : result (list (string * string)) :=
  chain_gets h (keys h).
End DictOrder.

(** The occurrences of the header named [k], in lower case, among the
    lines [u] of a message, and what the header map yields for them: each
    with its own data, all under the name as the first of them spells it. *)
Definition occurrences (k : string) (u : list (string * string))
    : list (string * string) :=
  filter (fun x => lower x.1 = k) u.

Definition group_of (u : list (string * string)) (k : string)
    : list (string * string) :=
  match occurrences k u with
  | [] => []
  | ((n, _) :: _) as l => map (pair n) l.*2
  end.

(** A folder, as far as bfold.py keeps it; [need_rl] forces a reload
    before [count], [name] or [size] is read. *)
Record BlitzFolder : Type := mk_Folder {
  f_id : Z;
  f_count : Z;
  f_name : string;
  f_size : Z;
  need_rl : bool
}.

(** class BlitzSummary, without its caches; [folder] is the id of the
    folder the summary belongs to. *)
Record BlitzSummary : Type := mk_Summary {
  folder : Z;
  message_id : Z;
  delivery_date : string;
  delivery_time : string;
  delivered : Z;
  message_format : Z;
  sender_name : string;
  rcpt_name : string;
  subject : string;
  length_ : Z;
  num_enclosures : Z;
  status : string;
  expires : Z
}.

Definition set_expires (e : Z) (m : BlitzSummary) : BlitzSummary :=
  mk_Summary (folder m) (message_id m) (delivery_date m) (delivery_time m)
    (delivered m) (message_format m) (sender_name m) (rcpt_name m)
    (subject m) (length_ m) (num_enclosures m) (status m) e.

Definition set_folder (f : Z) (m : BlitzSummary) : BlitzSummary :=
  mk_Summary f (message_id m) (delivery_date m) (delivery_time m)
    (delivered m) (message_format m) (sender_name m) (rcpt_name m)
    (subject m) (length_ m) (num_enclosures m) (status m) (expires m).

(** A mail session with the folder objects it has handed out, by id. *)
Record Mail : Type := mk_Mail {
  sess : Session;
  folders : gmap Z BlitzFolder
}.

(** Run a session primitive in the mail session. *)
Definition on_sess {A} (m : M Session A) : M Mail A :=
  fun w => match m (sess w) with
           | (r, s') => (r, mk_Mail s' (folders w))
           end.

(** [folder.touch()] *)
Definition touch (fid : Z) : M Mail unit :=
  modify (fun w => mk_Mail (sess w)
    (alter (fun f => mk_Folder (f_id f) (f_count f) (f_name f) (f_size f) true)
           fid (folders w))).

Section WithPlatform.
Variable P : Platform.

(** [_parse_response(data)]: the summary for the line [data], of the folder
    [fid]. *)
Definition _parse_response (fid : Z) (data : string) : result BlitzSummary :=
  match rmatch _summ_re data with
  | None => Raise ValueError
  | Some g =>
      mid <- int (group 1 g) ;;
      dlv <- of_option ValueError
               (mktime_strptime P (group 2 g +:+ " " +:+ group 3 g)
                                "%m/%d/%y %H:%M:%S") ;;
      fmt <- int (group 4 g) ;;
      len <- int (group 8 g) ;;
      enc <- int (group 9 g) ;;
      exp <- int (group 11 g) ;;
      Ok (mk_Summary fid mid (group 2 g) (group 3 g) dlv fmt (group 5 g)
            (group 6 g) (group 7 g) len enc (group 10 g) (exp + _time_offset))
  end.

(** The argument of [set_expiration]: an int, a str, or anything else. *)
Inductive when_arg : Type :=
  | WInt (n : Z)
  | WStr (s : string)
  | WOther.

(** [_parse_expire(when)] *)
Definition _parse_expire (when : when_arg) : result Z :=
  match when with
  | WInt n => Ok (n - _time_offset)
  | WOther => Raise ValueError
  | WStr w =>
      if String.eqb (lower w) "never" then Ok (2 * INT_MAX P + 1)
      else
        match mktime_strptime P w "%m/%d/%Y %H:%M:%S" with
        | Some t => Ok (t - _time_offset)
        | None =>
            t <- of_option ValueError (mktime_strptime P w "%m/%d/%Y") ;;
            Ok (t - _time_offset)
        end
  end.

(** [reload()] *)
Definition reload (m : BlitzSummary) : M Mail BlitzSummary :=
  _ <- on_sess (_cmd2 "MSUM" (str (folder m)) (str (message_id m)) "/") ;;
  '(key, data) <- on_sess (blitz_expect [0]) ;;
  lift (_parse_response (folder m) data).

(** [set_expiration(when)] *)
Definition set_expiration (m : BlitzSummary) (when : when_arg)
    : M Mail BlitzSummary :=
  exp_time <- lift (_parse_expire when) ;;
  _ <- on_sess (_cmd2 "EXPR" (str (folder m) +:+ "/" +:+ str (message_id m))
                  (str exp_time) " ") ;;
  _ <- on_sess (blitz_expect [10]) ;;
  reload m.

(** [while key <> 0: (key, data) = self.session()._expect(00, 01)]; the
    loop reads at most the lines that are there. *)
Fixpoint drain (fuel : nat) (key : Z) : M Mail unit :=
  if key =? 0 then ret tt
  else match fuel with
       | O => raise LostConnectionError
       | S fuel' =>
           '(key', _) <- on_sess (blitz_expect [0; 1]) ;;
           drain fuel' key'
       end.

(** [_move_message(op, new_folder)] *)
Definition _move_message (m : BlitzSummary) (op : string) (new_folder : Z)
    : M Mail BlitzSummary :=
  let src_id := folder m in
  let tgt_id := new_folder in
  let my_id := message_id m in
  _ <- on_sess (_cmd3 op (str src_id) (str tgt_id) (str my_id) " ") ;;
  '(key, data) <- on_sess (blitz_expect [1]) ;;
  new_exp <- lift (int data) ;;
  let m' := if negb (new_exp =? -1) && negb (String.eqb op "COPY")
            then set_expires new_exp m else m in
  n <- gets (fun w => length (_input (sess w))) ;;
  _ <- drain (S n) key ;;
  _ <- touch (folder m') ;;
  _ <- touch new_folder ;;
  ret m'.

(** [move_to(new_folder)] *)
Definition move_to (m : BlitzSummary) (new_folder : Z) : M Mail BlitzSummary :=
  m' <- _move_message m "MOVE" new_folder ;;
  _ <- touch (folder m') ;;
  _ <- touch new_folder ;;
  ret (set_folder new_folder m').

(** [copy_to(new_folder)] *)
Definition copy_to (m : BlitzSummary) (new_folder : Z) : M Mail BlitzSummary :=
  m' <- _move_message m "COPY" new_folder ;;
  _ <- touch new_folder ;;
  ret m'.

End WithPlatform.
End Bmesg.

Module Bfold.
Import Py Re Session Bmesg.

(** [_info_re] *)
Definition _info_re : re :=
  Cat [ Group 1 (Plus digit); comma; Group 2 (Plus digit); comma;
        quote; Group 3 (Plus dot); quote; comma; Group 4 (Plus digit) ].

(** [_parse_info(data)] on the folder [f]. *)
Definition _parse_info (f : BlitzFolder) (data : string) : result BlitzFolder :=
  match rmatch _info_re data with
  | None => Raise ValueError
  | Some g =>
      id <- int (group 1 g) ;;
      cnt <- int (group 2 g) ;;
      sz <- int (group 4 g) ;;
      Ok (mk_Folder id cnt (group 3 g) sz (need_rl f))
  end.

Definition the_folder (fid : Z) : M Mail BlitzFolder :=
  f <- gets (fun w => folders w !! fid) ;;
  match f with
  | Some f => ret f
  | None => raise KeyError
  end.

Definition put_folder (fid : Z) (f : BlitzFolder) : M Mail unit :=
  modify (fun w => mk_Mail (sess w) (<[fid := f]> (folders w))).

(** [reload()] *)
Definition reload (fid : Z) : M Mail unit :=
  f <- the_folder fid ;;
  _ <- on_sess (_cmd1 "FLIS" (str (f_id f))) ;;
  '(key, data) <- on_sess (blitz_expect [0]) ;;
  f' <- lift (_parse_info f data) ;;
  put_folder fid (mk_Folder (f_id f') (f_count f') (f_name f') (f_size f') false).

(** Reading [self.count] through [__getattribute__]. *)
Definition get_count (fid : Z) : M Mail Z :=
  f <- the_folder fid ;;
  _ <- (if need_rl f then reload fid else ret tt) ;;
  f <- the_folder fid ;;
  ret (f_count f).

(** The upper end of a range: a number or the dollar sign. *)
Inductive hi_index : Type :=
  | HiNum (n : Z)
  | HiLast.

Definition hi_str (h : hi_index) : string :=
  match h with HiNum n => str n | HiLast => "$" end.

(** The range [rng] that [get_summaries] asks for. *)
Definition range_of (lo : option Z) (hi : option hi_index) : string :=
  match hi, lo with
  | None, None => "1-$"
  | None, Some l => str l
  | Some h, None => str 1 +:+ "-" +:+ hi_str h
  | Some h, Some l => str l +:+ "-" +:+ hi_str h
  end.

Section WithPlatform.
Variable P : Platform.

(** The loop of [get_summaries] and the append after it. *)
Fixpoint collect (fuel : nat) (fid : Z) (key : Z) (data : string)
    (out : list BlitzSummary) : M Mail (list BlitzSummary) :=
  if key =? 0 then
    m <- lift (_parse_response P fid data) ;;
    ret (out ++ [m])
  else match fuel with
       | O => raise LostConnectionError
       | S fuel' =>
           m <- lift (_parse_response P fid data) ;;
           '(key', data') <- on_sess (blitz_expect [0; 1]) ;;
           collect fuel' fid key' data' (out ++ [m])
       end.

(** [get_summaries(lo_index, hi_index)] *)
Definition get_summaries (fid : Z) (lo : option Z) (hi : option hi_index)
    : M Mail (list BlitzSummary) :=
  cnt <- get_count fid ;;
  if cnt =? 0 then ret []
  else
    let rng := range_of lo hi in
    f <- the_folder fid ;;
    _ <- on_sess (_cmd2 "FSUM" (str (f_id f)) rng " ") ;;
    '(key, data) <- on_sess (blitz_expect [0; 1]) ;;
    n <- gets (fun w => length (_input (sess w))) ;;
    collect (S n) fid key data [].

End WithPlatform.
End Bfold.

(* ===================================================================== *)
(** * bulls.py *)
(* ===================================================================== *)

Module Bulls.
Import Py.

(** A topic, as far as its read list goes.  The topic is one that has been
    loaded: [id_low] and the other attributes of the server hold values, so
    that reading them does not go to the server.  [_rcache] is the dict of
    the ids of the articles that were read, each mapped to True. *)
Record Topic : Type := mk_Topic {
  id_low : Z;
  id_high : Z;
  last_id : Z;
  info : string;
  _rcache : gmap Z bool
}.

Definition set_rcache (rc : gmap Z bool) (t : Topic) : Topic :=
  mk_Topic (id_low t) (id_high t) (last_id t) (info t) rc.

Definition set_info (i : string) (t : Topic) : Topic :=
  mk_Topic (id_low t) (id_high t) (last_id t) i (_rcache t).

(** [Article.mark_read], [mark_unread] and [is_read], for an article whose
    id reads as the int [id]. *)
Definition mark_read (id : Z) (t : Topic) : Topic :=
  set_rcache (<[id := true]> (_rcache t)) t.

Definition mark_unread (id : Z) (t : Topic) : Topic :=
  set_rcache (delete id (_rcache t)) t.

Definition is_read (id : Z) (t : Topic) : bool :=
  bool_decide (is_Some (_rcache t !! id)).

(** [if id != 0: self._rcache[id] = True] *)
Definition mark_id (rc : gmap Z bool) (id : Z) : gmap Z bool :=
  if id =? 0 then rc else <[id := true]> rc.

(** [xrange(a, b)] *)
Definition xrange (a b : Z) : list Z := seqZ a (b - a).

(** One turn of the loop of [parseinfo] over [read.split(',')]: a range
    lo-hi, a single id, or nothing. *)
Definition read_piece (rc : gmap Z bool) (r : string) : result (gmap Z bool) :=
  if contains_char "-" r then
    match split "-" r with
    | [lo; hi] =>
        a <- int lo ;;
        b <- int hi ;;
        Ok (foldl mark_id rc (xrange a (b + 1)))
    | _ => Raise ValueError
    end
  else
    match r with
    | EmptyString => Ok rc
    | _ => n <- int r ;; Ok (mark_id rc n)
    end.

Fixpoint read_pieces (rc : gmap Z bool) (rs : list string)
    : result (gmap Z bool) :=
  match rs with
  | [] => Ok rc
  | r :: rest => rc' <- read_piece rc r ;; read_pieces rc' rest
  end.

(** [data[6].split(';', 1)], the whole field being the read list when
    there is no semicolon. *)
Definition split_info (field : string) : string * string :=
  match split1 ";" field with
  | [read; i] => (read, i)
  | _ => (field, EmptyString)
  end.

(** The end of [parseinfo]: the seventh field of the line of the server
    gives the reader info and the ids that were read, which are added to
    the ones the topic holds. *)
Definition parse_read_field (field : string) (t : Topic) : result Topic :=
  let '(read, i) := split_info field in
  rc <- read_pieces (_rcache t) (split "," read) ;;
  Ok (set_rcache rc (set_info i t)).

(** The first loop of [_make_read_list]: the keys below [id_low] are
    deleted, going through the list of keys as it was before the loop. *)
Definition prune (low : Z) (rc : gmap Z bool) : gmap Z bool :=
  foldl (fun c key => if key <? low then delete key c else c)
        rc (map_to_list rc).*1.

(** The inner loop: [hi] moves on while [id[hi] == id[hi - 1] + 1].  Here
    [hi] is at least 1 and, where [id[hi - 1]] is read, less than the
    length.  The loops are written with fuel and answer None when it runs
    out. *)
Fixpoint run_end (fuel : nat) (id : list Z) (hi : nat) : option nat :=
  match fuel with
  | O => None
  | S fuel' =>
      match id !! hi with
      | Some x =>
          if x =? id !!! (hi - 1)%nat + 1 then run_end fuel' id (S hi)
          else Some hi
      | None => Some hi
      end
  end.

(** The outer loop, from [lo] on, with the pieces found so far. *)
Fixpoint collapse (fuel : nat) (id : list Z) (lo : nat) (out : list string)
    : option (list string) :=
  match fuel with
  | O => None
  | S fuel' =>
      match id !! lo with
      | None => Some out
      | Some x =>
          match run_end (length id) id (lo + 1) with
          | None => None
          | Some hi =>
              let piece :=
                if (lo =? hi - 1)%nat then str x
                else str x +:+ "-" +:+ str (id !!! (hi - 1)%nat) in
              collapse fuel' id hi (out ++ [piece])
          end
      end
  end.

(** [_make_read_list]: the string, and the topic with its pruned dict. *)
Definition _make_read_list (t : Topic) : option (string * Topic) :=
  let rc := prune (id_low t) (_rcache t) in
  let id := merge_sort Z.le (map_to_list rc).*1 in
  match collapse (S (length id)) id 0 [] with
  | Some out =>
      Some (join "," (match out with [] => ["0-0"] | _ => out end),
            set_rcache rc t)
  | None => None
  end.

(** What the loops compute, by recursion on the sorted list: its maximal
    runs of consecutive ids, each with its first and its last id. *)
Fixpoint run_len (b : Z) (l : list Z) : nat :=
  match l with
  | x :: r => if x =? b + 1 then S (run_len x r) else O
  | [] => O
  end.

Fixpoint runs_from (a b : Z) (l : list Z) : list (Z * Z) :=
  match l with
  | [] => [(a, b)]
  | x :: r => if x =? b + 1 then runs_from a x r else (a, b) :: runs_from x x r
  end.

Definition runs (l : list Z) : list (Z * Z) :=
  match l with
  | [] => []
  | x :: r => runs_from x x r
  end.

Definition show_run (r : Z * Z) : string :=
  if r.1 =? r.2 then str r.1 else str r.1 +:+ "-" +:+ str r.2.

(** The ids of a list of runs. *)
Definition expand (rs : list (Z * Z)) : list Z :=
  concat (map (fun r => xrange r.1 (r.2 + 1)) rs).

(** The set of ids a dict holds. *)
Definition read_set (t : Topic) : gset Z := dom (_rcache t).

End Bulls.

(* ===================================================================== *)
(** * notify/packet.py *)
(* ===================================================================== *)

Module Packet.
Import Py.

(** Names bound in the module namespace of packet.py.  The struct module
    is imported as [_struct] and [operator.or_] as [_or_]; the name
    [struct] itself is bound nowhere (it is no builtin either). *)
Definition module_globals : list string :=
  [ "_struct"; "_or_"; "NOTIFY_SERVICE"; "ATP_TYPE"; "ATP_FLAG";
    "DDP_ATP_PACKET"; "ATP_HEADER_LEN";
    "make_notify_req"; "parse_notify_req"; "make_register_req";
    "parse_register_req"; "make_clear_req"; "parse_clear_req";
    "make_atp_packet"; "parse_atp_packet" ].

(** Evaluating a global name: NameError when it is not bound. *)
Definition global_name (n : string) : result unit :=
  if bool_decide (n ∈ module_globals) then Ok tt else Raise NameError.

(** [try: body / except <cls>: handler].  The class expression of the
    except clause is evaluated only once the body has raised, and its own
    evaluation may raise. *)
Definition try_except {A} (body : result A)
    (cls : result (exn -> bool)) (handler : result A) : result A :=
  match body with
  | Ok a => Ok a
  | Raise e =>
      match cls with
      | Raise e' => Raise e'
      | Ok is_cls => if is_cls e then handler else Raise e
      end
  end.

Definition is_struct_error (e : exn) : bool :=
  match e with StructError => true | _ => false end.

(** The expression [struct.error] as written in the except clauses. *)
Definition struct_dot_error : result (exn -> bool) :=
  _ <- global_name "struct" ;; Ok is_struct_error.

(** ATP packet types and flags (the tables ATP_TYPE and ATP_FLAG). *)
Inductive kind : Type := req | rsp | rel | kind_other (code : Z).
Inductive flag : Type := xo | eom | sts | xcall | tidf | cksum.

#[global] Instance kind_eq_dec : EqDecision kind.
Proof. solve_decision. Defined.
#[global] Instance flag_eq_dec : EqDecision flag.
Proof. solve_decision. Defined.

Definition ATP_TYPE : list (kind * Z) := [ (req, 64); (rsp, 128); (rel, 192) ].

Definition ATP_FLAG : list (flag * Z) :=
  [ (xo, 32); (eom, 16); (sts, 8); (xcall, 4); (tidf, 2); (cksum, 1) ].

Definition DDP_ATP_PACKET : Z := 3.
Definition ATP_HEADER_LEN : nat := 8.

Definition kind_code (k : kind) : Z :=
  match k with req => 64 | rsp => 128 | rel => 192 | kind_other c => c end.

Definition flag_code (f : flag) : Z :=
  match f with
  | xo => 32 | eom => 16 | sts => 8 | xcall => 4 | tidf => 2 | cksum => 1
  end.

(** The argument tuple of [make_atp_packet], kept by every queue element
    as its [_data]. *)
Record atp : Type := mk_atp {
  atp_kind : kind;
  atp_flags : list flag;
  atp_seq : Z;
  atp_tid : Z;
  atp_udata : string;
  atp_pdata : option string
}.

Definition make_notify_req (service userid messid : Z) (data : option string)
    : string :=
  let out := pack_I service +:+ pack_I userid +:+ pack_I messid in
  match data with
  | None => out
  | Some d => out +:+ d
  end.

Definition parse_notify_req (pkt : string) : result (Z * Z * Z * string) :=
  if (String.length pkt <? 12)%nat then Raise ValueError
  else Ok (be_decode (slice 0 4 pkt) 0, be_decode (slice 4 8 pkt) 0,
           be_decode (slice 8 12 pkt) 0, sdrop 12 pkt).

Definition make_register_req (services : list Z) (uid : string) (port : Z)
    : string :=
  String (chr (Z.of_nat (String.length uid))) uid
    +:+ pack_H port +:+ pack_I (Z.of_nat (length services))
    +:+ foldr (fun s acc => pack_I s +:+ acc) EmptyString services.

(** [_struct.unpack('>HI', s)]: exactly six bytes are required. *)
Definition unpack_HI (s : string) : result (Z * Z) :=
  if (String.length s =? 6)%nat
  then Ok (be_decode (slice 0 2 s) 0, be_decode (slice 2 6 s) 0)
  else Raise StructError.

Definition parse_register_req (pkt : string) : result (string * Z * list Z) :=
  c <- index pkt 0 ;;
  let ulen := Z.to_nat (ord c) in
  if (String.length pkt <? ulen + 1)%nat then Raise ValueError
  else
    let uid := slice 1 (ulen + 1) pkt in
    let pkt := sdrop (ulen + 1) pkt in
    '(port, num_svc) <- unpack_HI (stake 6 pkt) ;;
    svcs <- try_except (unpack_Is num_svc (sdrop 6 pkt))
                      struct_dot_error
                      (Raise ValueError) ;;
    Ok (uid, port, svcs).

Definition make_clear_req (service userid : Z) : string :=
  pack_I userid +:+ pack_I service.

(** [_struct.unpack('>II', pkt)] *)
Definition unpack_II (s : string) : result (Z * Z) :=
  if (String.length s =? 8)%nat
  then Ok (be_decode (slice 0 4 s) 0, be_decode (slice 4 8 s) 0)
  else Raise StructError.

Definition parse_clear_req (pkt : string) : result (Z * Z) :=
  try_except (unpack_II pkt) struct_dot_error (Raise ValueError).

Definition make_atp_packet (a : atp) : result string :=
  let knd := kind_code (atp_kind a) in
  let flg := foldl (fun acc f => Z.lor acc (flag_code f)) 0 (atp_flags a) in
  if negb (String.length (atp_udata a) =? 4)%nat then Raise ValueError
  else
    let out := String (chr DDP_ATP_PACKET)
                 (String (chr (Z.lor knd flg))
                    (String (chr (atp_seq a)) (pack_H (atp_tid a))))
               +:+ atp_udata a in
    match atp_pdata a with
    | None => Ok out
    | Some d => Ok (out +:+ d)
    end.

(** The result tuple [(knd, flags, seq, tid, udata, pdata)]. *)
Record parsed : Type := mk_parsed {
  p_kind : kind;
  p_flags : list flag;
  p_seq : Z;
  p_tid : Z;
  p_udata : string;
  p_pdata : string
}.

Definition kind_of_code (knd : Z) : kind :=
  match filter (fun '(_, v) => v = knd) ATP_TYPE with
  | (name, _) :: _ => name
  | [] => kind_other knd
  end.

Definition parse_atp_packet (pkt : string) : result parsed :=
  if (String.length pkt <? ATP_HEADER_LEN + 1)%nat then Raise ValueError
  else
    let ddp_tag := be_decode (slice 0 1 pkt) 0 in
    let kfl := be_decode (slice 1 2 pkt) 0 in
    let seq := be_decode (slice 2 3 pkt) 0 in
    let tid := be_decode (slice 3 5 pkt) 0 in
    let udata := slice 5 9 pkt in
    let pdata := sdrop (ATP_HEADER_LEN + 1) pkt in
    if negb (ddp_tag =? DDP_ATP_PACKET) then Raise ValueError
    else
      let knd := Z.land kfl 192 in
      let flg := Z.land kfl 63 in
      let flags :=
        (filter (fun '(_, v) => Z.land flg v ≠ 0) ATP_FLAG).*1 in
      Ok (mk_parsed (kind_of_code knd) flags seq tid udata pdata).

End Packet.

(* ===================================================================== *)
(** * notify/ntypes.py *)
(* ===================================================================== *)

Module Ntypes.
Import Py Packet.

(** A peer address [(ip, port)]. *)
Definition addr : Type := string * Z.

(** The classes of queue element. *)
Inductive qclass : Type :=
  | Register | Clear | Reset | Notify      (* subclasses of Request *)
  | Response | Release.

#[global] Instance qclass_eq_dec : EqDecision qclass.
Proof. solve_decision. Defined.

Definition is_request (c : qclass) : bool :=
  match c with Register | Clear | Reset | Notify => true | _ => false end.

(** class QElem.  Times are clock readings of [time.time()], taken here as
    integers (seconds). *)
Record QElem : Type := mk_QElem {
  q_class : qclass;
  _orig : Z;          (* When packet was created *)
  _time : Z;          (* Last time packet was used *)
  _tid : Z;
  _data : atp;
  _addr : addr
}.

Definition when (e : QElem) : Z := _time e.
Definition tid_of (e : QElem) : Z := _tid e.

Definition set_time (e : QElem) (t : Z) : QElem :=
  mk_QElem (q_class e) (_orig e) t (_tid e) (_data e) (_addr e).

(** [is_due(clk, ival)] *)
Definition is_due (e : QElem) (clk ival : Z) : bool := _time e <? clk - ival.

(** The state of an ATPObject with subclass attributes [X], together with
    the part of the environment its threads touch: the system clock, given
    by the readings successive [time.time()] calls return, and the UDP
    socket with the datagrams sent and those still to be received. *)
Record ATPObject (X : Type) : Type := mk_ATP {
  port : Z;
  tid : Z;
  _maxage : Z;
  _cdown : bool;
  _rqueue : list QElem;
  _lqueue : list QElem;
  clock : nat -> Z;
  ticks : nat;
  sock_open : bool;
  sock_out : list (string * addr);
  sock_in : list (string * addr);
  ext : X
}.
Arguments mk_ATP {X}.
Arguments port {X}. Arguments tid {X}. Arguments _maxage {X}.
Arguments _cdown {X}. Arguments _rqueue {X}. Arguments _lqueue {X}.
Arguments clock {X}. Arguments ticks {X}. Arguments sock_open {X}.
Arguments sock_out {X}. Arguments sock_in {X}. Arguments ext {X}.

Section ATP.
Context {X : Type}.
Abbreviation St := (ATPObject X).

(** [ATPObject.__init__]; [tid0] is the value drawn by
    [random.randint(1, 0xffff)]. *)
Definition ATPObject_init (port0 tid0 : Z) (clk : nat -> Z) (x : X) : St :=
  mk_ATP port0 tid0 300 false [] [] clk 0 false [] [] x.

Definition set_rqueue (q : list QElem) (s : St) : St :=
  mk_ATP (port s) (tid s) (_maxage s) (_cdown s) q (_lqueue s)
         (clock s) (ticks s) (sock_open s) (sock_out s) (sock_in s) (ext s).

Definition set_lqueue (q : list QElem) (s : St) : St :=
  mk_ATP (port s) (tid s) (_maxage s) (_cdown s) (_rqueue s) q
         (clock s) (ticks s) (sock_open s) (sock_out s) (sock_in s) (ext s).

Definition set_tid (t : Z) (s : St) : St :=
  mk_ATP (port s) t (_maxage s) (_cdown s) (_rqueue s) (_lqueue s)
         (clock s) (ticks s) (sock_open s) (sock_out s) (sock_in s) (ext s).

Definition set_maxage (a : Z) (s : St) : St :=
  mk_ATP (port s) (tid s) a (_cdown s) (_rqueue s) (_lqueue s)
         (clock s) (ticks s) (sock_open s) (sock_out s) (sock_in s) (ext s).

Definition set_ticks (n : nat) (s : St) : St :=
  mk_ATP (port s) (tid s) (_maxage s) (_cdown s) (_rqueue s) (_lqueue s)
         (clock s) n (sock_open s) (sock_out s) (sock_in s) (ext s).

Definition set_sock_out (o : list (string * addr)) (s : St) : St :=
  mk_ATP (port s) (tid s) (_maxage s) (_cdown s) (_rqueue s) (_lqueue s)
         (clock s) (ticks s) (sock_open s) o (sock_in s) (ext s).

Definition set_sock_in (i : list (string * addr)) (s : St) : St :=
  mk_ATP (port s) (tid s) (_maxage s) (_cdown s) (_rqueue s) (_lqueue s)
         (clock s) (ticks s) (sock_open s) (sock_out s) i (ext s).

Definition set_ext (x : X) (s : St) : St :=
  mk_ATP (port s) (tid s) (_maxage s) (_cdown s) (_rqueue s) (_lqueue s)
         (clock s) (ticks s) (sock_open s) (sock_out s) (sock_in s) x.

(** [time.time()]: the next clock reading. *)
Definition time_time : M St Z :=
  fun s => (Ok (clock s (ticks s)), set_ticks (S (ticks s)) s).

(** [sock.sendto(pkt, rcpt)]: socket.error on a closed socket. *)
Definition sendto (pkt : string) (rcpt : addr) : M St unit :=
  fun s => if sock_open s
           then (Ok tt, set_sock_out (sock_out s ++ [(pkt, rcpt)]) s)
           else (Raise SocketError, s).

(** [QElem.__init__] *)
Definition QElem_init (c : qclass) (tid0 : Z) (data : atp) (a : addr)
    : M St QElem :=
  t <- time_time ;;
  ret (mk_QElem c t 1 tid0 data a).

(** [elt.age()] *)
Definition age (e : QElem) : M St Z :=
  t <- time_time ;; ret (t - _orig e).

(** [elt.touch()] with no argument. *)
Definition touch (e : QElem) : M St QElem :=
  t <- time_time ;; ret (set_time e t).

(** [elt.send(sock, rcpt)]; the element, changed in place in Python, is
    returned. *)
Definition send (e : QElem) (rcpt : addr) : M St QElem :=
  pkt <- lift (make_atp_packet (_data e)) ;;
  _ <- sendto pkt rcpt ;;
  touch e.

(** The constructor arguments of the Request subclasses. *)
Inductive request : Type :=
  | RegisterReq (who : string) (svcs : list Z) (rport : Z) (a : addr)
  | ClearReq (who : Z) (svc : Z) (a : addr)
  | ResetReq (a : addr)
  | NotifyReq (who : Z) (svc : Z) (msgid : Z) (data : option string) (a : addr).

(** [Kind(tid, ...)] for a Request subclass [Kind]. *)
Definition new_request (tid0 : Z) (r : request) : M St QElem :=
  match r with
  | RegisterReq who svcs rport a =>
      QElem_init Register tid0
        (mk_atp req [xo] 1 tid0 "NR02" (Some (make_register_req svcs who rport))) a
  | ClearReq who svc a =>
      QElem_init Clear tid0
        (mk_atp req [xo] 1 tid0 "CLEN" (Some (make_clear_req svc who))) a
  | ResetReq a =>
      QElem_init Reset tid0
        (mk_atp req [xo] 1 tid0 (be_encode 4 0) (Some (be_encode 4 1))) a
  | NotifyReq who svc msgid data a =>
      QElem_init Notify tid0
        (mk_atp req [xo] 1 tid0 "NOTI" (Some (make_notify_req svc who msgid data))) a
  end.

(** [Response((kind, flags, seq, tid, udata, pdata, addr))] *)
Definition new_response (flags : list flag) (seq tid0 : Z) (udata : string)
    (pdata : option string) (a : addr) : M St QElem :=
  QElem_init Response tid0 (mk_atp rsp flags seq tid0 udata pdata) a.

(** [Release(elt)] *)
Definition new_release (elt : QElem) : M St QElem :=
  let d := _data elt in
  QElem_init Release (atp_tid d)
    (mk_atp rel (atp_flags d) (atp_seq d) (atp_tid d) (atp_udata d) None)
    (_addr elt).

(** [self._send(req)] for the element at position [pos] of the
    retransmission queue: the element is updated in place. *)
Definition _send_at (pos : nat) (e : QElem) : M St unit :=
  e' <- send e (_addr e) ;;
  modify (fun s => set_rqueue (<[pos := e']> (_rqueue s)) s).

(** [self._addreq(Kind, ...)] *)
Definition _addreq (r : request) : M St unit :=
  t <- gets tid ;;
  e <- new_request t r ;;
  modify (fun s => set_tid (Z.land (tid s + 1) 65535)
                     (set_rqueue (_rqueue s ++ [e]) s)).

(** [for pos in reversed(dead): self._rqueue.pop(pos)] *)
Definition pop_all (dead : list nat) (q : list QElem) : list QElem :=
  foldl (fun q pos => delete pos q) q (reverse dead).

(** The first loop of the writer: visit the queue by position,
    collecting the positions of the elements past their lifetime and
    sending those that are due. *)
Fixpoint sender_scan (now : Z) (n pos : nat) (dead : list nat)
    : M St (list nat) :=
  match n with
  | O => ret dead
  | S n' =>
      q <- gets _rqueue ;;
      match q !! pos with
      | None => ret dead
      | Some elt =>
          a <- age elt ;;
          maxage <- gets _maxage ;;
          if maxage <? a then sender_scan now n' (S pos) (dead ++ [pos])
          else if is_due elt now 20 then
            _ <- _send_at pos elt ;; sender_scan now n' (S pos) dead
          else sender_scan now n' (S pos) dead
      end
  end.

(** [min(elt.when() for elt in q)] for a non-empty queue. *)
Definition min_when (q : list QElem) : option Z :=
  match q with
  | [] => None
  | e :: r => Some (foldl (fun m e' => Z.min m (when e')) (when e) r)
  end.

(** [self._send(elt)] for an element of the release list. *)
Definition _send_release (elt : QElem) : M St unit :=
  _ <- send elt (_addr elt) ;; ret tt.

(** One turn of the [while True] loop of [_sender], up to the computation
    of the sleep time ([None] for an unbounded wait), all done while
    holding the queue mutex. *)
Definition sender_pass : M St (option Z) :=
  now <- time_time ;;
  n <- gets (fun s => length (_rqueue s)) ;;
  dead <- sender_scan now n 0 [] ;;
  _ <- modify (fun s => set_rqueue (pop_all dead (_rqueue s)) s) ;;
  lq <- gets _lqueue ;;
  _ <- for_each lq _send_release ;;
  _ <- modify (set_lqueue []) ;;
  q <- gets _rqueue ;;
  ret (match min_when q with
        | None => None
        | Some m => Some (m + 20 - now)
        end).

(** What [do_req] may return: a truth value, a byte string or None. *)
Inductive rdata : Type :=
  | RBool (b : bool)
  | RStr (s : string)
  | RNone.

Definition truthy (r : rdata) : bool :=
  match r with
  | RBool b => b
  | RStr s => negb (String.eqb s EmptyString)
  | RNone => false
  end.

(** The methods a subclass may override. *)
Class Handlers : Type := {
  do_req : list flag -> Z -> Z -> string -> string -> addr -> M St rdata;
  do_rsp : QElem -> M St bool;
  do_rel : QElem -> M St unit;
  write_poll : option (M St unit);
  _writer_done : option (M St unit);
  _reader_done : option (M St unit)
}.

(** The default handlers of ATPObject. *)
Definition default_handlers : Handlers := {|
  do_req := fun _ _ _ _ _ _ => ret (RBool true);
  do_rsp := fun _ => ret true;
  do_rel := fun _ => ret tt;
  write_poll := None;
  _writer_done := None;
  _reader_done := None
|}.

Context {H : Handlers}.

Definition run_hook (h : option (M St unit)) : M St unit :=
  match h with
  | Some m => m
  | None => ret tt
  end.

(** The body of the writer's loop followed by the test made before
    waiting: [Some timeout] when the thread goes to wait on the condition,
    [None] when it leaves the loop because the shutdown flag is set. *)
Definition sender_turn : M St (option (option Z)) :=
  sleep_time <- sender_pass ;;
  _ <- run_hook write_poll ;;
  down <- gets _cdown ;;
  ret (if down then None else Some sleep_time).

Definition is_socket_error (e : exn) : bool :=
  match e with SocketError => true | _ => false end.

(** The writer thread.  Each element of [env] is what the other threads
    do to the object while the writer waits on the condition. *)
Fixpoint sender_loop (env : list (St -> St)) : M St unit :=
  match env with
  | [] => ret tt
  | other :: env' =>
      r <- sender_turn ;;
      match r with
      | None => ret tt
      | Some _ =>
          _ <- modify other ;;
          down <- gets _cdown ;;
          if down then ret tt else sender_loop env'
      end
  end.

Definition _sender (env : list (St -> St)) : M St unit :=
  _ <- catch (sender_loop env) is_socket_error (ret tt) ;;
  run_hook _writer_done.

(** Positions of the queue elements with transaction id [t]. *)
Definition positions_with_tid (t : Z) (q : list QElem) : list nat :=
  (filter (fun '(_, elt) => tid_of elt = t) (imap (fun i e => (i, e)) q)).*1.

(** The [rel] branch: call [do_rel] on each element with the given id
    while collecting its position. *)
Fixpoint release_scan (t : Z) (n pos : nat) (dead : list nat)
    : M St (list nat) :=
  match n with
  | O => ret dead
  | S n' =>
      q <- gets _rqueue ;;
      match q !! pos with
      | None => ret dead
      | Some elt =>
          if bool_decide (tid_of elt = t) then
            _ <- do_rel elt ;; release_scan t n' (S pos) (dead ++ [pos])
          else release_scan t n' (S pos) dead
      end
  end.

(** What the reader does with one parsed packet. *)
Definition dispatch (p : parsed) (sndr : addr) : M St unit :=
  match p_kind p with
  | req =>
      r <- do_req (p_flags p) (p_seq p) (p_tid p) (p_udata p) (p_pdata p) sndr ;;
      if truthy r then
        e <- new_response (p_flags p) (p_seq p) (p_tid p) (p_udata p)
              (match r with RStr d => Some d | _ => None end) sndr ;;
        modify (fun s => set_rqueue (_rqueue s ++ [e]) s)
      else ret tt
  | rsp =>
      q <- gets _rqueue ;;
      match positions_with_tid (p_tid p) q with
      | [] => ret tt
      | (pos0 :: _) as dead =>
          match q !! pos0 with
          | None => raise IndexError
          | Some tobj =>
              elt <- new_release tobj ;;
              _ <- modify (fun s => set_rqueue (pop_all dead (_rqueue s)) s) ;;
              ok <- do_rsp tobj ;;
              if ok then modify (fun s => set_lqueue (_lqueue s ++ [elt]) s)
              else ret tt
          end
      end
  | rel =>
      n <- gets (fun s => length (_rqueue s)) ;;
      dead <- release_scan (p_tid p) n 0 [] ;;
      modify (fun s => set_rqueue (pop_all dead (_rqueue s)) s)
  | kind_other _ => ret tt
  end.

(** The reader's loop over the datagrams waiting on the socket.  When
    none is left the socket is taken to be closed by [stop], which makes
    [select] fail and ends the loop. *)
Fixpoint receiver_loop (inbound : list (string * addr)) : M St unit :=
  match inbound with
  | [] => ret tt
  | (pkt, sndr) :: rest =>
      _ <- modify (set_sock_in rest) ;;
      if String.eqb pkt EmptyString then ret tt
      else
        p <- lift (parse_atp_packet pkt) ;;
        _ <- dispatch p sndr ;;
        receiver_loop rest
  end.

(** The reader thread: only socket.error is caught. *)
Definition _receiver : M St unit :=
  inbound <- gets sock_in ;;
  _ <- catch (receiver_loop inbound) is_socket_error (ret tt) ;;
  run_hook _reader_done.

End ATP.

Arguments Handlers X : clear implicits.











End Ntypes.

(* ===================================================================== *)
(** * notify/notifyd.py *)
(* ===================================================================== *)

Module Notifyd.
Import Py Packet Ntypes.

(** class Notice *)
Record Notice : Type := mk_Notice {
  n_uid : Z;
  n_type : Z;
  n_msgid : Z;
  n_sticky : bool;
  n_data : option string;
  n_rowid : option Z
}.

(** class Client; [smark] and [rmark] are clock readings. *)
Record Client : Type := mk_Client {
  c_uid : Z;
  c_ip : string;
  c_port : Z;
  c_svcs : list Z;
  smark : Z;
  rmark : Z
}.

Definition c_addr (c : Client) : addr := (c_ip c, c_port c).

Definition set_smark (t : Z) (c : Client) : Client :=
  mk_Client (c_uid c) (c_ip c) (c_port c) (c_svcs c) t (rmark c).

Definition set_rmark (t : Z) (c : Client) : Client :=
  mk_Client (c_uid c) (c_ip c) (c_port c) (c_svcs c) (smark c) t.

(** [Client.__eq__]: the tuple (uid, ip, port). *)
Definition client_eqb (a b : Client) : bool :=
  bool_decide (c_uid a = c_uid b ∧ c_ip a = c_ip b ∧ c_port a = c_port b).

(** class NoticeDB: the rows of table [notices], in rowid order. *)
Record row : Type := mk_row {
  r_rowid : Z;
  r_uid : Z;
  r_type : Z;
  r_msgid : Z;
  r_data : option string
}.

Definition NoticeDB : Type := list row.

Definition db_enter (uid type msgid : Z) (data : option string) (db : NoticeDB)
    : NoticeDB :=
  db ++ [mk_row (foldr (fun r m => Z.max (r_rowid r) m) 0 db + 1)
                uid type msgid data].

Definition db_notices (db : NoticeDB) : list Notice :=
  map (fun r => mk_Notice (r_uid r) (r_type r) (r_msgid r) true (r_data r)
                  (Some (r_rowid r))) db.

Definition db_cleartype (uid type : Z) (db : NoticeDB) : NoticeDB :=
  filter (fun r => ¬ (r_uid r = uid ∧ r_type r = type)) db.

Definition db_flush (db : NoticeDB) : NoticeDB := [].

(** The attributes NotifyUDPServer adds to ATPObject.  Its constructor also
    assigns [self._maxage], the very attribute of the base class. *)
Record UDPExt : Type := mk_UDPExt {
  db : NoticeDB;
  _clients : list Client
}.

Abbreviation UDP := (ATPObject UDPExt).

Definition NotifyUDPServer_init (db0 : NoticeDB) (port0 maxage tid0 : Z)
    (clk : nat -> Z) : UDP :=
  set_maxage maxage (ATPObject_init port0 tid0 clk (mk_UDPExt db0 [])).

Definition set_clients (l : list Client) (s : UDP) : UDP :=
  set_ext (mk_UDPExt (db (ext s)) l) s.

Definition set_db (d : NoticeDB) (s : UDP) : UDP :=
  set_ext (mk_UDPExt d (_clients (ext s))) s.

(** [notice.uid in (0, client.uid) and notice.type in client.svcs] *)
Definition matches (n : Notice) (c : Client) : bool :=
  bool_decide (n_uid n = 0 ∨ n_uid n = c_uid c)
  && bool_decide (n_type n ∈ c_svcs c).

(** [client.sendmark()] and [client.recvmark()] for the client held at
    position [pos] of the table. *)
Definition sendmark_at (pos : nat) : M UDP unit :=
  t <- time_time ;;
  modify (fun s => set_clients (alter (set_smark t) pos (_clients (ext s))) s).

Definition recvmark_at (pos : nat) : M UDP unit :=
  t <- time_time ;;
  modify (fun s => set_clients (alter (set_rmark t) pos (_clients (ext s))) s).

(** [self._clients.index(c)] *)
Fixpoint index_of (c : Client) (l : list Client) : option nat :=
  match l with
  | [] => None
  | x :: r => if client_eqb x c then Some O else S <$> index_of c r
  end.

(** The body of the loop of [send_sticky]; the client is the table entry
    at [pos]. *)
Definition sticky_step (pos : nat) (notice : Notice) : M UDP unit :=
  cl <- gets (fun s => _clients (ext s) !! pos) ;;
  match cl with
  | None => raise IndexError
  | Some client =>
      if matches notice client then
        _ <- _addreq (NotifyReq (n_uid notice) (n_type notice)
                        (n_msgid notice) (n_data notice) (c_addr client)) ;;
        sendmark_at pos
      else ret tt
  end.

(** [send_sticky(client)] *)
Definition send_sticky (pos : nat) : M UDP unit :=
  notices <- gets (fun s => db_notices (db (ext s))) ;;
  for_each notices (sticky_step pos).

(** The try block of [add_client]: the position of the entry equal to the
    new client, refreshed, or that of the new client appended to the
    table. *)
Definition find_or_append (new_client : Client) : M UDP nat :=
  cls <- gets (fun s => _clients (ext s)) ;;
  match index_of new_client cls with
  | Some pos => _ <- recvmark_at pos ;; ret pos
  | None =>
      _ <- modify (set_clients (cls ++ [new_client])) ;;
      ret (length cls)
  end.

(** [add_client(uid, ip, port, svcs)]: the position of the returned client
    in the table, and the client. *)
Definition add_client (uid : Z) (ip : string) (cport : Z) (svcs : list Z)
    : M UDP (nat * Client) :=
  t1 <- time_time ;;
  t2 <- time_time ;;
  pos <- find_or_append (mk_Client uid ip cport svcs t1 t2) ;;
  _ <- send_sticky pos ;;
  out <- gets (fun s => _clients (ext s) !! pos) ;;
  match out with
  | Some c => ret (pos, c)
  | None => raise IndexError
  end.

(** [clear_sticky(uid, service)] *)
Definition clear_sticky (uid service : Z) : M UDP unit :=
  modify (fun s => set_db (db_cleartype uid service (db (ext s))) s).

(** [update(ip, port)] *)
Definition update (ip : string) (cport : Z) : M UDP unit :=
  n <- gets (fun s => length (_clients (ext s))) ;;
  for_each (seq 0 n) (fun pos =>
    cl <- gets (fun s => _clients (ext s) !! pos) ;;
    match cl with
    | Some elt =>
        if bool_decide (c_ip elt = ip ∧ c_port elt = cport)
        then recvmark_at pos else ret tt
    | None => ret tt
    end).

(** [do_req]: NR02 registers, CLEN clears. *)
Definition udp_do_req (flags : list flag) (seq tid0 : Z) (udata pdata : string)
    (sndr : addr) : M UDP rdata :=
  if String.eqb udata "NR02" then
    '(uid, rport, svcs) <- lift (parse_register_req pdata) ;;
    let rport := if rport =? 0 then sndr.2 else rport in
    u <- lift (int (sdrop 1 uid)) ;;
    _ <- add_client u sndr.1 rport svcs ;;
    ret (RBool true)
  else if String.eqb udata "CLEN" then
    '(uid, service) <- lift (parse_clear_req pdata) ;;
    _ <- clear_sticky uid service ;;
    ret (RBool true)
  else ret (RBool false).

Definition udp_do_rsp (tobj : QElem) : M UDP bool :=
  _ <- update (_addr tobj).1 (_addr tobj).2 ;; ret true.

Definition udp_do_rel (tobj : QElem) : M UDP unit :=
  update (_addr tobj).1 (_addr tobj).2.

(** [client.age()] *)
Definition client_age (c : Client) : M UDP Z :=
  if rmark c <=? smark c then t <- time_time ;; ret (t - rmark c)
  else ret 0.

(** [write_poll()]: the reaper. *)
Fixpoint stale_scan (l : list Client) (pos : nat) (dead : list nat)
    : M UDP (list nat) :=
  match l with
  | [] => ret dead
  | elt :: r =>
      a <- client_age elt ;;
      maxage <- gets _maxage ;;
      stale_scan r (S pos) (if maxage <? a then dead ++ [pos] else dead)
  end.

Definition udp_write_poll : M UDP unit :=
  cls <- gets (fun s => _clients (ext s)) ;;
  dead <- stale_scan cls 0 [] ;;
  modify (fun s => set_clients
                     (foldl (fun l pos => delete pos l) (_clients (ext s))
                        (reverse dead)) s).

#[global] Instance udp_handlers : Handlers UDPExt := {|
  do_req := udp_do_req;
  do_rsp := udp_do_rsp;
  do_rel := udp_do_rel;
  write_poll := Some udp_write_poll;
  _writer_done := None;
  _reader_done := None
|}.

(** [post(notice)] *)
Definition post (notice : Notice) : M UDP unit :=
  n <- gets (fun s => length (_clients (ext s))) ;;
  for_each (seq 0 n) (fun pos =>
    cl <- gets (fun s => _clients (ext s) !! pos) ;;
    match cl with
    | Some elt =>
        if matches notice elt then
          _ <- _addreq (NotifyReq (n_uid notice) (n_type notice)
                          (n_msgid notice) (n_data notice) (c_addr elt)) ;;
          sendmark_at pos
        else ret tt
    | None => ret tt
    end).

(** [clients()] *)
Definition udp_clients (s : UDP) : list Client := _clients (ext s).

(** The Notify request for notice [n] to the address [a], created at time
    [t] under transaction id [tid0]. *)
Definition notify_elem (t tid0 : Z) (n : Notice) (a : addr) : QElem :=
  mk_QElem Notify t 1 tid0
    (mk_atp req [xo] 1 tid0 "NOTI"
       (Some (make_notify_req (n_type n) (n_uid n) (n_msgid n) (n_data n))))
    a.

(** The requests a replay of the notices [ns] appends, the clock standing
    at reading [k] and the transaction counter at [t]: each request takes
    one reading for its creation time, and the [sendmark] after it one
    more. *)
Fixpoint replay (clk : nat -> Z) (k : nat) (t : Z) (a : addr)
    (ns : list Notice) : list QElem :=
  match ns with
  | [] => []
  | n :: r =>
      notify_elem (clk k) t n a
        :: replay clk (S (S k)) (Z.land (t + 1) 65535) a r
  end.

(** A queue element is the Notify request for notice [n] to client [c]. *)
Definition notify_request_for (c : Client) (n : Notice) (e : QElem) : Prop :=
  q_class e = Notify ∧ _addr e = c_addr c ∧ _time e = 1 ∧
  _data e = mk_atp req [xo] 1 (_tid e) "NOTI"
              (Some (make_notify_req (n_type n) (n_uid n) (n_msgid n)
                       (n_data n))).



(** ** The TCP control interface *)

(** The name directory (module dnd), an outside service: whether a session
    can be opened, the challenge [begin_validate] returns for a user or the
    text of its DNDProtocolError, the uid the validator returns for a
    response or the text of its DNDProtocolError, and
    [encrypt_challenge]. *)
Record Dnd : Type := mk_Dnd {
  dnd_available : bool;
  begin_validate : string -> string + string;
  validate : string -> string -> Z + string;
  encrypt_challenge : string -> string -> string
}.

(** class NotifyTCPServer *)
Record TCPServer : Type := mk_TCPServer {
  t_db : NoticeDB;
  udp : option UDP;
  auth : option Z;
  adm : option Z
}.

(** The state of one NotifyTCPHandler: [dnd] tells whether [self.dnd] holds
    a session, [resp] is the challenge of the validation under way with the
    user it was asked for, [wfile] the replies written and [rfile] the bytes
    still to be read from the connection. *)
Record Handler : Type := mk_Handler {
  server : TCPServer;
  quit : bool;
  dnd : bool;
  resp : option (string * string);
  wfile : list string;
  rfile : string
}.

Definition set_server (srv : TCPServer) (h : Handler) : Handler :=
  mk_Handler srv (quit h) (dnd h) (resp h) (wfile h) (rfile h).
Definition set_quit (b : bool) (h : Handler) : Handler :=
  mk_Handler (server h) b (dnd h) (resp h) (wfile h) (rfile h).
Definition set_dnd (b : bool) (r : option (string * string)) (h : Handler)
    : Handler :=
  mk_Handler (server h) (quit h) b r (wfile h) (rfile h).
Definition set_rfile (r : string) (h : Handler) : Handler :=
  mk_Handler (server h) (quit h) (dnd h) (resp h) (wfile h) r.
Definition set_auth (a : option Z) (srv : TCPServer) : TCPServer :=
  mk_TCPServer (t_db srv) (udp srv) a (adm srv).
Definition set_t_db (d : NoticeDB) (srv : TCPServer) : TCPServer :=
  mk_TCPServer d (udp srv) (auth srv) (adm srv).
Definition set_udp (u : option UDP) (srv : TCPServer) : TCPServer :=
  mk_TCPServer (t_db srv) u (auth srv) (adm srv).

(** [self.wfile.write(line)] *)
Definition write (line : string) : M Handler unit :=
  modify (fun h => mk_Handler (server h) (quit h) (dnd h) (resp h)
                     (wfile h ++ [line]) (rfile h)).

(** [self.rfile.read(n)] *)
Definition read (n : Z) : M Handler string :=
  data <- gets (fun h => stake (Z.to_nat n) (rfile h)) ;;
  _ <- modify (fun h => set_rfile (sdrop (Z.to_nat n) (rfile h)) h) ;;
  ret data.

(** Run a method of the UDP server, when there is one. *)
Definition on_udp {A} (m : M UDP A) : M Handler (option A) :=
  fun h => match udp (server h) with
           | None => (Ok None, h)
           | Some u =>
               match m u with
               | (Ok a, u') => (Ok (Some a), set_server (set_udp (Some u') (server h)) h)
               | (Raise e, u') => (Raise e, set_server (set_udp (Some u') (server h)) h)
               end
           end.

(** [NotifyTCPServer.check_perms(operation)] *)
Definition check_perms (operation : string) (srv : TCPServer) : bool :=
  if negb (bool_decide (operation ∈ ["list"; "broadcast"])) then true
  else match adm srv with
       | None => false
       | Some a => bool_decide (auth srv = Some a)
       end.

(** [NotifyTCPServer.clear], [.notify], [.add_client], [.notices],
    [.clients] *)
Definition server_clear (uid type : Z) : M Handler unit :=
  modify (fun h => set_server (set_t_db (db_cleartype uid type (t_db (server h)))
                                 (server h)) h).

Definition server_notify (uid type msgid : Z) (sticky : bool)
    (data : option string) : M Handler unit :=
  _ <- (if sticky
        then modify (fun h => set_server
                       (set_t_db (db_enter uid type msgid data (t_db (server h)))
                          (server h)) h)
        else ret tt) ;;
  _ <- on_udp (post (mk_Notice uid type msgid sticky data None)) ;;
  ret tt.

Definition server_add_client (uid : Z) (ip : string) (cport : Z)
    (svcs : list Z) : M Handler unit :=
  _ <- on_udp (add_client uid ip cport svcs) ;; ret tt.

(** Several [int(...)] in a row under one [except ValueError]. *)
Fixpoint ints (l : list string) : result (list Z) :=
  match l with
  | [] => Ok []
  | x :: r => n <- int x ;; ns <- ints r ;; Ok (n :: ns)
  end.

Definition cmd_unknown (cmd : string) (args : list string) : M Handler unit :=
  write ("500 Unknown command: " +:+ upper cmd +:+ CRLF).

Definition cmd_QUIT (cmd : string) (args : list string) : M Handler unit :=
  _ <- write ("221 Bye now!" +:+ CRLF) ;;
  modify (fun h => set_server (set_auth None (server h)) (set_quit true h)).

Definition cmd_NOOP (cmd : string) (args : list string) : M Handler unit :=
  write ("200 Nothing." +:+ CRLF).

Definition cmd_CLEAR (cmd : string) (args : list string) : M Handler unit :=
  if negb (length args =? 2)%nat
  then write ("501 Wrong number of arguments." +:+ CRLF)
  else
    match ints args with
    | Ok [uid; type] =>
        srv <- gets server ;;
        if (uid =? 0) && negb (check_perms "broadcast" srv)
        then write ("554 Broadcast permission denied." +:+ CRLF)
        else
          _ <- server_clear uid type ;;
          write ("200 Notifications cleared." +:+ CRLF)
    | _ => write ("501 Invalid argument." +:+ CRLF)
    end.

Definition cmd_NOTIFY (cmd : string) (args : list string) : M Handler unit :=
  if negb (length args =? 5)%nat
  then write ("501 Wrong number of arguments." +:+ CRLF)
  else
    match ints args with
    | Ok [len; uid; type; msgid; sticky] =>
        data <- (if 0 <? len then d <- read len ;; ret (Some d)
                 else ret None) ;;
        srv <- gets server ;;
        if (uid =? 0) && negb (check_perms "broadcast" srv)
        then write ("554 Broadcast permission denied." +:+ CRLF)
        else
          _ <- server_notify uid type msgid (negb (sticky =? 0)) data ;;
          write ("200 Ok." +:+ CRLF)
    | _ => write ("501 Invalid argument." +:+ CRLF)
    end.

Section WithDnd.
Variable D : Dnd.

Definition cmd_USER (cmd : string) (args : list string) : M Handler unit :=
  match args with
  | [user] =>
      if negb (dnd_available D)
      then write ("450 Name directory unavailable." +:+ CRLF)
      else
        match begin_validate D user with
        | inr e =>
            _ <- write ("550 " +:+ e +:+ CRLF) ;;
            modify (set_dnd false None)
        | inl challenge =>
            _ <- modify (set_dnd true (Some (challenge, user))) ;;
            write ("300 " +:+ challenge +:+ CRLF)
        end
  | _ => write ("501 Wrong number of arguments." +:+ CRLF)
  end.

(** The finally clause of [cmd_PASE] and [cmd_PASS]: [self.dnd.close()]
    raises AttributeError, which is not caught, when no session is held. *)
Definition close_dnd : M Handler unit :=
  d <- gets dnd ;;
  if d then modify (set_dnd false None) else raise AttributeError.

(** [self.resp[1](response, True)] and what follows it. *)
Definition finish_validation (response : string) : M Handler unit :=
  r <- gets resp ;;
  match r with
  | None => raise TypeError
  | Some (_, user) =>
      match validate D user response with
      | inl uid =>
          _ <- modify (fun h => set_server (set_auth (Some uid) (server h)) h) ;;
          write ("200 User validated." +:+ CRLF)
      | inr e => write ("551 " +:+ e +:+ CRLF)
      end
  end.

Definition is_octal (c : ascii) : bool :=
  let n := nat_of_ascii c in (48 <=? n)%nat && (n <=? 55)%nat.

(** [re.match(r'[0-7]{24}$', s)] for a string without newline. *)
Definition octal24 (s : string) : bool :=
  (String.length s =? 24)%nat && forallb is_octal (list_ascii_of_string s).

Definition cmd_PASE (cmd : string) (args : list string) : M Handler unit :=
  finally_
    (match args with
     | [a] =>
         if negb (octal24 a) then write ("501 Invalid argument." +:+ CRLF)
         else finish_validation a
     | _ => write ("501 Wrong number of arguments." +:+ CRLF)
     end)
    close_dnd.

Definition cmd_PASS (cmd : string) (args : list string) : M Handler unit :=
  finally_
    (match args with
     | [a] =>
         if (8 <? String.length a)%nat
         then write ("501 Invalid argument." +:+ CRLF)
         else
           r <- gets resp ;;
           match r with
           | None => raise TypeError
           | Some (challenge, _) =>
               finish_validation (encrypt_challenge D challenge a)
           end
     | _ => write ("501 Wrong number of arguments." +:+ CRLF)
     end)
    close_dnd.
End WithDnd.

Definition cmd_CLIENT (cmd : string) (args : list string) : M Handler unit :=
  srv <- gets server ;;
  if negb (check_perms "client" srv)
  then write ("554 Permission denied." +:+ CRLF)
  else if (length args <? 4)%nat
  then write ("501 Wrong number of arguments." +:+ CRLF)
  else
    match args with
    | uid :: ip :: cport :: svcs =>
        match (r_uid <- int uid ;; r_svcs <- ints svcs ;;
               r_port <- int cport ;; Ok (r_uid, r_svcs, r_port)) with
        | Ok (r_uid, r_svcs, r_port) =>
            _ <- server_add_client r_uid ip r_port r_svcs ;;
            write ("200 Ok." +:+ CRLF)
        | Raise _ => write ("501 Invalid argument." +:+ CRLF)
        end
    | _ => write ("501 Wrong number of arguments." +:+ CRLF)
    end.

(** The line of LIST for a notice and for a client. *)
Definition notice_line (note : Notice) : string :=
  "110 " +:+ str (n_uid note) +:+ "," +:+ str (n_type note) +:+ ","
    +:+ str (n_msgid note) +:+ "," +:+ (if n_sticky note then "1" else "0")
    +:+ "," +:+ String DQ (double_quotes (default EmptyString (n_data note)))
    +:+ String DQ CRLF.

Definition client_line (c : Client) (age : Z) : string :=
  "110 " +:+ str (c_uid c) +:+ "," +:+ c_ip c +:+ "," +:+ str (c_port c)
    +:+ "," +:+ join "," (map str (c_svcs c)) +:+ " " +:+ str age +:+ CRLF.

(** The ages [client.age()] of the clients of a list, read one by one. *)
Fixpoint client_ages (l : list Client) : M UDP (list (Client * Z)) :=
  match l with
  | [] => ret []
  | c :: r => a <- client_age c ;; rest <- client_ages r ;; ret ((c, a) :: rest)
  end.

Definition cmd_LIST (cmd : string) (args : list string) : M Handler unit :=
  srv <- gets server ;;
  if negb (check_perms "list" srv)
  then write ("554 Permission denied." +:+ CRLF)
  else
    match args with
    | [a] =>
        let key := lower a in
        if negb (bool_decide (key ∈ ["notices"; "clients"; "all"]))
        then write ("501 Invalid list selector." +:+ CRLF)
        else
          _ <- (if bool_decide (key ∈ ["notices"; "all"]) then
                  notes <- gets (fun h => db_notices (t_db (server h))) ;;
                  _ <- write ("101 " +:+ str (Z.of_nat (length notes)) +:+ CRLF) ;;
                  _ <- for_each notes (fun note => write (notice_line note)) ;;
                  write ("200 Ok." +:+ CRLF)
                else ret tt) ;;
          if bool_decide (key ∈ ["clients"; "all"]) then
            cls <- on_udp (cl <- gets udp_clients ;; client_ages cl) ;;
            let cls := default [] cls in
            _ <- write ("101 " +:+ str (Z.of_nat (length cls)) +:+ CRLF) ;;
            _ <- for_each cls (fun '(c, a) => write (client_line c a)) ;;
            write ("200 Ok." +:+ CRLF)
          else ret tt
    | _ => write ("501 Wrong number of arguments." +:+ CRLF)
    end.

(** [getattr(self, 'cmd_' + cmd.upper(), self.cmd_unknown)] *)
Definition handler_for (D : Dnd) (cmd : string)
    : string -> list string -> M Handler unit :=
  let h := upper cmd in
  if String.eqb h "QUIT" then cmd_QUIT
  else if String.eqb h "NOOP" then cmd_NOOP
  else if String.eqb h "CLEAR" then cmd_CLEAR
  else if String.eqb h "NOTIFY" then cmd_NOTIFY
  else if String.eqb h "USER" then cmd_USER D
  else if String.eqb h "PASE" then cmd_PASE D
  else if String.eqb h "PASS" then cmd_PASS D
  else if String.eqb h "CLIENT" then cmd_CLIENT
  else if String.eqb h "LIST" then cmd_LIST
  else cmd_unknown.

(** The body of the loop of [handle]: one command line. *)
Definition handle_line (D : Dnd) (raw : string) : M Handler unit :=
  let line := split1 " " (rstrip raw) in
  let cmd := hd EmptyString line in
  let args := match line with
              | [_; rest] => re_split_comma rest
              | _ => []
              end in
  d <- gets dnd ;;
  if negb (bool_decide (upper cmd ∈ ["PASS"; "PASE"])) && d then
    _ <- write ("503 Bad sequence of commands." +:+ CRLF) ;;
    modify (set_dnd false None)
  else handler_for D cmd cmd args.

(** The loop of [handle], at most [fuel] lines.  At the end of the input
    the peer is gone: the next write raises socket.error, which [handle]
    catches. *)
Fixpoint handle_loop (D : Dnd) (fuel : nat) : M Handler unit :=
  match fuel with
  | O => ret tt
  | S fuel' =>
      q <- gets quit ;;
      if q then ret tt
      else
        input <- gets rfile ;;
        if String.eqb input EmptyString then ret tt
        else
          let '(raw, rest) := readline input in
          _ <- modify (set_rfile rest) ;;
          _ <- handle_line D raw ;;
          handle_loop D fuel'
  end.

Definition handle (D : Dnd) : M Handler unit :=
  _ <- write ("220 Notification server ready." +:+ CRLF) ;;
  _ <- modify (fun h => set_dnd false None (set_quit false h)) ;;
  n <- gets (fun h => String.length (rfile h)) ;;
  handle_loop D n.

End Notifyd.

(* ===================================================================== *)
(** * Concrete inputs used by the examples *)
(* ===================================================================== *)

Module Scenarios.
Import Py Packet Ntypes Notifyd.

(** A registration for uid "#7", port 2154, announcing two service codes
    but carrying only one. *)
Definition short_register_pkt : string :=
  String (chr 2) "#7" +:+ pack_H 2154 +:+ pack_I 2 +:+ pack_I 1.

Definition peer : addr := ("10.0.0.9", 40000).

(** A well-formed request, as [make_atp_packet] builds it. *)
Definition good_datagram : string :=
  match make_atp_packet (mk_atp req [xo] 1 7 "PING" None) with
  | Ok pkt => pkt
  | Raise _ => EmptyString
  end.

Definition reader_state (inbound : list (string * addr)) : ATPObject unit :=
  mk_ATP 2154 1 300 false [] [] (fun n => 1000 + Z.of_nat n) 0 true []
         inbound tt.

(** An unknown packet type, on the other hand, is ignored and the loop
    goes on: the request behind it is answered. *)
Definition unknown_kind_datagram : string :=
  String (chr 3) (String (chr 0) "abcdefg").

(** Scenario 6 of the specification: a store with one notice for uid 7
    and one broadcast, and a server with no client yet. *)
Definition sticky_store : NoticeDB :=
  [ mk_row 1 7 1 100 (Some "hi"); mk_row 2 0 2 200 (Some "all");
    mk_row 3 8 1 300 (Some "other"); mk_row 4 7 3 400 (Some "talk") ].

Definition udp_server : ATPObject UDPExt :=
  NotifyUDPServer_init sticky_store 2154 600 65535
    (fun n => 5000 + Z.of_nat n).

(** A control server whose administrator is uid 1, attached to the UDP
    server above, and a connection on which nobody has authenticated. *)
Definition no_dnd : Dnd :=
  mk_Dnd false (fun _ => inr "no directory") (fun _ _ => inr "no directory")
         (fun _ p => p).

Definition tcp_server : TCPServer :=
  mk_TCPServer sticky_store (Some udp_server) None (Some 1).

Definition connection (input : string) : Handler :=
  mk_Handler tcp_server false false None [] input.

(** A 32-bit platform in a time zone where every date reads as 0. *)
Definition platform32 : Bmesg.Platform :=
  Bmesg.mk_Platform 2147483647 (fun _ _ => Some 0).

(** The summary line of scenario 3 of the specification. *)
Definition summary_line : string :=
  "42,03/14/25,09:27:05,2," +:+ String DQ ("Alice" +:+ String DQ
    ("," +:+ String DQ ("Bob" +:+ String DQ ("," +:+ String DQ
    ("Hello" +:+ String DQ ",1024,0,N,4009644800"))))).

(** The folder line of scenario 2, and that of an empty folder. *)
Definition inbox_line : string :=
  "12,7," +:+ String DQ ("INBOX" +:+ String DQ ",4096").
Definition trash_line : string :=
  "5,0," +:+ String DQ ("Trash" +:+ String DQ ",0").

Definition a_summary : Bmesg.BlitzSummary :=
  Bmesg.mk_Summary 12 42 "03/14/25" "09:27:05" 0 2 "Alice" "Bob" "Hello" 1024 0
    "N" 1926818000.

(** A connected mail session with the given lines to come and the given
    folders. *)
Definition mail (lines : list string) (fs : list Bmesg.BlitzFolder)
    : Bmesg.Mail :=
  Bmesg.mk_Mail (Session.mk_Session true [] lines false)
    (list_to_map (map (fun f => (Bmesg.f_id f, f)) fs)).

Definition inbox : Bmesg.BlitzFolder := Bmesg.mk_Folder 12 7 "INBOX" 4096 false.
Definition archive : Bmesg.BlitzFolder := Bmesg.mk_Folder 13 0 "Old" 0 false.
Definition stale_trash : Bmesg.BlitzFolder := Bmesg.mk_Folder 5 3 "Trash" 99 true.

(** A header in which the name Received occurs twice, around a From
    line, the second time in capitals. *)
Definition header_text : string :=
  "Received: one" +:+ Py.nl +:+ "From: alice" +:+ Py.nl +:+ "RECEIVED: two"
    +:+ Py.nl +:+ "   and more" +:+ Py.nl.

(** A writer about to wake up at time 1000 with three queued requests: one
    created at 600 and last sent at 970, one created at 900 and last sent
    at 950, one created at 990 and last sent at 995. *)
Definition ping (tid0 : Z) : atp := mk_atp req [xo] 1 tid0 "NOTI" (Some "data").

Definition old_request : QElem := mk_QElem Notify 600 970 1 (ping 1) peer.
Definition due_request : QElem := mk_QElem Notify 900 950 2 (ping 2) peer.
Definition fresh_request : QElem := mk_QElem Notify 990 995 3 (ping 3) peer.

Definition writer_state (q : list QElem) : ATPObject unit :=
  mk_ATP 2154 4 300 false q [] (fun n => 1000 + Z.of_nat n) 0 true [] [] tt.

(** A loaded topic whose articles run from [low] to [high], with the ids
    of [read] in its dict. *)
Definition topic (low high : Z) (read : list Z) : Bulls.Topic :=
  Bulls.mk_Topic low high 0 EmptyString
    (list_to_map ((fun i => (i, true)) <$> read)).

(** A directory that knows one user, uid 7, whose password is secret: its
    challenge is 12345670 and the response to it is the challenge followed
    by the password. *)
Definition a_dnd : Dnd :=
  mk_Dnd true (fun _ => inl "12345670")
         (fun _ r => if String.eqb r "12345670secret" then inl 7
                     else inr "Bad password")
         (fun c p => c +:+ p).

(** A CLEN request whose packet data has three bytes instead of eight. *)
Definition short_clear_datagram : string :=
  match make_atp_packet (mk_atp req [xo] 1 9 "CLEN" (Some "abc")) with
  | Ok pkt => pkt
  | Raise _ => EmptyString
  end.

(** The UDP server with two clients at one address, the first heard from
    after the last packet sent to it, the second silent since time 4000,
    and with three queued elements, two of them under transaction id 3. *)
Definition client_7 : Client := mk_Client 7 "10.0.0.7" 4000 [1; 2] 5000 5001.
Definition client_8 : Client := mk_Client 8 "10.0.0.7" 4000 [1] 5000 4000.

Definition busy_server : ATPObject UDPExt :=
  set_rqueue [ mk_QElem Notify 4990 4995 3 (ping 3) ("10.0.0.7", 4000);
               mk_QElem Notify 4991 4996 4 (ping 4) peer;
               mk_QElem Response 4992 4997 3
                 (mk_atp rsp [xo] 1 3 "NR02" None) peer ]
    (set_clients [client_7; client_8] udp_server).


End Scenarios.

(* ===================================================================== *)
(** * Theorems *)
(* ===================================================================== *)

(** Unfolding of the monadic plumbing. *)
Ltac mred :=
  repeat (unfold Py.bind, Py.M_Bind, Py.mbind', Py.M_Ret, Py.ret, Py.mret',
            Py.gets, Py.modify, Py.lift, Py.raise);
  cbn beta iota.

Section PyExamples.
Import Py.

Example str_42 : str 42 = "42".
Proof. reflexivity. Qed.

Example str_neg : str (-7) = "-7".
Proof. reflexivity. Qed.

Example str_zero : str 0 = "0".
Proof. reflexivity. Qed.

Example int_ws : int " 12 " = Ok 12.
Proof. reflexivity. Qed.

Example int_neg : int "-12" = Ok (-12).
Proof. reflexivity. Qed.

Example int_empty : int EmptyString = Raise ValueError.
Proof. reflexivity. Qed.

Example int_sign_only : int "-" = Raise ValueError.
Proof. reflexivity. Qed.

Example split_ex : split "," "1-3,5,7-9" = ["1-3"; "5"; "7-9"].
Proof. reflexivity. Qed.

Example split_empty : split "," EmptyString = [EmptyString].
Proof. reflexivity. Qed.

Example split1_ex : split1 " " "00 a b c" = ["00"; "a b c"].
Proof. reflexivity. Qed.

Example rstrip_ex : rstrip ("abc  " +:+ nl) = "abc".
Proof. reflexivity. Qed.

Example lower_ex : lower "NeVeR" = "never".
Proof. reflexivity. Qed.

Example pack_ex : be_decode (pack_I 4009644800) 0 = 4009644800.
Proof. reflexivity. Qed.
End PyExamples.

(* --------------------------------------------------------------------- *)
(** ** notify/packet.py *)
(* --------------------------------------------------------------------- *)

Section PacketFacts.
Import Py Packet.

Example parse_atp_short : parse_atp_packet "abc" = Raise ValueError.
Proof. reflexivity. Qed.

Example make_parse_atp :
  (pkt <- make_atp_packet (mk_atp req [xo] 1 513 "NOTI" (Some "xyz")) ;;
   parse_atp_packet pkt)
  = Ok (mk_parsed req [xo] 1 513 "NOTI" "xyz").
Proof. vm_compute. reflexivity. Qed.

Example register_roundtrip :
  parse_register_req (make_register_req [1; 2] "#7" 2154)
  = Ok ("#7", 2154, [1; 2]).
Proof. vm_compute. reflexivity. Qed.
End PacketFacts.

Section RegisterReq.
Import Py Packet Scenarios.

Lemma struct_name_unbound : global_name "struct" = Raise NameError.
Proof. reflexivity. Qed.

Lemma struct_dot_error_raises : struct_dot_error = Raise NameError.
Proof. reflexivity. Qed.

Lemma unpack_Is_wrong_length (n : Z) (s : string) :
  Z.of_nat (String.length s) ≠ 4 * n → unpack_Is n s = Raise StructError.
Proof.
  intros Hlen. unfold unpack_Is.
  destruct (Z.eqb_spec (Z.of_nat (String.length s)) (4 * n)); [lia | done].
Qed.

(** C9. A registration packet that passes the UID-length check and
    carries the six-byte port/count header, but whose service-code
    region does not hold exactly [4 * num_svc] bytes, makes
    [parse_register_req] raise NameError, not the ValueError its handler
    intends: struct.error is raised by the unpack, and evaluating the
    except clause's [struct.error] fails because only [_struct] is bound. *)
Theorem parse_register_req_scrambled_raises_NameError
    (pkt : string) (c : ascii) (port num_svc : Z) :
  String.get 0 pkt = Some c →
  (Z.to_nat (ord c) + 1 ≤ String.length pkt)%nat →
  unpack_HI (stake 6 (sdrop (Z.to_nat (ord c) + 1) pkt)) = Ok (port, num_svc) →
  Z.of_nat (String.length (sdrop 6 (sdrop (Z.to_nat (ord c) + 1) pkt)))
    ≠ 4 * num_svc →
  parse_register_req pkt = Raise NameError
  ∧ parse_register_req pkt ≠ Raise ValueError.
Proof.
  intros Hc Hlen Hhdr Hsvc.
  assert (parse_register_req pkt = Raise NameError) as ->; [|done].
  unfold parse_register_req, index. rewrite Hc.
  cbn [of_option bind result_Bind rbind].
  destruct (Nat.ltb_spec (String.length pkt) (Z.to_nat (ord c) + 1)); [lia|].
  rewrite Hhdr. cbn [bind result_Bind rbind].
  rewrite (unpack_Is_wrong_length _ _ Hsvc). reflexivity.
Qed.

Lemma parse_register_req_scrambled_witness :
  parse_register_req short_register_pkt = Raise NameError
  ∧ parse_register_req short_register_pkt ≠ Raise ValueError.
Proof.
  apply (parse_register_req_scrambled_raises_NameError
           short_register_pkt (chr 2) 2154 2).
  - reflexivity.
  - vm_compute. lia.
  - reflexivity.
  - vm_compute. discriminate.
Defined.

(** When the region has the announced size the services are returned. *)
Lemma parse_register_req_ok (pkt : string) (c : ascii) (port num_svc : Z) :
  String.get 0 pkt = Some c →
  (Z.to_nat (ord c) + 1 ≤ String.length pkt)%nat →
  unpack_HI (stake 6 (sdrop (Z.to_nat (ord c) + 1) pkt)) = Ok (port, num_svc) →
  Z.of_nat (String.length (sdrop 6 (sdrop (Z.to_nat (ord c) + 1) pkt)))
    = 4 * num_svc →
  ∃ svcs, parse_register_req pkt
          = Ok (slice 1 (Z.to_nat (ord c) + 1) pkt, port, svcs).
Proof.
  intros Hc Hlen Hhdr Hsvc.
  unfold parse_register_req, index. rewrite Hc.
  cbn [of_option bind result_Bind rbind].
  destruct (Nat.ltb_spec (String.length pkt) (Z.to_nat (ord c) + 1)); [lia|].
  rewrite Hhdr. cbn [bind result_Bind rbind].
  unfold unpack_Is. rewrite Hsvc, Z.eqb_refl.
  cbn [try_except bind result_Bind rbind]. eauto.
Qed.
End RegisterReq.

(* --------------------------------------------------------------------- *)
(** ** notify/ntypes.py: the reader thread *)
(* --------------------------------------------------------------------- *)

Section Receiver.
Import Py Packet Ntypes.
Context {X : Type} {H : Handlers X}.

(** [parse_atp_packet] rejects exactly the datagrams shorter than nine
    bytes or not starting with the DDP tag. *)
Lemma parse_atp_packet_malformed (pkt : string) :
  parse_atp_packet pkt = Raise ValueError ↔
  (String.length pkt < 9)%nat ∨ be_decode (slice 0 1 pkt) 0 ≠ 3.
Proof.
  unfold parse_atp_packet, ATP_HEADER_LEN, DDP_ATP_PACKET.
  destruct (Nat.ltb_spec (String.length pkt) (8 + 1)) as [Hs|Hl].
  - split; [left; lia | done].
  - destruct (Z.eqb_spec (be_decode (slice 0 1 pkt) 0) 3) as [He|Hn]; simpl.
    + split; [done | intros [?|?]; [lia | done]].
    + split; [by right | done].
Qed.

(** A malformed datagram is not dropped: the ValueError of the parser
    leaves [receiver_loop], and so the reader thread, at that datagram; the
    datagrams behind it stay unread and nothing else changes. *)
Lemma receiver_malformed_escapes (s : ATPObject X) (pkt : string)
    (sndr : addr) (rest : list (string * addr)) :
  sock_in s = (pkt, sndr) :: rest →
  pkt ≠ EmptyString →
  parse_atp_packet pkt = Raise ValueError →
  _receiver s = (Raise ValueError, set_sock_in rest s).
Proof.
  intros Hin Hne Hbad. unfold _receiver, gets, bind, M_Bind, mbind', catch.
  rewrite Hin. cbn [receiver_loop]. unfold bind, M_Bind, mbind', modify, lift.
  destruct (String.eqb_spec pkt EmptyString) as [->|_]; [done|].
  rewrite Hbad. reflexivity.
Qed.
End Receiver.

Section ReceiverExample.
Import Py Packet Ntypes Scenarios.

(** Alone, the well-formed request is answered: a response is queued. *)
Example receiver_good_alone :
  let '(r, s) := _receiver (H := default_handlers)
                   (reader_state [(good_datagram, peer)]) in
  r = Ok tt ∧ length (_rqueue s) = 1%nat ∧ sock_in s = [].
Proof. vm_compute. done. Qed.

(** C2 (the code departs from the claim). A three-byte datagram followed by
    the well-formed request: the reader ends with the ValueError raised by
    [parse_atp_packet] instead of dropping the datagram, and the request
    behind it is never read, so no response is queued. *)
Theorem receiver_dies_on_short_datagram :
  let '(r, s) := _receiver (H := default_handlers)
                   (reader_state [("abc", peer); (good_datagram, peer)]) in
  r = Raise ValueError ∧ _rqueue s = [] ∧ sock_in s = [(good_datagram, peer)].
Proof. vm_compute. done. Qed.

(** The same with a nine-byte datagram whose first byte is not 0x03. *)
Example receiver_dies_on_wrong_tag :
  let '(r, s) := _receiver (H := default_handlers)
                   (reader_state [("Xbcdefghi", peer); (good_datagram, peer)]) in
  r = Raise ValueError ∧ _rqueue s = [] ∧ sock_in s = [(good_datagram, peer)].
Proof. vm_compute. done. Qed.

(** An unknown packet type, on the other hand, is ignored and the loop
    goes on: the request behind it is answered. *)
Example receiver_ignores_unknown_kind :
  let '(r, s) := _receiver (H := default_handlers)
                   (reader_state [(unknown_kind_datagram, peer);
                                  (good_datagram, peer)]) in
  r = Ok tt ∧ length (_rqueue s) = 1%nat ∧ sock_in s = [].
Proof. vm_compute. done. Qed.
End ReceiverExample.

(* --------------------------------------------------------------------- *)
(** ** notify/ntypes.py: the writer thread *)
(* --------------------------------------------------------------------- *)

Section Sender.
Import Py Packet Ntypes.
Context {X : Type}.
Implicit Types (s : ATPObject X) (e : QElem) (q : list QElem).










End Sender.

Section SenderExamples.
Import Py Packet Ntypes Scenarios.


(** What the turn does on that queue: the first request is dropped unsent,
    the second is sent and stamped 1003, the third is left alone, and the
    writer goes to sleep for 15 s. *)
Example writer_turn_run :
  let '(r, s') := sender_pass
                    (writer_state [old_request; due_request; fresh_request]) in
  r = Ok (Some 15) ∧
  _rqueue s' = [set_time due_request 1003; fresh_request] ∧
  map snd (sock_out s') = [peer].
Proof. vm_compute. done. Qed.

End SenderExamples.

(* --------------------------------------------------------------------- *)
(** ** notify/notifyd.py: registration and sticky replay *)
(* --------------------------------------------------------------------- *)

Section StickyReplay.
Import Py Packet Ntypes Notifyd.
Implicit Types (s : UDP) (c : Client) (n : Notice).

Lemma matches_set_smark n c t : matches n (set_smark t c) = matches n c.
Proof. done. Qed.





Lemma replay_notify_requests c clk : ∀ (ms : list Notice) (k : nat) (t : Z),
  Forall2 (notify_request_for c) ms (replay clk k t (c_addr c) ms).
Proof.
  induction ms as [|n ms IH]; intros k t; simpl; constructor; [|apply IH].
  by repeat split.
Qed.







End StickyReplay.

Section StickyReplayExamples.
Import Py Packet Ntypes Notifyd Scenarios.


(** Scenario 6 of the specification, run: of the four sticky notices, the
    one for uid 7 of type 1 and the broadcast of type 2 are replayed, in
    this order, under consecutive transaction ids (65535, then 0); the
    notice for uid 8 and the one of type 3 are not. *)
Example register_replays_two :
  let '(r, s') := add_client 7 "10.0.0.7" 4000 [1; 2] udp_server in
  r = Ok (0%nat, mk_Client 7 "10.0.0.7" 4000 [1; 2] 5005 5001) ∧
  _rqueue s' = [ notify_elem 5002 65535 (mk_Notice 7 1 100 true (Some "hi") (Some 1))
                   ("10.0.0.7", 4000);
                 notify_elem 5004 0 (mk_Notice 0 2 200 true (Some "all") (Some 2))
                   ("10.0.0.7", 4000) ] ∧
  tid s' = 1.
Proof. vm_compute. done. Qed.

(** The same registration arriving as an NR02 request from port 4000 with
    port 0 in the packet. *)
Example register_by_NR02 :
  let '(r, s') := udp_do_req [xo] 1 9 "NR02"
                    (make_register_req [1; 2] "#7" 0) ("10.0.0.7", 4000)
                    udp_server in
  r = Ok (RBool true) ∧ length (_rqueue s') = 2%nat ∧
  _clients (ext s') = [mk_Client 7 "10.0.0.7" 4000 [1; 2] 5005 5001].
Proof. vm_compute. done. Qed.

(** Registering again with other service codes keeps the codes of the
    first registration: the replay goes by the entry in the table. *)
Example reregister_keeps_services :
  let '(_, s1) := add_client 7 "10.0.0.7" 4000 [1; 2] udp_server in
  let '(r, s2) := add_client 7 "10.0.0.7" 4000 [3] s1 in
  (∃ c, r = Ok (0%nat, c) ∧ c_svcs c = [1; 2]) ∧
  length (_rqueue s2) = 4%nat.
Proof. vm_compute. eauto. Qed.

End StickyReplayExamples.

(* --------------------------------------------------------------------- *)
(** ** notify/notifyd.py: permissions of the TCP control interface *)
(* --------------------------------------------------------------------- *)

Section Permissions.
Import Py Packet Ntypes Notifyd.
Implicit Types (srv : TCPServer) (h : Handler).

(** The two gated operations are allowed exactly to the configured
    administrator. *)
Lemma check_perms_gated (operation : string) srv :
  operation = "list" ∨ operation = "broadcast" →
  (check_perms operation srv = true ↔
   ∃ a, adm srv = Some a ∧ auth srv = Some a).
Proof.
  intros Hop. unfold check_perms.
  assert (bool_decide (operation ∈ ["list"; "broadcast"]) = true) as ->.
  { apply bool_decide_eq_true. destruct Hop as [-> | ->]; set_solver. }
  cbn [negb]. destruct (adm srv) as [a|].
  - rewrite bool_decide_eq_true. split; [eauto | by intros (? & [= <-] & ?)].
  - split; [done | by intros (? & [=] & _)].
Qed.

(** Any other operation name is allowed to everybody. *)
Lemma check_perms_client_open srv : check_perms "client" srv = true.
Proof. reflexivity. Qed.

(** LIST by anyone but the administrator: 554, nothing else changes. *)
Lemma cmd_LIST_denied (cmd : string) (args : list string) h :
  check_perms "list" (server h) = false →
  cmd_LIST cmd args h
  = (Ok tt, mk_Handler (server h) (quit h) (dnd h) (resp h)
              (wfile h ++ ["554 Permission denied." +:+ CRLF]) (rfile h)).
Proof. intros Hp. unfold cmd_LIST. mred. rewrite Hp. reflexivity. Qed.

(** A broadcast NOTIFY (uid 0) by anyone but the administrator: the
    announced bytes are read, 554 is answered, and neither the store nor
    the UDP server is touched. *)
Lemma cmd_NOTIFY_broadcast_denied (cmd : string) (args : list string) h
    (len type msgid sticky : Z) :
  length args = 5%nat →
  ints args = Ok [len; 0; type; msgid; sticky] →
  check_perms "broadcast" (server h) = false →
  cmd_NOTIFY cmd args h
  = (Ok tt, mk_Handler (server h) (quit h) (dnd h) (resp h)
              (wfile h ++ ["554 Broadcast permission denied." +:+ CRLF])
              (if 0 <? len then sdrop (Z.to_nat len) (rfile h) else rfile h)).
Proof.
  intros Hlen Hints Hp. unfold cmd_NOTIFY. rewrite Hlen, Hints. cbn [Nat.eqb negb].
  mred. destruct (0 <? len); unfold read; mred; cbn; rewrite Hp; reflexivity.
Qed.

(** CLIENT is never refused: whoever is authenticated, or nobody, a
    well-formed CLIENT command registers the client and is answered 200. *)
Lemma cmd_CLIENT_not_gated (cmd uid ip cport : string) (svc : string)
    (svcs : list string) h (r_uid r_port : Z) (r_svcs : list Z) :
  int uid = Ok r_uid → ints (svc :: svcs) = Ok r_svcs → int cport = Ok r_port →
  cmd_CLIENT cmd (uid :: ip :: cport :: svc :: svcs) h
  = (_ <- server_add_client r_uid ip r_port r_svcs ;;
     write ("200 Ok." +:+ CRLF)) h.
Proof.
  intros Hu Hs Hp. unfold cmd_CLIENT. mred.
  rewrite check_perms_client_open. cbn [negb length Nat.ltb Nat.leb].
  rewrite Hu. cbn [rbind]. rewrite Hs. cbn [rbind]. rewrite Hp. reflexivity.
Qed.
End Permissions.

Section PermissionExamples.
Import Py Packet Ntypes Notifyd Scenarios.

(** LIST and a broadcast NOTIFY on a connection nobody has authenticated
    on are refused with 554. *)
Example list_refused :
  let '(r, h) := handle no_dnd (connection ("LIST all" +:+ CRLF)) in
  r = Ok tt ∧
  wfile h = ["220 Notification server ready." +:+ CRLF;
             "554 Permission denied." +:+ CRLF] ∧
  server h = tcp_server.
Proof. vm_compute. done. Qed.

Example broadcast_refused :
  let '(r, h) := handle no_dnd
                   (connection ("NOTIFY 2,0,1,9,1" +:+ CRLF +:+ "hi")) in
  r = Ok tt ∧
  wfile h = ["220 Notification server ready." +:+ CRLF;
             "554 Broadcast permission denied." +:+ CRLF] ∧
  server h = tcp_server.
Proof. vm_compute. done. Qed.

(** The administrator, once authenticated, gets the list. *)
Example list_allowed :
  let h0 := set_server (set_auth (Some 1) tcp_server)
              (connection ("LIST notices" +:+ CRLF)) in
  let '(r, h) := handle no_dnd h0 in
  r = Ok tt ∧ length (wfile h) = 7%nat ∧
  wfile h !! 1%nat = Some ("101 4" +:+ CRLF) ∧
  wfile h !! 3%nat
    = Some ("110 0,2,200,1," +:+ String DQ ("all" +:+ String DQ CRLF)).
Proof. vm_compute. done. Qed.

(** C3 (the code departs from the claim). The administrator is uid 1 and
    nobody has authenticated on the connection, yet CLIENT is not answered
    554: [check_perms] gates only the names list and broadcast, so the
    client is registered with the UDP server, the sticky notices matching
    it are replayed to the given address, and the reply is 200. *)
Theorem client_command_is_not_gated :
  let '(r, h) := handle no_dnd
                   (connection ("CLIENT 7,10.0.0.7,4000,1,2" +:+ CRLF)) in
  adm tcp_server = Some 1 ∧ auth tcp_server = None ∧
  r = Ok tt ∧
  wfile h = ["220 Notification server ready." +:+ CRLF;
             "200 Ok." +:+ CRLF] ∧
  (∃ u, udp (server h) = Some u ∧
        map c_uid (_clients (ext u)) = [7] ∧ length (_rqueue u) = 2%nat).
Proof. vm_compute. split_and!; try done. eexists. split_and!; done. Qed.
End PermissionExamples.

(* --------------------------------------------------------------------- *)
(** ** session.py, bmesg.py, bfold.py *)
(* --------------------------------------------------------------------- *)

Section SessionFacts.
Import Py Re Session Bmesg.

Lemma sapp_assoc (a b c : string) : (a +:+ b) +:+ c = a +:+ (b +:+ c).
Proof.
  induction a as [|x a IH]; [done|].
  change (String x ((a +:+ b) +:+ c) = String x (a +:+ (b +:+ c))).
  by rewrite IH.
Qed.

(** Reading never writes. *)
Lemma _readline_sent (s : Session) r s' :
  _readline s = (r, s') → sent s' = sent s.
Proof.
  unfold _readline, _close. mred. destruct (_conn s); cbn [negb].
  - destruct (_input s) as [|line rest]; [by intros [= <- <-]|].
    destruct (String.eqb line EmptyString); [by intros [= <- <-]|].
    destruct (split1 " " line) as [|k [|d [|]]]; try by intros [= <- <-].
    destruct (int k); by intros [= <- <-].
  - by intros [= <- <-].
Qed.

Lemma blitz_expect_sent (wanted : list Z) (s : Session) r s' :
  blitz_expect wanted s = (r, s') → sent s' = sent s.
Proof.
  unfold blitz_expect, bind, M_Bind, mbind'.
  destruct (_readline s) as [[[key data]|e] s1] eqn:Hrl;
    apply _readline_sent in Hrl.
  - mred. case_bool_decide; intros [= <- <-]; done.
  - by intros [= <- <-].
Qed.

(** A command on a connected session is appended to what was written. *)
Lemma _rawsend_connected (data : string) (s : Session) :
  _conn s = true →
  _rawsend data s
  = (Ok tt, mk_Session (_conn s) (sent s ++ [data]) (_input s) (warn_flag s)).
Proof.
  intros Hc. unfold _rawsend. mred.
  destruct (_conn s) eqn:E; [|done]. cbn beta. by rewrite E.
Qed.

Lemma _rawsend_sent (data : string) (s : Session) r s' :
  _rawsend data s = (r, s') → ∃ rest, sent s' = sent s ++ rest.
Proof.
  unfold _rawsend. mred. destruct (_conn s); intros [= <- <-].
  - by eexists.
  - exists []. by rewrite app_nil_r.
Qed.

Lemma on_sess_run {A} (m : M Session A) (w : Mail) :
  on_sess m w = ((m (sess w)).1, mk_Mail (m (sess w)).2 (folders w)).
Proof. unfold on_sess. by destruct (m (sess w)). Qed.

Lemma reload_sent (P : Platform) (m : BlitzSummary) (w : Mail) r w' :
  reload P m w = (r, w') → ∃ rest, sent (sess w') = sent (sess w) ++ rest.
Proof.
  unfold reload, _cmd2. mred. rewrite !on_sess_run. cbn [sess folders].
  destruct (_rawsend _ (sess w)) as [[[]|e] s1] eqn:H1;
    apply _rawsend_sent in H1 as [rest1 H1]; cbn [fst snd].
  - destruct (blitz_expect [0] s1) as [[[k d]|e] s2] eqn:H2;
      apply blitz_expect_sent in H2; cbn [fst snd].
    + destruct (_parse_response _ _ _); intros [= <- <-]; exists rest1;
        cbn; congruence.
    + intros [= <- <-]. exists rest1. cbn. congruence.
  - intros [= <- <-]. by exists rest1.
Qed.

(** C6. On a connected session and a platform whose [sys.maxint] is
    2147483647, [set_expiration] with the word never in any mix of upper
    and lower case writes, before anything else, the command line
    EXPR folder/message 4294967295: the argument is [2 * INT_MAX + 1]. *)
Theorem set_expiration_never_sends_4294967295
    (P : Platform) (m : BlitzSummary) (when : string) (w : Mail) :
  _conn (sess w) = true →
  lower when = "never" →
  INT_MAX P = 2147483647 →
  _parse_expire P (WStr when) = Ok (2 * INT_MAX P + 1) ∧
  2 * INT_MAX P + 1 = 4294967295 ∧
  ∃ r w' rest,
    set_expiration P m (WStr when) w = (r, w') ∧
    sent (sess w')
    = sent (sess w)
      ++ ("EXPR " +:+ str (folder m) +:+ "/" +:+ str (message_id m)
            +:+ " 4294967295" +:+ nl) :: rest.
Proof.
  intros Hc Hnever Hmax.
  assert (_parse_expire P (WStr when) = Ok (2 * INT_MAX P + 1)) as Hpe.
  { unfold _parse_expire. by rewrite Hnever. }
  split; [done|]. split; [lia|].
  unfold set_expiration. rewrite Hpe, Hmax. mred. unfold _cmd2.
  rewrite on_sess_run, (_rawsend_connected _ _ Hc). cbn [fst snd sess folders].
  rewrite on_sess_run. cbn [sess folders].
  match goal with |- context [blitz_expect [10] ?st] => set (s1 := st) end.
  assert (sent s1 = sent (sess w)
            ++ ["EXPR " +:+ str (folder m) +:+ "/" +:+ str (message_id m)
                  +:+ " 4294967295" +:+ nl]) as Hs1.
  { subst s1. cbn [sent]. do 2 f_equal.
    change (2 * 2147483647 + 1) with 4294967295.
    change (str 4294967295) with "4294967295".
    rewrite !sapp_assoc. reflexivity. }
  destruct (blitz_expect [10] s1) as [[[k d]|e] s2] eqn:H2;
    apply blitz_expect_sent in H2; cbn [fst snd].
  - destruct (reload P m (mk_Mail s2 (folders w))) as [r w'] eqn:H3.
    destruct (reload_sent _ _ _ _ _ H3) as [rest Hrest].
    exists r, w', rest. split; [done|].
    rewrite Hrest. cbn [sess]. rewrite H2, Hs1, <- app_assoc. done.
  - eexists _, _, []. split; [reflexivity|]. cbn [sess]. by rewrite H2, Hs1.
Qed.





End SessionFacts.

Section ExpirationExamples.
Import Py Re Session Bmesg Scenarios.

Lemma set_expiration_never_witness :
  _parse_expire platform32 (WStr "NeVer") = Ok (2 * INT_MAX platform32 + 1) ∧
  2 * INT_MAX platform32 + 1 = 4294967295 ∧
  ∃ r w' rest,
    set_expiration platform32 a_summary (WStr "NeVer") (mail [] []) = (r, w') ∧
    sent (sess w')
    = sent (sess (mail [] []))
      ++ ("EXPR " +:+ str (folder a_summary) +:+ "/"
            +:+ str (message_id a_summary) +:+ " 4294967295" +:+ nl) :: rest.
Proof.
  apply (set_expiration_never_sends_4294967295 platform32 a_summary "NeVer"
           (mail [] [])); reflexivity.
Defined.

(** A full exchange: EXPR is acknowledged with code 10, the summary is
    reloaded with MSUM. *)
Example set_expiration_never_run :
  let '(r, w') := set_expiration platform32 a_summary (WStr "never")
                    (mail ["10 ok" +:+ nl; "00 " +:+ summary_line +:+ nl] []) in
  r = Ok a_summary ∧
  sent (sess w') = ["EXPR 12/42 4294967295" +:+ nl; "MSUM 12/42" +:+ nl].
Proof. vm_compute. done. Qed.

(** Scenario 3 of the specification: the parsed summary line. *)
Example parse_summary_line :
  _parse_response platform32 12 summary_line = Ok a_summary.
Proof. vm_compute. done. Qed.
End ExpirationExamples.

Section MoveExamples.
Import Py Re Session Bmesg Scenarios.


(** The same message after the move and after a reload that reports the
    same expiration: 4009644800 against 1926818000. *)
Example move_then_reload :
  let w := mail ["01 4009644800" +:+ nl; "00 " +:+ nl;
                 "00 " +:+ summary_line +:+ nl] [inbox; archive] in
  let '(r1, w1) := move_to a_summary 13 w in
  match r1 with
  | Ok m1 =>
      let '(r2, w2) := reload platform32 m1 w1 in
      expires m1 = 4009644800 ∧
      folder m1 = 13 ∧
      (∃ m2, r2 = Ok m2 ∧ expires m2 = 1926818000) ∧
      sent (sess w2) = ["MOVE 12 13 42" +:+ nl; "MSUM 13/42" +:+ nl] ∧
      need_rl <$> (folders w2 !! 12) = Some true
  | Raise _ => False
  end.
Proof. vm_compute. split_and!; eauto. Qed.

(** A COPY leaves [expires] alone, and so does the answer -1. *)
Example copy_keeps_expiration :
  let w := mail ["01 4009644800" +:+ nl; "00 " +:+ nl] [inbox; archive] in
  (copy_to a_summary 13 w).1 = Ok a_summary.
Proof. vm_compute. done. Qed.

Example move_minus_one_keeps_expiration :
  let w := mail ["01 -1" +:+ nl; "00 " +:+ nl] [inbox; archive] in
  (_move_message a_summary "MOVE" 13 w).1 = Ok a_summary.
Proof. vm_compute. done. Qed.
End MoveExamples.

Section FolderFacts.
Import Py Re Session Bmesg Bfold.
Variable P : Platform.

Lemma collect_sent : ∀ (fuel : nat) (fid key : Z) (data : string)
    (out : list BlitzSummary) (w : Mail) r w',
  collect P fuel fid key data out w = (r, w') → sent (sess w') = sent (sess w).
Proof.
  induction fuel as [|fuel IH]; intros fid key data out w r w'; simpl.
  - destruct (key =? 0); mred.
    + destruct (_parse_response P fid data); by intros [= <- <-].
    + by intros [= <- <-].
  - destruct (key =? 0); mred.
    + destruct (_parse_response P fid data); by intros [= <- <-].
    + destruct (_parse_response P fid data); [|by intros [= <- <-]].
      rewrite on_sess_run.
      destruct (blitz_expect [0; 1] (sess w)) as [[[k d]|e] s2] eqn:H2;
        apply blitz_expect_sent in H2; cbn [fst snd].
      * intros Hc. apply IH in Hc. cbn in Hc. congruence.
      * intros [= <- <-]. done.
Qed.

Lemma get_count_fresh (fid : Z) (w : Mail) (f : BlitzFolder) :
  folders w !! fid = Some f → need_rl f = false →
  get_count fid w = (Ok (f_count f), w).
Proof.
  intros Hf Hn. unfold get_count, the_folder. mred. rewrite Hf. cbn beta iota.
  rewrite Hn. cbn beta iota. rewrite Hf. done.
Qed.

Lemma get_count_stale (fid : Z) (w w1 : Mail) (f f1 : BlitzFolder) :
  folders w !! fid = Some f → need_rl f = true →
  reload fid w = (Ok tt, w1) → folders w1 !! fid = Some f1 →
  get_count fid w = (Ok (f_count f1), w1).
Proof.
  intros Hf Hn Hr Hf1. unfold get_count, the_folder at 1. mred. rewrite Hf.
  cbn beta iota. rewrite Hn, Hr. unfold the_folder. mred. rewrite Hf1. done.
Qed.

(** A reload that succeeds has written the FLIS command and nothing else. *)
Lemma reload_sent_FLIS (fid : Z) (w w1 : Mail) (f : BlitzFolder) :
  folders w !! fid = Some f →
  reload fid w = (Ok tt, w1) →
  sent (sess w1) = sent (sess w) ++ ["FLIS " +:+ str (f_id f) +:+ nl].
Proof.
  intros Hf. unfold reload, the_folder, _cmd1, put_folder. mred. rewrite Hf.
  cbn beta iota. rewrite on_sess_run. unfold _rawsend at 1 2. mred.
  destruct (_conn (sess w)) eqn:Hc; cbn [fst snd]; [|done].
  rewrite on_sess_run. cbn [sess folders].
  match goal with |- context [blitz_expect [0] ?st] => set (s1 := st) end.
  destruct (blitz_expect [0] s1) as [[[k d]|e] s2] eqn:H2;
    apply blitz_expect_sent in H2; cbn [fst snd]; [|done].
  destruct (_parse_info f d); [|done]. intros [= <-]. cbn. by rewrite H2.
Qed.

Lemma blitz_expect_conn (wanted : list Z) (s s' : Session) r :
  blitz_expect wanted s = (Ok r, s') → _conn s' = _conn s.
Proof.
  unfold blitz_expect, _readline, _close. mred.
  destruct (_conn s) eqn:Hc; cbn [negb]; [|done].
  destruct (_input s) as [|line rest]; [done|]. cbn beta iota.
  destruct (String.eqb line EmptyString); [done|].
  destruct (split1 " " line) as [|k [|d [|]]]; try done.
  destruct (int k); [|done]. cbn beta iota.
  case_bool_decide; [|done]. intros [= <- <-]. done.
Qed.

Lemma reload_ok (fid : Z) (w w1 : Mail) :
  reload fid w = (Ok tt, w1) →
  _conn (sess w) = true ∧ _conn (sess w1) = true ∧
  ∃ f1, folders w1 !! fid = Some f1 ∧ need_rl f1 = false.
Proof.
  unfold reload, the_folder, _cmd1, put_folder. mred.
  destruct (folders w !! fid) as [f|]; [|done].
  cbn beta iota. rewrite on_sess_run. unfold _rawsend at 1 2. mred.
  destruct (_conn (sess w)) eqn:Hc; cbn [fst snd]; [|done].
  rewrite on_sess_run. cbn [sess folders].
  match goal with |- context [blitz_expect [0] ?st] => set (s1 := st) end.
  destruct (blitz_expect [0] s1) as [[[k d]|e] s2] eqn:H2; cbn [fst snd]; [|done].
  apply blitz_expect_conn in H2.
  destruct (_parse_info f d) as [f'|]; [|done]. intros [= <-]. cbn.
  split_and!; [done | by rewrite H2 |].
  eexists. by rewrite lookup_insert_eq.
Qed.

(** What [get_summaries] does once the count is known to be positive. *)
Lemma get_summaries_sends_FSUM (fid : Z) (lo : option Z)
    (hi : option hi_index) (w w1 : Mail) (f1 : BlitzFolder) (c : Z) :
  get_count fid w = (Ok c, w1) → c ≠ 0 →
  folders w1 !! fid = Some f1 → _conn (sess w1) = true →
  ∃ r w' rest,
    get_summaries P fid lo hi w = (r, w') ∧
    sent (sess w')
    = sent (sess w1)
      ++ ("FSUM " +:+ str (f_id f1) +:+ " " +:+ range_of lo hi +:+ nl) :: rest.
Proof.
  intros Hcnt Hnz Hf Hc. unfold get_summaries. mred. rewrite Hcnt.
  destruct (Z.eqb_spec c 0); [done|].
  unfold the_folder. mred. rewrite Hf. cbn beta iota. unfold _cmd2.
  rewrite on_sess_run, (_rawsend_connected _ _ Hc). cbn [fst snd sess folders].
  rewrite on_sess_run. cbn [sess folders].
  match goal with |- context [blitz_expect [0; 1] ?st] => set (s1 := st) end.
  assert (sent s1 = sent (sess w1)
            ++ ["FSUM " +:+ str (f_id f1) +:+ " " +:+ range_of lo hi +:+ nl])
    as Hs1 by done.
  destruct (blitz_expect [0; 1] s1) as [[[k d]|e] s2] eqn:H2;
    apply blitz_expect_sent in H2; cbn [fst snd].
  - match goal with |- context [collect P ?n ?a ?b ?c ?o ?st] =>
      destruct (collect P n a b c o st) as [r w'] eqn:H3 end.
    apply collect_sent in H3. exists r, w', []. split; [done|].
    rewrite H3. cbn. by rewrite H2, Hs1.
  - eexists _, _, []. split; [done|]. cbn. by rewrite H2, Hs1.
Qed.

(** C8, as amended. When the folder is up to date and holds no message,
    [get_summaries] returns the empty list and the session is left as it
    was: nothing is written.  When the folder is out of date its count is
    first reloaded, which writes the FLIS command; if the count read back
    is 0 the result is the empty list and FLIS is all that was written, no
    FSUM.  When the count, reloaded or not, is not 0 and the session is
    connected, the FSUM command with the folder id and the range asked for
    is written next. *)
Theorem get_summaries_empty_folder
    (fid : Z) (lo : option Z) (hi : option hi_index) (w : Mail)
    (f : BlitzFolder) :
  folders w !! fid = Some f →
  (need_rl f = false → f_count f = 0 →
     get_summaries P fid lo hi w = (Ok [], w)) ∧
  (need_rl f = true →
     ∀ w1 f1, reload fid w = (Ok tt, w1) → folders w1 !! fid = Some f1 →
       sent (sess w1) = sent (sess w) ++ ["FLIS " +:+ str (f_id f) +:+ nl] ∧
       (f_count f1 = 0 → get_summaries P fid lo hi w = (Ok [], w1)) ∧
       (f_count f1 ≠ 0 →
          ∃ r w' rest,
            get_summaries P fid lo hi w = (r, w') ∧
            sent (sess w')
            = sent (sess w1)
              ++ ("FSUM " +:+ str (f_id f1) +:+ " " +:+ range_of lo hi +:+ nl)
                   :: rest)) ∧
  (need_rl f = false → f_count f ≠ 0 → _conn (sess w) = true →
     ∃ r w' rest,
       get_summaries P fid lo hi w = (r, w') ∧
       sent (sess w')
       = sent (sess w)
         ++ ("FSUM " +:+ str (f_id f) +:+ " " +:+ range_of lo hi +:+ nl) :: rest).
Proof.
  intros Hf. split_and!.
  - intros Hn Hz. unfold get_summaries. mred.
    rewrite (get_count_fresh _ _ _ Hf Hn), Hz. done.
  - intros Hn w1 f1 Hr Hf1.
    pose proof (get_count_stale _ _ _ _ _ Hf Hn Hr Hf1) as Hcnt.
    destruct (reload_ok _ _ _ Hr) as (_ & Hc1 & _).
    split_and!.
    + by eapply reload_sent_FLIS.
    + intros Hz. unfold get_summaries. mred. rewrite Hcnt, Hz. done.
    + intros Hnz. eauto using get_summaries_sends_FSUM.
  - intros Hn Hnz Hc.
    eauto using get_summaries_sends_FSUM, get_count_fresh.
Qed.
End FolderFacts.

Section FolderExamples.
Import Py Re Session Bmesg Bfold Scenarios.

Lemma get_summaries_empty_folder_witness :
  let w := mail ["00 " +:+ trash_line +:+ nl] [inbox; archive; stale_trash] in
  (need_rl stale_trash = false → f_count stale_trash = 0 →
     get_summaries platform32 5 None None w = (Ok [], w)) ∧
  (need_rl stale_trash = true →
     ∀ w1 f1, reload 5 w = (Ok tt, w1) → folders w1 !! 5 = Some f1 →
       sent (sess w1)
       = sent (sess w) ++ ["FLIS " +:+ str (f_id stale_trash) +:+ nl] ∧
       (f_count f1 = 0 →
          get_summaries platform32 5 None None w = (Ok [], w1)) ∧
       (f_count f1 ≠ 0 →
          ∃ r w' rest,
            get_summaries platform32 5 None None w = (r, w') ∧
            sent (sess w')
            = sent (sess w1)
              ++ ("FSUM " +:+ str (f_id f1) +:+ " " +:+ range_of None None
                    +:+ nl) :: rest)) ∧
  (need_rl stale_trash = false → f_count stale_trash ≠ 0 →
   _conn (sess w) = true →
     ∃ r w' rest,
       get_summaries platform32 5 None None w = (r, w') ∧
       sent (sess w')
       = sent (sess w)
         ++ ("FSUM " +:+ str (f_id stale_trash) +:+ " " +:+ range_of None None
               +:+ nl) :: rest).
Proof.
  apply (get_summaries_empty_folder platform32 5 None None
           (mail ["00 " +:+ trash_line +:+ nl] [inbox; archive; stale_trash])
           stale_trash).
  vm_compute. reflexivity.
Defined.

(** An empty folder that is up to date: no command at all. *)
Example summaries_of_empty_folder :
  let w := mail [] [inbox; archive; stale_trash] in
  get_summaries platform32 13 None None w = (Ok [], w).
Proof. vm_compute. done. Qed.

(** C8 as stated fails. The trash folder is out of date (it has been
    touched, as after [empty_trash]); the server reports it empty.  The
    result is the empty list and no FSUM is sent, but a command was issued:
    FLIS 5, to reload the count. *)
Lemma empty_stale_folder_issues_FLIS :
  let w := mail ["00 " +:+ trash_line +:+ nl] [inbox; archive; stale_trash] in
  let '(r, w') := get_summaries platform32 5 None None w in
  r = Ok [] ∧
  f_count <$> (folders w' !! 5) = Some 0 ∧
  sent (sess w) = [] ∧
  sent (sess w') = ["FLIS 5" +:+ nl].
Proof. vm_compute. done. Qed.

(** A folder with messages: FSUM is sent and the summaries are read. *)
Example summaries_of_inbox :
  let w := mail ["00 " +:+ summary_line +:+ nl] [inbox; archive] in
  let '(r, w') := get_summaries platform32 12 (Some 3) (Some HiLast) w in
  r = Ok [a_summary] ∧ sent (sess w') = ["FSUM 12 3-$" +:+ nl].
Proof. vm_compute. done. Qed.

(** Scenario 2 of the specification: the folder line. *)
Example parse_folder_line :
  _parse_info (mk_Folder 0 0 EmptyString 0 false) inbox_line = Ok inbox.
Proof. vm_compute. done. Qed.
End FolderExamples.

(* --------------------------------------------------------------------- *)
(** ** bmesg.py: the header map *)
(* --------------------------------------------------------------------- *)

Section HeaderFacts.
Import Py Re Session Bmesg.

Lemma dict_get_set_eq {V} (k : string) (v : V) (d : dict V) :
  dict_get k (dict_set k v d) = Some v.
Proof.
  induction d as [|[k' v'] d IH]; simpl.
  - by rewrite String.eqb_refl.
  - destruct (String.eqb_spec k' k) as [->|Hne]; simpl.
    + by rewrite String.eqb_refl.
    + destruct (String.eqb_spec k' k); done.
Qed.

Lemma dict_get_set_ne {V} (k k0 : string) (v : V) (d : dict V) :
  k ≠ k0 → dict_get k0 (dict_set k v d) = dict_get k0 d.
Proof.
  intros Hne. induction d as [|[k' v'] d IH]; simpl.
  - destruct (String.eqb_spec k k0); done.
  - destruct (String.eqb_spec k' k) as [->|Hne']; simpl.
    + destruct (String.eqb_spec k k0); done.
    + destruct (String.eqb_spec k' k0); done.
Qed.

Lemma dict_set_keys {V} (k : string) (v : V) (d : dict V) :
  (dict_set k v d).*1
  = match dict_get k d with Some _ => d.*1 | None => d.*1 ++ [k] end.
Proof.
  induction d as [|[k' v'] d IH]; [done|].
  cbn [dict_set dict_get].
  destruct (String.eqb_spec k' k) as [->|Hne]; [done|].
  rewrite fmap_cons, IH. by destruct (dict_get k d).
Qed.

Lemma dict_get_None {V} (k : string) (d : dict V) :
  dict_get k d = None ↔ k ∉ d.*1.
Proof.
  induction d as [|[k' v'] d IH]; simpl.
  - split; [intros _; apply not_elem_of_nil | done].
  - rewrite not_elem_of_cons. destruct (String.eqb_spec k' k) as [->|Hne].
    + split; [done | by intros []].
    + rewrite IH. split; [by split | by intros []].
Qed.

Lemma dict_get_elem_of {V} (k : string) (v : V) (d : dict V) :
  NoDup d.*1 → (dict_get k d = Some v ↔ (k, v) ∈ d).
Proof.
  induction d as [|[k' v'] d IH]; simpl; intros Hnd.
  - split; [done | by intros ?%elem_of_nil].
  - apply NoDup_cons in Hnd as [Hk' Hnd]. rewrite elem_of_cons.
    destruct (String.eqb_spec k' k) as [->|Hne].
    + split; [by intros [= ->]; left|].
      intros [[= ->]|Hin]; [done|]. destruct Hk'.
      apply list_elem_of_fmap. by exists (k, v).
    + rewrite IH by done. split; [by right|]. by intros [[= -> _]|?].
Qed.

Lemma occurrences_app k u1 u2 :
  occurrences k (u1 ++ u2) = occurrences k u1 ++ occurrences k u2.
Proof. apply filter_app. Qed.

(** The index after all header lines have been entered. *)
Lemma build_index_spec (u : list (string * string)) :
  NoDup (build_index u).*1 ∧
  ∀ k, dict_get k (build_index u)
       = match occurrences k u with
         | [] => None
         | ((n, _) :: _) as l => Some (n, l.*2)
         end.
Proof.
  induction u as [|[hdr d] u [IHnd IH]] using rev_ind.
  { split; [constructor | done]. }
  unfold build_index in *. rewrite foldl_app. cbn [foldl].
  set (idx := foldl index_add [] u) in *.
  unfold index_add. pose proof (IH (lower hdr)) as Hkey.
  assert (∀ k, occurrences k (u ++ [(hdr, d)])
               = occurrences k u
                 ++ (if decide (lower hdr = k) then [(hdr, d)] else [])) as Hocc.
  { intros k. rewrite occurrences_app. unfold occurrences at 2.
    rewrite filter_cons, filter_nil. simpl. by destruct (decide _). }
  destruct (dict_get (lower hdr) idx) as [[name lst]|] eqn:Hget.
  - split.
    + by rewrite dict_set_keys, Hget.
    + intros k. rewrite Hocc. destruct (decide (lower hdr = k)) as [<-|Hne].
      * rewrite dict_get_set_eq.
        destruct (occurrences (lower hdr) u) as [|[n d0] l]; [done|].
        simplify_eq. simpl. by rewrite fmap_app.
      * rewrite dict_get_set_ne, app_nil_r by done. apply IH.
  - split.
    + rewrite dict_set_keys, Hget. apply NoDup_app. split_and!; [done| |].
      * intros x Hx ->%list_elem_of_singleton.
        by apply dict_get_None in Hget.
      * apply NoDup_singleton.
    + intros k. rewrite Hocc. destruct (decide (lower hdr = k)) as [<-|Hne].
      * rewrite dict_get_set_eq.
        destruct (occurrences (lower hdr) u) as [|[n d0] l]; [done|].
        done.
      * rewrite dict_get_set_ne, app_nil_r by done. apply IH.
Qed.

(** Each entry of the index is filed under the lower-case form of the name
    it records, and holds the whole group of its key. *)
Lemma build_index_entry (u : list (string * string)) k name lst :
  (k, (name, lst)) ∈ build_index u →
  lower name = k ∧ map (pair name) lst = group_of u k ∧ lst ≠ [].
Proof.
  destruct (build_index_spec u) as [Hnd Hget]. intros Hin.
  apply dict_get_elem_of in Hin; [|done]. rewrite Hget in Hin.
  unfold group_of. destruct (occurrences k u) as [|[n d0] l] eqn:Hocc; [done|].
  simplify_eq. split_and!; [|done|done].
  assert ((name, d0) ∈ occurrences k u) as Hn by (rewrite Hocc; left).
  unfold occurrences in Hn. by apply list_elem_of_filter in Hn as [? _].
Qed.

Section Order.
Variable dict_order : dict (string * list string) → dict (string * list string).
Hypothesis dict_order_perm : ∀ d, dict_order d ≡ₚ d.

Lemma items_groups (text : string) (u : list (string * string)) :
  items dict_order (mk_Header text (build_index u))
  = concat (map (group_of u) (dict_order (build_index u)).*1).
Proof.
  unfold items. cbn [index]. f_equal.
  assert (∀ z, z ∈ dict_order (build_index u) → z ∈ build_index u) as Hsub.
  { intros z. by rewrite dict_order_perm. }
  induction (dict_order (build_index u)) as [|[k [name lst]] l IH]; [done|].
  simpl. f_equal.
  - apply build_index_entry. apply Hsub. left.
  - apply IH. intros z Hz. apply Hsub. by right.
Qed.

Lemma iter_items (text : string) (u : list (string * string)) :
  iter dict_order (mk_Header text (build_index u))
  = Ok (items dict_order (mk_Header text (build_index u))).
Proof.
  unfold iter, items, keys. cbn [index].
  assert (∀ z, z ∈ dict_order (build_index u) → z ∈ build_index u) as Hsub.
  { intros z. by rewrite dict_order_perm. }
  induction (dict_order (build_index u)) as [|[k [name lst]] l IH]; [done|].
  simpl. unfold get at 1. cbn [index].
  assert ((k, (name, lst)) ∈ build_index u) as Hin by (apply Hsub; left).
  destruct (build_index_entry _ _ _ _ Hin) as (-> & _ & _).
  apply dict_get_elem_of in Hin; [|apply build_index_spec]. rewrite Hin.
  cbn [bind result_Bind rbind]. rewrite IH; [done|].
  intros z Hz. apply Hsub. by right.
Qed.

Lemma keys_of_index (u : list (string * string)) :
  NoDup (dict_order (build_index u)).*1 ∧
  ∀ k, k ∈ (dict_order (build_index u)).*1 ↔ occurrences k u ≠ [].
Proof.
  destruct (build_index_spec u) as [Hnd Hget].
  assert ((dict_order (build_index u)).*1 ≡ₚ (build_index u).*1) as Hp
    by (by rewrite dict_order_perm).
  split; [by rewrite Hp|].
  intros k. rewrite Hp. pose proof (dict_get_None k (build_index u)) as Hn.
  rewrite Hget in Hn. destruct (occurrences k u) as [|[n d] l].
  - split; [|done]. intros Hin. by apply Hn in Hin.
  - split; [done|]. intros _. destruct (decide (k ∈ (build_index u).*1)); [done|].
    by apply Hn in n0.
Qed.
End Order.

Lemma first_spec (text : string) (u : list (string * string)) (hdr : string) :
  first (mk_Header text (build_index u)) hdr
  = match occurrences (lower hdr) u with
    | [] => Raise KeyError
    | x :: _ => Ok x
    end.
Proof.
  unfold first, get. cbn [index].
  destruct (build_index_spec u) as [_ Hget]. rewrite Hget.
  by destruct (occurrences (lower hdr) u) as [|[n d] l].
Qed.

Lemma get_spec (text : string) (u : list (string * string)) (hdr : string) :
  get (mk_Header text (build_index u)) hdr
  = match occurrences (lower hdr) u with
    | [] => Raise KeyError
    | _ => Ok (group_of u (lower hdr))
    end.
Proof.
  unfold get, group_of. cbn [index].
  destruct (build_index_spec u) as [_ Hget]. rewrite Hget.
  by destruct (occurrences (lower hdr) u) as [|[n d] l].
Qed.

Lemma occurrences_cons k x u :
  occurrences k (x :: u)
  = if decide (lower x.1 = k) then x :: occurrences k u else occurrences k u.
Proof. unfold occurrences. by rewrite filter_cons. Qed.

Lemma concat_occurrences_cons (ks : list string) x u :
  NoDup ks →
  concat (map (fun k => occurrences k (x :: u)) ks)
  ≡ₚ (if decide (lower x.1 ∈ ks) then [x] else [])
     ++ concat (map (fun k => occurrences k u) ks).
Proof.
  induction ks as [|k ks IH]; intros Hnd.
  - destruct (decide (lower x.1 ∈ [])) as [Hin|_]; [|done].
    by apply elem_of_nil in Hin.
  - apply NoDup_cons in Hnd as [Hk Hnd]. cbn [map concat]. rewrite IH by done.
    rewrite occurrences_cons.
    destruct (decide (lower x.1 = k)) as [Heq|Hne];
      destruct (decide (lower x.1 ∈ ks)) as [Hin|Hin];
      destruct (decide (lower x.1 ∈ k :: ks)) as [Hin'|Hin'];
      try (rewrite not_elem_of_cons in Hin'; destruct Hin'; by auto).
    + by rewrite Heq in Hin.
    + done.
    + cbn [app]. symmetry. apply Permutation_middle.
    + apply elem_of_cons in Hin' as [?|?]; done.
Qed.

(** Going through the keys, each once, meets every line once. *)
Lemma concat_occurrences_perm (ks : list string) u :
  NoDup ks → (∀ x, x ∈ u → lower x.1 ∈ ks) →
  concat (map (fun k => occurrences k u) ks) ≡ₚ u.
Proof.
  intros Hnd. induction u as [|x u IH]; intros Hin.
  - clear. induction ks; done.
  - rewrite concat_occurrences_cons by done.
    rewrite decide_True by (apply Hin; left).
    simpl. constructor. apply IH. intros y Hy. apply Hin. by right.
Qed.

Lemma group_of_lower u k :
  (fun x => (lower x.1, x.2)) <$> group_of u k
  = (fun x => (lower x.1, x.2)) <$> occurrences k u.
Proof.
  unfold group_of.
  assert (Forall (fun x => lower x.1 = k) (occurrences k u)) as Hall.
  { apply Forall_forall. intros x Hx. unfold occurrences in Hx.
    by apply list_elem_of_filter in Hx as [? _]. }
  destruct (occurrences k u) as [|[n d] l]; [done|].
  pose proof (Forall_inv Hall) as Hn. simpl in Hn.
  induction Hall as [|y l' Hy _ IH]; [done|].
  cbn [fmap list_fmap map fst snd]. rewrite Hn, Hy. f_equal. apply IH.
Qed.

(** C7 (amended).  Let [u] be the header lines of a text, in the order of
    the message, and let the dict iterate in any order.  The header map is
    built; its keys are, each once, the lower-case names that occur;
    iterating the map, like [items], yields for one key after the other
    the whole group of the lines of that name, the lines of a group in the
    order of the message and all of them under the name as the first line
    of the group spells it; up to the case of the names, what is yielded
    is a rearrangement of the lines of the message.  [get] yields the group
    of a name, [first] and indexing the first line of that name in the
    message, as it is spelt there, and KeyError when there is none; names
    that differ in case only are looked up alike. *)
Theorem header_map_groups_lines_by_name
    (dict_order : dict (string * list string) → dict (string * list string))
    (text : string) (u : list (string * string)) :
  (∀ d, dict_order d ≡ₚ d) →
  header_lines text = Ok u →
  ∃ h : BlitzHeader,
    BlitzHeader_init text = Ok h ∧
    let ks := (dict_order (index h)).*1 in
    NoDup ks ∧
    (∀ k, k ∈ ks ↔ occurrences k u ≠ []) ∧
    iter dict_order h = Ok (concat (map (group_of u) ks)) ∧
    items dict_order h = concat (map (group_of u) ks) ∧
    (fun x => (lower x.1, x.2)) <$> concat (map (group_of u) ks)
      ≡ₚ (fun x => (lower x.1, x.2)) <$> u ∧
    (∀ hdr, get h hdr = match occurrences (lower hdr) u with
                        | [] => Raise KeyError
                        | _ :: _ => Ok (group_of u (lower hdr))
                        end) ∧
    (∀ hdr, first h hdr = match occurrences (lower hdr) u with
                          | [] => Raise KeyError
                          | x :: _ => Ok x
                          end) ∧
    (∀ hdr, getitem h hdr = first h hdr) ∧
    (∀ a b, lower a = lower b → get h a = get h b ∧ first h a = first h b).
Proof.
  intros Hperm Hu. exists (mk_Header text (build_index u)).
  destruct (keys_of_index dict_order Hperm u) as [Hnd Hks].
  unfold BlitzHeader_init. rewrite Hu. cbn [bind result_Bind rbind index].
  split_and!; try done.
  - by rewrite iter_items, items_groups.
  - by apply items_groups.
  - trans ((fun x => (lower x.1, x.2))
             <$> concat (map (fun k => occurrences k u)
                           (dict_order (build_index u)).*1)).
    + clear. induction ((dict_order (build_index u)).*1) as [|k ks IH]; [done|].
      cbn [map concat]. rewrite !fmap_app, group_of_lower. by rewrite IH.
    + apply fmap_Permutation, concat_occurrences_perm; [done|].
      intros x Hx. apply Hks. intros Hnil.
      assert (x ∈ occurrences (lower x.1) u) as Hin.
      { unfold occurrences. by apply list_elem_of_filter. }
      rewrite Hnil in Hin. by apply elem_of_nil in Hin.
  - intros hdr. rewrite get_spec. by destruct (occurrences (lower hdr) u).
  - intros hdr. apply first_spec.
  - intros a b Hab. unfold first, get. by rewrite Hab.
Qed.
End HeaderFacts.

Section HeaderExamples.
Import Py Re Session Bmesg Scenarios.

Example header_lines_ex :
  header_lines header_text
  = Ok [("Received", "one"); ("From", "alice"); ("RECEIVED", "two and more")].
Proof. vm_compute. done. Qed.

Example header_items_ex :
  (h <- BlitzHeader_init header_text ;; Ok (items (fun d => d) h))
  = Ok [("Received", "one"); ("Received", "two and more"); ("From", "alice")].
Proof. vm_compute. done. Qed.

Example header_first_ex :
  (h <- BlitzHeader_init header_text ;; first h "rEcEiVeD")
  = Ok ("Received", "one").
Proof. vm_compute. done. Qed.

(** The theorem at the header of the examples, the dict iterating in the
    order in which its keys were entered. *)
Lemma header_map_witness :
  ∃ h : BlitzHeader,
    BlitzHeader_init header_text = Ok h ∧
    let u := [("Received", "one"); ("From", "alice");
              ("RECEIVED", "two and more")] in
    let ks := (index h).*1 in
    NoDup ks ∧
    (∀ k, k ∈ ks ↔ occurrences k u ≠ []) ∧
    iter (fun d => d) h = Ok (concat (map (group_of u) ks)) ∧
    items (fun d => d) h = concat (map (group_of u) ks) ∧
    (fun x => (lower x.1, x.2)) <$> concat (map (group_of u) ks)
      ≡ₚ (fun x => (lower x.1, x.2)) <$> u ∧
    (∀ hdr, get h hdr = match occurrences (lower hdr) u with
                        | [] => Raise KeyError
                        | _ :: _ => Ok (group_of u (lower hdr))
                        end) ∧
    (∀ hdr, first h hdr = match occurrences (lower hdr) u with
                          | [] => Raise KeyError
                          | x :: _ => Ok x
                          end) ∧
    (∀ hdr, getitem h hdr = first h hdr) ∧
    (∀ a b, lower a = lower b → get h a = get h b ∧ first h a = first h b).
Proof.
  apply (header_map_groups_lines_by_name (fun d => d) header_text
           [("Received", "one"); ("From", "alice");
            ("RECEIVED", "two and more")]).
  - reflexivity.
  - reflexivity.
Defined.

(** The header of the examples has a line From between two lines Received,
    the second of them spelt in capitals.  In whatever order the dict
    iterates, the map does not yield the lines in the order of the message:
    the two lines Received come together, before or after the line From;
    and the second of them comes back under the name of the first. *)
Lemma header_iteration_is_not_message_order :
  let u := [("Received", "one"); ("From", "alice");
            ("RECEIVED", "two and more")] in
  header_lines header_text = Ok u ∧
  ∃ h : BlitzHeader,
    BlitzHeader_init header_text = Ok h ∧
    get h "RECEIVED" = Ok [("Received", "one"); ("Received", "two and more")] ∧
    ∀ dict_order : dict (string * list string) → dict (string * list string),
      (∀ d, dict_order d ≡ₚ d) →
      iter dict_order h ≠ Ok u ∧
      items dict_order h ≠ u ∧
      (iter dict_order h
       = Ok [("Received", "one"); ("Received", "two and more");
             ("From", "alice")]
       ∨ iter dict_order h
         = Ok [("From", "alice"); ("Received", "one");
               ("Received", "two and more")]).
Proof.
  cbn zeta. split; [by vm_compute|].
  eexists. split; [by vm_compute|]. split; [by vm_compute|].
  intros dict_order Hperm. unfold iter, items, keys. cbn [index].
  match goal with |- context [dict_order ?d] =>
    pose proof (Hperm d) as Hp; symmetry in Hp;
    apply Permutation_length_2_inv in Hp as [Hp|Hp]; rewrite Hp
  end.
  - split_and!; [by vm_compute | by vm_compute | left; by vm_compute].
  - split_and!; [by vm_compute | by vm_compute | right; by vm_compute].
Qed.
End HeaderExamples.

(* --------------------------------------------------------------------- *)
(** ** bulls.py: the read list *)
(* --------------------------------------------------------------------- *)

Section StringFacts.
Import Py.

Lemma contains_char_app c a b :
  contains_char c (a +:+ b) = contains_char c a || contains_char c b.
Proof.
  induction a as [|d a IH]; [done|].
  simpl. by rewrite IH, orb_assoc.
Qed.

Lemma split_no_sep sep s : contains_char sep s = false → split sep s = [s].
Proof.
  induction s as [|c r IH]; [done|]. cbn [contains_char split].
  intros [Hc Hr]%orb_false_elim. rewrite Ascii.eqb_sym, Hc, IH by done. done.
Qed.

Lemma split1_no_sep sep s : contains_char sep s = false → split1 sep s = [s].
Proof.
  induction s as [|c r IH]; [done|]. cbn [contains_char split1].
  intros [Hc Hr]%orb_false_elim. rewrite Ascii.eqb_sym, Hc, IH by done. done.
Qed.

Lemma split_app_sep sep a b :
  contains_char sep a = false →
  split sep (a +:+ String sep b) = a :: split sep b.
Proof.
  induction a as [|c r IH]; simpl.
  - intros _. by rewrite Ascii.eqb_refl.
  - intros [Hc Hr]%orb_false_elim. rewrite Ascii.eqb_sym, Hc, IH by done. done.
Qed.

Lemma split_join sep (l : list string) :
  l ≠ [] → Forall (fun w => contains_char sep w = false) l →
  split sep (join (String sep EmptyString) l) = l.
Proof.
  induction l as [|w [|w' ws] IH]; [done| |]; intros _ Hall.
  - cbn [join]. apply split_no_sep. by inversion Hall.
  - inversion Hall as [|? ? Hw Hws]; subst.
    change (join (String sep EmptyString) (w :: w' :: ws))
      with (w +:+ String sep (join (String sep EmptyString) (w' :: ws))).
    rewrite split_app_sep by done. f_equal. by apply IH.
Qed.

Lemma contains_char_join c sep (l : list string) :
  contains_char c sep = false →
  Forall (fun w => contains_char c w = false) l →
  contains_char c (join sep l) = false.
Proof.
  intros Hsep. induction l as [|w [|w' ws] IH]; [done| |]; intros Hall.
  - by inversion Hall.
  - inversion Hall as [|? ? Hw Hws]; subst.
    change (join sep (w :: w' :: ws)) with (w +:+ sep +:+ join sep (w' :: ws)).
    rewrite !contains_char_app, Hw, Hsep. by apply IH.
Qed.

Lemma isdigit_not_space c : isdigit c = true → isspace c = false.
Proof.
  unfold isdigit, isspace. cbn zeta.
  rewrite andb_true_iff, !Nat.leb_le. intros [H1 H2].
  apply orb_false_intro; [apply Nat.eqb_neq; lia|].
  apply andb_false_iff. right. apply Nat.leb_gt. lia.
Qed.

Lemma digits_no_char c s :
  isdigit c = false → all_digits s = true → contains_char c s = false.
Proof.
  intros Hc. induction s as [|d r IH]; [done|]. cbn [all_digits contains_char].
  intros [Hd Hr]%andb_true_iff. rewrite IH by done.
  destruct (Ascii.eqb_spec c d) as [->|]; [congruence | done].
Qed.

Lemma strip_digits s : all_digits s = true → strip s = s.
Proof.
  intros Hs. unfold strip.
  assert (rstrip s = s) as ->.
  { induction s as [|c r IH]; [done|]. cbn [all_digits] in Hs.
    apply andb_true_iff in Hs as [Hc Hr]. cbn [rstrip]. rewrite IH by done.
    destruct r; [|done]. by rewrite isdigit_not_space. }
  destruct s as [|c r]; [done|]. cbn [all_digits] in Hs.
  apply andb_true_iff in Hs as [Hc Hr]. cbn [lstrip].
  by rewrite isdigit_not_space.
Qed.

Lemma all_digits_uint d : all_digits (NilEmpty.string_of_uint d) = true.
Proof. induction d; [done|..]; cbn [NilEmpty.string_of_uint all_digits]; by rewrite IHd. Qed.

Lemma str_isdigit_str n : 0 ≤ n → str_isdigit (str n) = true.
Proof.
  intros Hn. unfold str. destruct n as [|p|p]; [done| |lia].
  cbn [Z.to_int NilZero.string_of_int].
  pose proof (all_digits_uint (Pos.to_uint p)) as Hd.
  pose proof (DecimalPos.Unsigned.to_uint_nonnil p) as Hnil.
  unfold NilZero.string_of_uint.
  destruct (Pos.to_uint p); [done|..]; exact Hd.
Qed.

Lemma str_isdigit_all s : str_isdigit s = true → all_digits s = true.
Proof. by destruct s. Qed.

Lemma uint_lit_str n : 0 ≤ n → uint_lit (str n) = Some n.
Proof.
  intros Hn. unfold str, uint_lit. destruct n as [|p|p]; [done| |lia].
  cbn [Z.to_int NilZero.string_of_int].
  rewrite NilZero.usu by apply DecimalPos.Unsigned.to_uint_nonnil.
  unfold Z.of_uint. by rewrite DecimalPos.Unsigned.of_to.
Qed.

Lemma int_digits s :
  str_isdigit s = true → int s = of_option ValueError (uint_lit s).
Proof.
  intros Hs. unfold int. rewrite strip_digits by by apply str_isdigit_all.
  destruct s as [|c r]; [done|]. cbn [str_isdigit all_digits] in Hs.
  apply andb_true_iff in Hs as [Hc _].
  destruct c as [[] [] [] [] [] [] [] []];
    try (vm_compute in Hc; discriminate Hc); reflexivity.
Qed.

Lemma int_str n : 0 ≤ n → int (str n) = Ok n.
Proof.
  intros Hn. rewrite int_digits by by apply str_isdigit_str.
  by rewrite uint_lit_str.
Qed.
End StringFacts.

Section ReadList.
Import Py Bulls.
Implicit Types (rc : gmap Z bool) (l id : list Z) (t : Topic).

(** *** The loops and the runs of a list *)

Lemma run_value l : ∀ b n,
  (n ≤ run_len b l)%nat → (b :: l) !! n = Some (b + Z.of_nat n).
Proof.
  induction l as [|x r IH]; intros b n Hn.
  - cbn [run_len] in Hn. assert (n = 0%nat) as -> by lia.
    cbn. f_equal. lia.
  - cbn [run_len] in Hn. destruct (Z.eqb_spec x (b + 1)) as [->|Hne].
    + destruct n as [|n]; [cbn; f_equal; lia|].
      change ((b :: b + 1 :: r) !! S n) with ((b + 1 :: r) !! n).
      rewrite (IH (b + 1) n) by lia. f_equal. lia.
    + assert (n = 0%nat) as -> by lia. cbn. f_equal. lia.
Qed.

Lemma run_end_spec rest : ∀ pre b fuel,
  (length rest < fuel)%nat →
  run_end fuel (pre ++ b :: rest) (S (length pre))
  = Some (S (length pre) + run_len b rest)%nat.
Proof.
  induction rest as [|x r IH]; intros pre b fuel Hf;
    (destruct fuel as [|fuel]; [cbn [length] in Hf; lia|]); cbn [run_end].
  - rewrite lookup_ge_None_2 by (rewrite length_app; cbn [length]; lia).
    cbn [run_len]. f_equal. lia.
  - assert ((pre ++ b :: x :: r) !! S (length pre) = Some x) as ->.
    { rewrite lookup_app_r by lia.
      by replace (S (length pre) - length pre)%nat with 1%nat by lia. }
    assert ((pre ++ b :: x :: r) !!! (S (length pre) - 1)%nat = b) as ->.
    { apply list_lookup_total_correct. rewrite lookup_app_r by lia.
      by replace (S (length pre) - 1 - length pre)%nat with 0%nat by lia. }
    cbn [run_len]. destruct (Z.eqb_spec x (b + 1)) as [->|Hne].
    + replace (pre ++ b :: (b + 1) :: r) with ((pre ++ [b]) ++ (b + 1) :: r)
        by by rewrite <- app_assoc.
      replace (S (S (length pre))) with (S (length (pre ++ [b])))
        by (rewrite length_app; cbn [length]; lia).
      rewrite IH by (cbn [length] in Hf; lia). f_equal.
      rewrite length_app. cbn [length]. lia.
    + f_equal. lia.
Qed.

Lemma runs_from_unfold l : ∀ a b,
  runs_from a b l
  = (a, b + Z.of_nat (run_len b l)) :: runs (drop (run_len b l) l).
Proof.
  induction l as [|x r IH]; intros a b; cbn [runs_from run_len].
  - cbn. do 2 f_equal. lia.
  - destruct (Z.eqb_spec x (b + 1)) as [->|Hne].
    + rewrite IH. cbn [drop]. do 2 f_equal. lia.
    + cbn [drop runs]. do 2 f_equal. lia.
Qed.

Lemma collapse_spec id : ∀ fuel lo out,
  (length id - lo < fuel)%nat →
  collapse fuel id lo out = Some (out ++ map show_run (runs (drop lo id))).
Proof.
  induction fuel as [|fuel IH]; intros lo out Hf; [lia|]. cbn [collapse].
  destruct (id !! lo) as [x|] eqn:Hx.
  - pose proof (lookup_lt_Some _ _ _ Hx) as Hlt.
    pose proof (take_drop_middle _ _ _ Hx) as Hid.
    set (rest := drop (S lo) id) in *.
    assert (length (take lo id) = lo) as Hlen by (rewrite length_take; lia).
    assert (run_end (length id) id (lo + 1)
            = Some (S lo + run_len x rest)%nat) as ->.
    { rewrite <- Hid at 2. rewrite Nat.add_1_r. rewrite <- Hlen at 2 3.
      apply run_end_spec. subst rest. rewrite length_drop. lia. }
    cbv zeta.
    assert (drop lo id = x :: rest) as Hdrop.
    { subst rest. by apply drop_S. }
    assert (id !!! (S lo + run_len x rest - 1)%nat
            = x + Z.of_nat (run_len x rest)) as ->.
    { apply list_lookup_total_correct.
      replace (S lo + run_len x rest - 1)%nat with (lo + run_len x rest)%nat
        by lia.
      rewrite <- lookup_drop, Hdrop. by apply run_value. }
    rewrite IH by lia. rewrite Hdrop. cbn [runs]. rewrite runs_from_unfold.
    cbn [map]. rewrite <- app_assoc. cbn [app].
    assert (drop (S lo + run_len x rest) id = drop (run_len x rest) rest) as ->.
    { subst rest. rewrite drop_drop. f_equal; lia. }
    do 3 f_equal. unfold show_run. cbn [fst snd].
    destruct (Nat.eqb_spec lo (S lo + run_len x rest - 1)) as [Heq|Hne].
    + assert (run_len x rest = 0%nat) as -> by lia.
      by rewrite Z.add_0_r, Z.eqb_refl.
    + destruct (Z.eqb_spec x (x + Z.of_nat (run_len x rest))); [lia|done].
  - apply lookup_ge_None_1 in Hx. rewrite drop_ge by done.
    cbn. by rewrite app_nil_r.
Qed.

(** *** The ids of the runs are the ids of the list *)

Lemma xrange_snoc a b : a ≤ b + 1 →
  xrange a (b + 1 + 1) = xrange a (b + 1) ++ [b + 1].
Proof.
  intros Hab. unfold xrange.
  replace (b + 1 + 1 - a) with ((b + 1 - a) + 1) by lia.
  rewrite seqZ_app by lia. f_equal.
  replace (a + (b + 1 - a)) with (b + 1) by lia. done.
Qed.

Lemma xrange_one a : xrange a (a + 1) = [a].
Proof.
  unfold xrange. replace (a + 1 - a) with 1 by lia.
  cbn. f_equal; lia.
Qed.

Lemma expand_runs_from l : ∀ a b,
  a ≤ b → expand (runs_from a b l) = xrange a (b + 1) ++ l.
Proof.
  induction l as [|x r IH]; intros a b Hab; cbn [runs_from].
  - unfold expand. cbn [map concat fst snd]. done.
  - destruct (Z.eqb_spec x (b + 1)) as [->|Hne].
    + rewrite IH by lia. rewrite xrange_snoc by lia.
      by rewrite <- app_assoc.
    + unfold expand in *. cbn [map concat fst snd].
      rewrite IH by lia. by rewrite xrange_one.
Qed.

Lemma expand_runs l : expand (runs l) = l.
Proof.
  destruct l as [|x r]; [done|]. cbn [runs].
  rewrite expand_runs_from by lia. by rewrite xrange_one.
Qed.

Lemma runs_from_ok l : ∀ a b,
  0 ≤ a → a ≤ b → Forall (fun x => 0 ≤ x) l →
  Forall (fun r => 0 ≤ r.1 ≤ r.2) (runs_from a b l).
Proof.
  induction l as [|x r IH]; intros a b Ha Hab Hl; cbn [runs_from].
  - by constructor.
  - apply Forall_cons in Hl as [Hx Hl].
    destruct (Z.eqb_spec x (b + 1)) as [->|Hne].
    + apply IH; [done|lia|done].
    + constructor; [done|]. apply IH; [done|lia|done].
Qed.

Lemma runs_ok l :
  Forall (fun x => 0 ≤ x) l → Forall (fun r => 0 ≤ r.1 ≤ r.2) (runs l).
Proof.
  destruct l as [|x r]; [by constructor|]. intros [Hx Hl]%Forall_cons.
  cbn [runs]. apply runs_from_ok; [done|lia|done].
Qed.

Lemma runs_nil l : runs l = [] → l = [].
Proof.
  destruct l as [|x r]; [done|]. cbn [runs]. by rewrite runs_from_unfold.
Qed.

(** *** Reading the pieces back *)

Lemma show_run_chars c (r : Z * Z) :
  0 ≤ r.1 ≤ r.2 → isdigit c = false → c ≠ "-"%char →
  contains_char c (show_run r) = false.
Proof.
  intros [H1 H2] Hc Hm. unfold show_run.
  assert (∀ n, 0 ≤ n → contains_char c (str n) = false) as Hstr.
  { intros n Hn. apply digits_no_char; [done|].
    by apply str_isdigit_all, str_isdigit_str. }
  destruct (r.1 =? r.2); [by apply Hstr|].
  rewrite !contains_char_app, !Hstr by lia. cbn [contains_char].
  destruct (Ascii.eqb_spec c "-"); done.
Qed.

Lemma read_piece_show rc (r : Z * Z) :
  0 ≤ r.1 ≤ r.2 →
  read_piece rc (show_run r) = Ok (foldl mark_id rc (xrange r.1 (r.2 + 1))).
Proof.
  destruct r as [a b]. cbn [fst snd]. intros [Ha Hab].
  assert (∀ n, 0 ≤ n → contains_char "-" (str n) = false) as Hstr.
  { intros n Hn. apply digits_no_char; [done|].
    by apply str_isdigit_all, str_isdigit_str. }
  unfold show_run, read_piece. cbn [fst snd].
  destruct (Z.eqb_spec a b) as [<-|Hne].
  - rewrite Hstr by done. pose proof (str_isdigit_str a Ha) as Hd.
    destruct (str a) as [|c s] eqn:E; [done|]. rewrite <- E.
    rewrite int_str by done. cbn [bind result_Bind rbind].
    by rewrite xrange_one.
  - rewrite contains_char_app, Hstr by done.
    change ("-" +:+ str b) with (String "-" (str b)).
    change (contains_char "-" (String "-" (str b))) with true.
    cbn [orb]. rewrite split_app_sep by by apply Hstr.
    rewrite split_no_sep by (apply Hstr; lia).
    rewrite !int_str by lia. done.
Qed.

Lemma read_pieces_show (rs : list (Z * Z)) : ∀ rc,
  Forall (fun r => 0 ≤ r.1 ≤ r.2) rs →
  read_pieces rc (map show_run rs) = Ok (foldl mark_id rc (expand rs)).
Proof.
  induction rs as [|r rs IH]; intros rc Hall; [done|].
  apply Forall_cons in Hall as [Hr Hrs]. cbn [map read_pieces].
  rewrite read_piece_show by done. cbn [bind result_Bind rbind].
  rewrite IH by done. unfold expand. cbn [map concat].
  by rewrite foldl_app.
Qed.

Lemma dom_foldl_mark l : ∀ rc k,
  k ∈ dom (foldl mark_id rc l) ↔ k ∈ dom rc ∨ (k ∈ l ∧ k ≠ 0).
Proof.
  induction l as [|x l IH]; intros rc k; cbn [foldl].
  - split; [by left | intros [?|[?%elem_of_nil _]]; done].
  - rewrite IH, elem_of_cons. unfold mark_id.
    destruct (Z.eqb_spec x 0) as [->|Hx].
    + intuition congruence.
    + rewrite dom_insert, elem_of_union, elem_of_singleton.
      intuition congruence.
Qed.

(** *** Pruning and sorting *)

Lemma prune_fold_lookup low l : ∀ rc k,
  foldl (fun c key => if key <? low then delete key c else c) rc l !! k
  = if decide (k < low ∧ k ∈ l) then None else rc !! k.
Proof.
  induction l as [|x l IH]; intros rc k; cbn [foldl].
  - rewrite decide_False; [done|]. intros [_ ?%elem_of_nil]. done.
  - rewrite IH. destruct (Z.ltb_spec x low) as [Hx|Hx].
    + destruct (decide (k < low ∧ k ∈ l)) as [Hin|Hin].
      * rewrite decide_True; [done|]. split; [tauto|]. right. tauto.
      * destruct (decide (k = x)) as [->|Hne].
        -- rewrite lookup_delete_eq, decide_True; [done|]. split; [done|left].
        -- rewrite lookup_delete_ne by done. rewrite decide_False; [done|].
           intros [? [?|?]%elem_of_cons]; tauto.
    + destruct (decide (k < low ∧ k ∈ l)) as [Hin|Hin].
      * rewrite decide_True; [done|]. split; [tauto|]. right. tauto.
      * rewrite decide_False; [done|].
        intros [? [->|?]%elem_of_cons]; [lia|tauto].
Qed.

Lemma prune_lookup low rc k :
  prune low rc !! k = if decide (k < low) then None else rc !! k.
Proof.
  unfold prune. rewrite prune_fold_lookup.
  destruct (decide (k < low)) as [Hk|Hk].
  - destruct (decide (k < low ∧ k ∈ (map_to_list rc).*1)) as [_|Hn]; [done|].
    destruct (rc !! k) as [v|] eqn:Hv; [|done]. destruct Hn. split; [done|].
    apply list_elem_of_fmap. exists (k, v). split; [done|].
    by apply elem_of_map_to_list.
  - rewrite decide_False; [done|]. tauto.
Qed.

Lemma dom_prune low rc k : k ∈ dom (prune low rc) ↔ k ∈ dom rc ∧ low ≤ k.
Proof.
  rewrite !elem_of_dom, prune_lookup. destruct (decide (k < low)).
  - split; [by intros [? ?] | lia].
  - split; [split; [done|lia] | tauto].
Qed.

Lemma elem_of_keys rc k : k ∈ (map_to_list rc).*1 ↔ k ∈ dom rc.
Proof.
  rewrite elem_of_dom, list_elem_of_fmap. split.
  - intros [[k' v] [-> Hin]]. apply elem_of_map_to_list in Hin. by exists v.
  - intros [v Hv]. exists (k, v). split; [done|]. by apply elem_of_map_to_list.
Qed.

Lemma elem_of_sorted_keys rc k :
  k ∈ merge_sort Z.le (map_to_list rc).*1 ↔ k ∈ dom rc.
Proof. by rewrite merge_sort_Permutation, elem_of_keys. Qed.

Lemma sorted_keys_dom rc1 rc2 :
  dom rc1 = dom rc2 →
  merge_sort Z.le (map_to_list rc1).*1 = merge_sort Z.le (map_to_list rc2).*1.
Proof.
  intros Hdom. apply (Sorted_unique Z.le).
  - apply Sorted_merge_sort; apply _.
  - apply Sorted_merge_sort; apply _.
  - rewrite !merge_sort_Permutation. apply NoDup_Permutation.
    + apply NoDup_fst_map_to_list.
    + apply NoDup_fst_map_to_list.
    + intros k. by rewrite !elem_of_keys, Hdom.
Qed.

(** *** The compactor *)

Lemma make_read_list_spec t :
  _make_read_list t
  = let rc := prune (id_low t) (_rcache t) in
    let id := merge_sort Z.le (map_to_list rc).*1 in
    Some (join "," (match map show_run (runs id) with
                    | [] => ["0-0"]
                    | out => out
                    end),
          set_rcache rc t).
Proof.
  unfold _make_read_list. cbv zeta. rewrite collapse_spec by lia.
  rewrite drop_0. cbn [app].
  by destruct (map show_run _).
Qed.

Lemma parse_compacted (ids : list Z) (t0 : Topic) :
  Forall (fun x => 0 < x) ids →
  ∃ t2,
    parse_read_field (join "," (match map show_run (runs ids) with
                                | [] => ["0-0"]
                                | out => out
                                end)) t0 = Ok t2 ∧
    id_low t2 = id_low t0 ∧
    info t2 = EmptyString ∧
    ∀ k, k ∈ read_set t2 ↔ k ∈ read_set t0 ∨ k ∈ ids.
Proof.
  intros Hpos.
  assert (Forall (fun r : Z * Z => 0 ≤ r.1 ≤ r.2) (runs ids)) as Hok.
  { apply runs_ok. eapply Forall_impl; [done|]. cbn. lia. }
  set (pieces := match map show_run (runs ids) with
                 | [] => ["0-0"]
                 | out => out
                 end).
  assert (pieces ≠ []) as Hne.
  { subst pieces. by destruct (map show_run (runs ids)). }
  assert (∀ c, isdigit c = false → c ≠ "-"%char →
            Forall (fun w => contains_char c w = false) pieces) as Hch.
  { intros c Hc Hm. subst pieces.
    destruct (map show_run (runs ids)) as [|w ws] eqn:E.
    - constructor; [|done]. cbn [contains_char].
      destruct (Ascii.eqb_spec c "0") as [->|]; [done|].
      destruct (Ascii.eqb_spec c "-") as [->|]; done.
    - rewrite <- E. apply Forall_fmap. eapply Forall_impl; [exact Hok|].
      intros r Hr. by apply show_run_chars. }
  assert (read_pieces (_rcache t0) pieces
          = Ok (foldl mark_id (_rcache t0) ids)) as Hread.
  { subst pieces. destruct (map show_run (runs ids)) as [|w ws] eqn:E.
    - apply fmap_nil_inv in E. apply runs_nil in E. by subst ids.
    - rewrite <- E, read_pieces_show by done. by rewrite expand_runs. }
  exists (set_rcache (foldl mark_id (_rcache t0) ids)
            (set_info EmptyString t0)).
  split_and!; try done.
  - unfold parse_read_field, split_info.
    rewrite split1_no_sep
      by (apply contains_char_join; [done | by apply Hch]).
    rewrite split_join by (by try apply Hch).
    rewrite Hread. done.
  - intros k. unfold read_set. cbn [_rcache set_rcache].
    rewrite dom_foldl_mark. split; [tauto|].
    intros [?|Hin]; [by left|]. right. split; [done|].
    rewrite Forall_forall in Hpos. specialize (Hpos k Hin). lia.
Qed.

Lemma sorted_keys_nil rc :
  dom rc = ∅ → merge_sort Z.le (map_to_list rc).*1 = [].
Proof.
  intros Hdom. destruct (merge_sort Z.le (map_to_list rc).*1) as [|k l] eqn:E;
    [done|].
  assert (k ∈ dom rc) as Hk by (apply elem_of_sorted_keys; rewrite E; left).
  rewrite Hdom in Hk. by apply elem_of_empty in Hk.
Qed.

(** C5 (amended).  The compactor of a loaded topic returns a string and
    leaves in the dict the ids that are not below [id_low]: ids above
    [id_high] stay.  The string is 0-0 when no id is left.  When the ids
    that are left are positive, reading the string into a topic with an
    empty dict and the same [id_low] gives these ids again, and compacting
    that topic gives the same string. *)
Theorem read_list_compaction_is_stable t :
  ∃ (s : string) (t1 : Topic),
    _make_read_list t = Some (s, t1) ∧
    t1 = set_rcache (_rcache t1) t ∧
    (∀ k, k ∈ read_set t1 ↔ k ∈ read_set t ∧ id_low t ≤ k) ∧
    (read_set t1 = ∅ → s = "0-0") ∧
    ((∀ k, k ∈ read_set t1 → 0 < k) →
     ∀ t0, _rcache t0 = ∅ → id_low t0 = id_low t →
       ∃ t2 t3 : Topic,
         parse_read_field s t0 = Ok t2 ∧
         read_set t2 = read_set t1 ∧
         _make_read_list t2 = Some (s, t3) ∧
         read_set t3 = read_set t1).
Proof.
  rewrite make_read_list_spec. cbv zeta.
  set (rc := prune (id_low t) (_rcache t)).
  set (ids := merge_sort Z.le (map_to_list rc).*1).
  assert (∀ k, k ∈ dom rc ↔ k ∈ read_set t ∧ id_low t ≤ k) as Hdom.
  { intros k. subst rc. apply dom_prune. }
  eexists _, _. split; [reflexivity|]. split_and!.
  - done.
  - exact Hdom.
  - unfold read_set. cbn [_rcache set_rcache]. intros Hempty.
    subst ids. by rewrite (sorted_keys_nil rc).
  - unfold read_set at 1. cbn [_rcache set_rcache]. intros Hpos t0 Ht0 Hlow.
    assert (Forall (fun x => 0 < x) ids) as Hids.
    { apply Forall_forall. intros k Hk. subst ids.
      apply elem_of_sorted_keys in Hk. by apply Hpos. }
    destruct (parse_compacted ids t0 Hids) as (t2 & Hparse & Hlow2 & _ & Hset).
    assert (read_set t2 = dom rc) as Hset2.
    { apply set_eq. intros k. rewrite Hset. unfold read_set at 1.
      rewrite Ht0, dom_empty, elem_of_empty. subst ids.
      rewrite elem_of_sorted_keys. tauto. }
    assert (dom (prune (id_low t2) (_rcache t2)) = dom rc) as Hpruned.
    { apply set_eq. intros k. rewrite dom_prune.
      fold (read_set t2). rewrite Hset2, Hlow2, Hlow, Hdom. tauto. }
    exists t2, (set_rcache (prune (id_low t2) (_rcache t2)) t2).
    split_and!; [done|done| |done].
    rewrite make_read_list_spec. cbv zeta.
    by rewrite (sorted_keys_dom _ rc Hpruned).
Qed.
End ReadList.


Section ReadListExamples.
Import Py Bulls Scenarios.

(** Scenario 5 of the specification. *)
Example compact_ex :
  fst <$> _make_read_list (topic 1 9 [7; 1; 9; 3; 2; 8; 5])
  = Some "1-3,5,7-9".
Proof. vm_compute. done. Qed.

Example compact_empty_ex :
  fst <$> _make_read_list (topic 1 9 []) = Some "0-0".
Proof. vm_compute. done. Qed.

Example compact_prunes_below :
  fst <$> _make_read_list (topic 4 9 [1; 2; 3; 5; 7; 8; 9])
  = Some "5,7-9".
Proof. vm_compute. done. Qed.

(** Scenario 5 of the specification: the ids that are left are positive,
    and the round trip holds. *)
Lemma read_list_compaction_witness :
  ∃ (s : string) (t1 : Topic),
    _make_read_list (topic 1 9 [7; 1; 9; 3; 2; 8; 5]) = Some (s, t1) ∧
    t1 = set_rcache (_rcache t1) (topic 1 9 [7; 1; 9; 3; 2; 8; 5]) ∧
    (∀ k, k ∈ read_set t1
          ↔ k ∈ read_set (topic 1 9 [7; 1; 9; 3; 2; 8; 5])
            ∧ id_low (topic 1 9 [7; 1; 9; 3; 2; 8; 5]) ≤ k) ∧
    (read_set t1 = ∅ → s = "0-0") ∧
    ∀ t0, _rcache t0 = ∅ →
      id_low t0 = id_low (topic 1 9 [7; 1; 9; 3; 2; 8; 5]) →
      ∃ t2 t3 : Topic,
        parse_read_field s t0 = Ok t2 ∧
        read_set t2 = read_set t1 ∧
        _make_read_list t2 = Some (s, t3) ∧
        read_set t3 = read_set t1.
Proof.
  destruct (read_list_compaction_is_stable (topic 1 9 [7; 1; 9; 3; 2; 8; 5]))
    as (s & t1 & Hrun & Hsame & Hkept & Hempty & Hround).
  exists s, t1. split_and!; [exact Hrun | exact Hsame | exact Hkept
                            | exact Hempty |].
  apply Hround. intros k Hk. apply Hkept in Hk as [_ Hk]. simpl in Hk. lia.
Defined.

(** Article 7 was marked read in a topic whose articles run from 1 to 5:
    the compactor keeps it, and the string it returns stands for the id 7,
    which is not in the range of the topic.  And in a topic whose range
    starts at 0 with article 0 marked read, the string is 0, which reads
    back as no id at all and compacts to 0-0. *)
Lemma read_list_keeps_ids_above_id_high :
  ∃ t1 t2 t3 t4 : Topic,
    _make_read_list (mark_read 7 (topic 1 5 [])) = Some ("7", t1) ∧
    parse_read_field "7" (topic 1 5 []) = Ok t2 ∧
    _rcache t2 !! 7 = Some true ∧
    ¬ (7 ≤ id_high (mark_read 7 (topic 1 5 []))) ∧
    _make_read_list (mark_read 0 (topic 0 5 [])) = Some ("0", t3) ∧
    parse_read_field "0" (topic 0 5 []) = Ok t4 ∧
    fst <$> _make_read_list t4 = Some "0-0".
Proof.
  eexists _, _, _, _. split_and!.
  - vm_compute. reflexivity.
  - vm_compute. reflexivity.
  - vm_compute. reflexivity.
  - simpl. lia.
  - vm_compute. reflexivity.
  - vm_compute. reflexivity.
  - vm_compute. reflexivity.
Qed.
End ReadListExamples.

(* ===================================================================== *)
(** * Further properties of the code *)
(* ===================================================================== *)

(* --------------------------------------------------------------------- *)
(** ** notify/packet.py: what is built is read back *)
(* --------------------------------------------------------------------- *)

Section Bytes.
Import Py.

Lemma ord_chr n : ord (chr n) = n mod 256.
Proof.
  unfold ord, chr. rewrite nat_ascii_embedding.
  - rewrite Z2Nat.id; [done|]. apply Z.mod_pos_bound. lia.
  - pose proof (Z.mod_pos_bound n 256). lia.
Qed.

Lemma ord_bound c : 0 ≤ ord c < 256.
Proof. unfold ord. pose proof (nat_ascii_bounded c). lia. Qed.

Lemma chr_ord c : chr (ord c) = c.
Proof.
  unfold chr. pose proof (ord_bound c). rewrite Z.mod_small by done.
  unfold ord. by rewrite Nat2Z.id, ascii_nat_embedding.
Qed.

Lemma length_sapp (a b : string) :
  String.length (a +:+ b) = (String.length a + String.length b)%nat.
Proof. induction a as [|c a IH]; [done|]. simpl. by rewrite IH. Qed.

Lemma sdrop_app (a b : string) : sdrop (String.length a) (a +:+ b) = b.
Proof. induction a as [|c a IH]; [by destruct b|]. simpl. exact IH. Qed.

Lemma stake_app (a b : string) : stake (String.length a) (a +:+ b) = a.
Proof.
  induction a as [|c a IH]; [by destruct b|]. simpl. by rewrite IH.
Qed.

Lemma stake_all (s : string) : stake (String.length s) s = s.
Proof. induction s as [|c s IH]; [done|]. simpl. by rewrite IH. Qed.

Lemma sapp_nil_r (s : string) : s +:+ EmptyString = s.
Proof.
  induction s as [|c s IH]; [done|].
  change (String c (s +:+ EmptyString) = String c s). by f_equal.
Qed.

Lemma length_be_encode w n : String.length (be_encode w n) = w.
Proof. induction w as [|w IH]; [done|]. simpl. by rewrite IH. Qed.

Lemma be_decode_app (a b : string) : ∀ acc,
  be_decode (a +:+ b) acc = be_decode b (be_decode a acc).
Proof. induction a as [|c a IH]; intros acc; [done|]. simpl. apply IH. Qed.

Lemma be_decode_encode w n : ∀ acc,
  be_decode (be_encode w n) acc
  = acc * 256 ^ Z.of_nat w + n mod 256 ^ Z.of_nat w.
Proof.
  induction w as [|w IH]; intros acc.
  - simpl. rewrite Z.mod_1_r. lia.
  - cbn [be_encode be_decode]. rewrite IH, ord_chr.
    rewrite Z.shiftr_div_pow2 by lia.
    replace (2 ^ (8 * Z.of_nat w)) with (256 ^ Z.of_nat w)
      by (rewrite Z.pow_mul_r by lia; done).
    rewrite Nat2Z.inj_succ, Z.pow_succ_r by lia.
    assert (0 < 256 ^ Z.of_nat w) by (apply Z.pow_pos_nonneg; lia).
    rewrite (Z.mul_comm 256), Z.rem_mul_r by lia. lia.
Qed.

Lemma be_decode_pack_I n : 0 ≤ n < 4294967296 → be_decode (pack_I n) 0 = n.
Proof.
  intros Hn. unfold pack_I. rewrite be_decode_encode.
  change (256 ^ Z.of_nat 4) with 4294967296. rewrite Z.mod_small by done. lia.
Qed.

Lemma be_decode_pack_H n : 0 ≤ n < 65536 → be_decode (pack_H n) 0 = n.
Proof.
  intros Hn. unfold pack_H. rewrite be_decode_encode.
  change (256 ^ Z.of_nat 2) with 65536. rewrite Z.mod_small by done. lia.
Qed.

Lemma length_pack_I n : String.length (pack_I n) = 4%nat.
Proof. apply length_be_encode. Qed.

Lemma length_pack_H n : String.length (pack_H n) = 2%nat.
Proof. apply length_be_encode. Qed.

(** A slice that starts where a prefix of known length ends. *)
Lemma slice_after (a b : string) (i j n : nat) :
  String.length a = n → (n ≤ i)%nat →
  slice i j (a +:+ b) = slice (i - n) (j - n) b.
Proof.
  intros <- Hi. unfold slice.
  replace (j - String.length a - (i - String.length a))%nat with (j - i)%nat
    by lia.
  f_equal. revert i Hi. induction a as [|c a IH]; intros i Hi.
  - simpl. by rewrite Nat.sub_0_r.
  - destruct i as [|i]; [simpl in Hi; lia|]. simpl. apply IH.
    simpl in Hi. lia.
Qed.

Lemma slice_prefix (a b : string) (n : nat) :
  String.length a = n → slice 0 n (a +:+ b) = a.
Proof.
  intros <-. unfold slice. rewrite Nat.sub_0_r. apply stake_app.
Qed.

Lemma sdrop_after (a b : string) (i n : nat) :
  String.length a = n → (n ≤ i)%nat → sdrop i (a +:+ b) = sdrop (i - n) b.
Proof.
  intros <-. revert i. induction a as [|c a IH]; intros i Hi.
  - simpl. by rewrite Nat.sub_0_r.
  - destruct i as [|i]; [simpl in Hi; lia|]. simpl. apply IH.
    simpl in Hi. lia.
Qed.
End Bytes.

Section PacketRoundTrips.
Import Py Packet.

Lemma notify_req_reads_back (service userid messid : Z)
    (data : option string) :
  0 ≤ service < 4294967296 → 0 ≤ userid < 4294967296 →
  0 ≤ messid < 4294967296 →
  parse_notify_req (make_notify_req service userid messid data)
  = Ok (service, userid, messid, default EmptyString data).
Proof.
  intros Hs Hu Hm.
  assert (make_notify_req service userid messid data
          = pack_I service +:+ pack_I userid +:+ pack_I messid
              +:+ default EmptyString data) as ->.
  { unfold make_notify_req. destruct data as [d|]; cbn [default].
    - by rewrite !sapp_assoc.
    - by rewrite sapp_nil_r. }
  unfold parse_notify_req.
  rewrite !length_sapp, !length_pack_I.
  destruct (Nat.ltb_spec (4 + (4 + (4 + String.length (default EmptyString data))))
              12); [lia|].
  rewrite (slice_prefix _ _ 4) by apply length_pack_I.
  rewrite (slice_after _ _ 4 8 4), (slice_after _ _ 8 12 4)
    by (apply length_pack_I || lia).
  cbn [Nat.sub].
  rewrite (slice_prefix _ _ 4) by apply length_pack_I.
  rewrite (slice_after _ _ 4 8 4) by (apply length_pack_I || lia).
  cbn [Nat.sub].
  rewrite (slice_prefix _ _ 4) by apply length_pack_I.
  rewrite (sdrop_after _ _ 12 4), (sdrop_after _ _ 8 4), (sdrop_after _ _ 4 4)
    by (apply length_pack_I || (cbn; lia)).
  cbn [Nat.sub sdrop].
  by rewrite !be_decode_pack_I.
Qed.

(** X1.  A notification request is read back as it was built: the service, the
    user and the message id, each a 32-bit number, and the data, the empty
    string standing for no data. *)
Theorem notify_req_roundtrip (service userid messid : Z)
    (data : option string) :
  0 ≤ service < 4294967296 → 0 ≤ userid < 4294967296 →
  0 ≤ messid < 4294967296 →
  parse_notify_req (make_notify_req service userid messid data)
  = Ok (service, userid, messid, default EmptyString data).
Proof. apply notify_req_reads_back. Qed.

(** X2.  A clear request is read back as it was built; the packet holds the
    user before the service, and so does the pair returned. *)
Theorem clear_req_roundtrip (service userid : Z) :
  0 ≤ service < 4294967296 → 0 ≤ userid < 4294967296 →
  parse_clear_req (make_clear_req service userid) = Ok (userid, service).
Proof.
  intros Hs Hu. unfold parse_clear_req, make_clear_req, unpack_II.
  rewrite length_sapp, !length_pack_I. cbn [Nat.add Nat.eqb].
  rewrite (slice_prefix _ _ 4) by apply length_pack_I.
  rewrite (slice_after _ _ 4 8 4) by (apply length_pack_I || lia).
  cbn [Nat.sub]. rewrite <- (sapp_nil_r (pack_I service)).
  rewrite (slice_prefix _ _ 4) by apply length_pack_I.
  by rewrite !be_decode_pack_I.
Qed.

(** X3.  A clear request that does not hold exactly eight bytes raises
    NameError: the except clause names [struct.error], and [struct] is not
    bound in the module. *)
Theorem parse_clear_req_wrong_length (pkt : string) :
  String.length pkt ≠ 8%nat →
  parse_clear_req pkt = Raise NameError.
Proof.
  intros Hlen. unfold parse_clear_req, unpack_II.
  destruct (Nat.eqb_spec (String.length pkt) 8); [done|]. reflexivity.
Qed.

Lemma unpack_Is_go_pack (svcs : list Z) :
  Forall (fun s => 0 ≤ s < 4294967296) svcs →
  unpack_Is_go (length svcs)
    (foldr (fun s acc => pack_I s +:+ acc) EmptyString svcs) = svcs.
Proof.
  induction 1 as [|s svcs Hs _ IH]; [done|].
  cbn [length foldr unpack_Is_go].
  rewrite <- (length_pack_I s) at 1. rewrite stake_app.
  rewrite <- (length_pack_I s) at 1. rewrite sdrop_app.
  by rewrite be_decode_pack_I, IH.
Qed.

Lemma length_packed_svcs (svcs : list Z) :
  String.length (foldr (fun s acc => pack_I s +:+ acc) EmptyString svcs)
  = (4 * length svcs)%nat.
Proof.
  induction svcs as [|s svcs IH]; [done|].
  cbn [foldr length]. rewrite length_sapp, length_pack_I, IH. lia.
Qed.

(** X4.  A registration request is read back as it was built, for a user
    identifier of fewer than 256 bytes, a 16-bit port and 32-bit service
    codes. *)
Theorem register_req_roundtrip (services : list Z) (uid : string) (rport : Z) :
  (String.length uid < 256)%nat →
  0 ≤ rport < 65536 →
  Forall (fun s => 0 ≤ s < 4294967296) services →
  Z.of_nat (length services) < 4294967296 →
  parse_register_req (make_register_req services uid rport)
  = Ok (uid, rport, services).
Proof.
  intros Hlen Hport Hsvcs Hn.
  unfold make_register_req, parse_register_req, index.
  set (tail := foldr (fun s acc => pack_I s +:+ acc) EmptyString services).
  set (head := pack_H rport +:+ pack_I (Z.of_nat (length services))).
  replace (pack_H rport +:+ pack_I (Z.of_nat (length services)) +:+ tail)
    with (head +:+ tail) by (subst head; by rewrite sapp_assoc).
  assert (String.length head = 6%nat) as Hhead
    by (subst head; by rewrite length_sapp, length_pack_H, length_pack_I).
  change (String (chr (Z.of_nat (String.length uid))) uid +:+ head +:+ tail)
    with (String (chr (Z.of_nat (String.length uid))) (uid +:+ head +:+ tail)).
  change (get 0 (String ?c ?s)) with (Some c).
  cbn [of_option bind result_Bind rbind].
  rewrite ord_chr, Z.mod_small, Nat2Z.id by lia.
  cbn [String.length]. rewrite length_sapp.
  destruct (Nat.ltb_spec
              (S (String.length uid + String.length (head +:+ tail)))
              (String.length uid + 1)); [lia|].
  assert (slice 1 (String.length uid + 1)
            (String (chr (Z.of_nat (String.length uid)))
               (uid +:+ head +:+ tail)) = uid) as ->.
  { unfold slice. cbn [sdrop].
    replace (String.length uid + 1 - 1)%nat with (String.length uid) by lia.
    apply stake_app. }
  assert (sdrop (String.length uid + 1)
            (String (chr (Z.of_nat (String.length uid)))
               (uid +:+ head +:+ tail))
          = head +:+ tail) as ->.
  { rewrite Nat.add_1_r. cbn [sdrop]. apply sdrop_app. }
  rewrite <- Hhead, stake_app, sdrop_app.
  unfold unpack_HI. rewrite Hhead. cbn [Nat.eqb]. subst head.
  rewrite (slice_prefix _ _ 2) by apply length_pack_H.
  rewrite (slice_after _ _ 2 6 2) by (apply length_pack_H || lia).
  cbn [Nat.sub]. rewrite <- (sapp_nil_r (pack_I (Z.of_nat (length services)))).
  rewrite (slice_prefix _ _ 4) by apply length_pack_I.
  rewrite be_decode_pack_H, be_decode_pack_I by lia.
  cbn [bind result_Bind rbind]. unfold unpack_Is. subst tail.
  rewrite length_packed_svcs.
  destruct (Z.eqb_spec (Z.of_nat (4 * length services))
              (4 * Z.of_nat (length services))); [|lia].
  cbn [try_except bind result_Bind rbind].
  by rewrite Nat2Z.id, unpack_Is_go_pack.
Qed.

(** *** ATP packets *)

Lemma flag_code_land (g f : flag) :
  Z.land (flag_code g) (flag_code f) = if decide (g = f) then flag_code f else 0.
Proof. by destruct g, f. Qed.

Lemma flag_code_pos (f : flag) : flag_code f ≠ 0.
Proof. by destruct f. Qed.

Lemma flags_fold_land (flags : list flag) (f : flag) : ∀ acc,
  Z.land (foldl (fun acc g => Z.lor acc (flag_code g)) acc flags) (flag_code f)
    ≠ 0
  ↔ Z.land acc (flag_code f) ≠ 0 ∨ f ∈ flags.
Proof.
  induction flags as [|g flags IH]; intros acc; cbn [foldl].
  - split; [by left | intros [?|?%elem_of_nil]; done].
  - rewrite IH, Z.land_lor_distr_l, flag_code_land, elem_of_cons.
    rewrite Z.lor_eq_0_iff. pose proof (flag_code_pos f).
    destruct (decide (g = f)) as [->|Hne]; split.
    + intros [H1|H1]; [|by right; right]. right. by left.
    + intros [H1|[_|H1]]; [left; tauto| left; tauto | by right].
    + intros [H1|H1]; [|by right; right]. left. tauto.
    + intros [H1|[H1|H1]]; [left; tauto| congruence | by right].
Qed.

Lemma flags_fold_low (flags : list flag) : ∀ acc,
  Z.land acc 63 = acc →
  Z.land (foldl (fun acc g => Z.lor acc (flag_code g)) acc flags) 63
  = foldl (fun acc g => Z.lor acc (flag_code g)) acc flags.
Proof.
  induction flags as [|g flags IH]; intros acc Hacc; [done|].
  cbn [foldl]. apply IH. rewrite Z.land_lor_distr_l, Hacc. f_equal.
  by destruct g.
Qed.

Lemma flags_fold_bound (flags : list flag) :
  0 ≤ foldl (fun acc g => Z.lor acc (flag_code g)) 0 flags < 64.
Proof.
  rewrite <- (flags_fold_low flags 0) by done.
  change 63 with (Z.ones 6). rewrite Z.land_ones by lia.
  apply Z.mod_pos_bound. lia.
Qed.

Lemma kind_flag_byte (k : kind) (flg : Z) :
  k ∈ [req; rsp; rel] → 0 ≤ flg < 64 →
  kind_of_code (Z.land (Z.lor (kind_code k) flg mod 256) 192) = k ∧
  Z.land (Z.lor (kind_code k) flg mod 256) 63 = flg.
Proof.
  intros Hk Hflg.
  assert (Forall (fun f =>
            ∀ k, k ∈ [req; rsp; rel] →
              kind_of_code (Z.land (Z.lor (kind_code k) f mod 256) 192) = k ∧
              Z.land (Z.lor (kind_code k) f mod 256) 63 = f)
            (seqZ 0 64)) as Hall.
  { apply Forall_forall. intros f Hf k' Hk'.
    assert (k' = req ∨ k' = rsp ∨ k' = rel) as [-> | [-> | ->]]
      by (repeat (apply elem_of_cons in Hk' as [-> | Hk']; [tauto|]);
          by apply elem_of_nil in Hk').
    all: revert f Hf; apply Forall_forall;
      let l := eval vm_compute in (seqZ 0 64) in change (seqZ 0 64) with l;
      repeat (constructor; [split; vm_compute; reflexivity|]); constructor. }
  rewrite Forall_forall in Hall. apply Hall; [|done].
  apply elem_of_seqZ. lia.
Qed.

Lemma elem_of_flag_table (Q : Z → Prop) `{!∀ v, Decision (Q v)} (f : flag) :
  f ∈ (filter (fun '(_, v) => Q v) ATP_FLAG).*1 ↔ Q (flag_code f).
Proof.
  rewrite list_elem_of_fmap. split.
  - intros [[g v] [-> Hin]]. apply list_elem_of_filter in Hin as [HQ Hin].
    unfold ATP_FLAG in Hin.
    repeat (apply elem_of_cons in Hin as [[= ? ?]|Hin]; [by subst|]).
    by apply elem_of_nil in Hin.
  - intros HQ. exists (f, flag_code f). split; [done|].
    apply list_elem_of_filter. split; [done|].
    unfold ATP_FLAG. destruct f; cbn [flag_code];
      repeat first [by left | right].
Qed.

Lemma atp_packet_reads_back (a : atp) :
  atp_kind a ∈ [req; rsp; rel] →
  String.length (atp_udata a) = 4%nat →
  0 ≤ atp_seq a < 256 →
  0 ≤ atp_tid a < 65536 →
  ∃ (pkt : string) (p : parsed),
    make_atp_packet a = Ok pkt ∧
    parse_atp_packet pkt = Ok p ∧
    p_kind p = atp_kind a ∧
    (∀ f, f ∈ p_flags p ↔ f ∈ atp_flags a) ∧
    p_seq p = atp_seq a ∧
    p_tid p = atp_tid a ∧
    p_udata p = atp_udata a ∧
    p_pdata p = default EmptyString (atp_pdata a).
Proof.
  intros Hk Hud Hseq Htid.
  set (flg := foldl (fun acc f => Z.lor acc (flag_code f)) 0 (atp_flags a)).
  pose proof (flags_fold_bound (atp_flags a)) as Hflg. fold flg in Hflg.
  destruct (kind_flag_byte _ _ Hk Hflg) as [Hkind Hlow].
  set (hdr := String (chr DDP_ATP_PACKET)
                (String (chr (Z.lor (kind_code (atp_kind a)) flg))
                   (String (chr (atp_seq a)) (pack_H (atp_tid a))))).
  assert (make_atp_packet a
          = Ok (hdr +:+ atp_udata a +:+ default EmptyString (atp_pdata a)))
    as Hmake.
  { unfold make_atp_packet. rewrite Hud. cbn [Nat.eqb negb]. fold flg hdr.
    destruct (atp_pdata a) as [d|]; cbn [default].
    - by rewrite sapp_assoc.
    - by rewrite sapp_nil_r. }
  eexists _, _. split; [exact Hmake|].
  set (rest := default EmptyString (atp_pdata a)).
  assert (String.length hdr = 5%nat) as Hhdr by done.
  unfold parse_atp_packet, ATP_HEADER_LEN.
  rewrite !length_sapp, Hhdr, Hud.
  destruct (Nat.ltb_spec (5 + (4 + String.length rest)) (8 + 1)); [lia|].
  assert (slice 0 1 (hdr +:+ atp_udata a +:+ rest)
          = String (chr DDP_ATP_PACKET) EmptyString) as -> by done.
  assert (slice 1 2 (hdr +:+ atp_udata a +:+ rest)
          = String (chr (Z.lor (kind_code (atp_kind a)) flg)) EmptyString)
    as -> by done.
  assert (slice 2 3 (hdr +:+ atp_udata a +:+ rest)
          = String (chr (atp_seq a)) EmptyString) as -> by done.
  assert (slice 3 5 (hdr +:+ atp_udata a +:+ rest) = pack_H (atp_tid a))
    as -> by done.
  rewrite (slice_after hdr _ 5 9 5) by (done || lia). cbn [Nat.sub].
  rewrite (slice_prefix _ _ 4) by done.
  rewrite (sdrop_after hdr _ (8 + 1) 5) by (done || lia). cbn [Nat.add Nat.sub].
  rewrite (sdrop_after (atp_udata a) _ 4 4) by (done || lia).
  cbn [Nat.sub sdrop be_decode]. rewrite !ord_chr.
  change (0 * 256 + DDP_ATP_PACKET mod 256 =? DDP_ATP_PACKET) with true.
  cbn [negb]. split; [reflexivity|]. cbn [p_kind p_flags p_seq p_tid p_udata
                                          p_pdata].
  rewrite !Z.mul_0_l, !Z.add_0_l, Hkind, Hlow.
  split_and!; try done.
  - intros f. rewrite (elem_of_flag_table (fun v => Z.land flg v ≠ 0)).
    subst flg. rewrite flags_fold_land, Z.land_0_l. tauto.
  - by rewrite Z.mod_small.
  - by rewrite be_decode_pack_H.
Qed.

(** X5.  An ATP packet is read back as it was built: the type, for the three
    types of the table, the flags as a set, the sequence number, the
    transaction id, and the user and packet data, the empty string
    standing for no packet data. *)
Theorem atp_packet_roundtrip (a : atp) :
  atp_kind a ∈ [req; rsp; rel] →
  String.length (atp_udata a) = 4%nat →
  0 ≤ atp_seq a < 256 →
  0 ≤ atp_tid a < 65536 →
  ∃ (pkt : string) (p : parsed),
    make_atp_packet a = Ok pkt ∧
    parse_atp_packet pkt = Ok p ∧
    p_kind p = atp_kind a ∧
    (∀ f, f ∈ p_flags p ↔ f ∈ atp_flags a) ∧
    p_seq p = atp_seq a ∧
    p_tid p = atp_tid a ∧
    p_udata p = atp_udata a ∧
    p_pdata p = default EmptyString (atp_pdata a).
Proof. apply atp_packet_reads_back. Qed.
End PacketRoundTrips.

Section Wire.
Import Py Packet Ntypes Notifyd.

(** X6.  What the server queues for a notice is what the client reads: the
    datagram made from the queued Notify request parses as a request with
    user data NOTI under the transaction id of the element, and its packet
    data reads back as the type, the uid, the message id and the data of
    the notice, the empty string standing for no data. *)
Theorem queued_notice_reads_back (c : Client) (n : Notice) (e : QElem) :
  notify_request_for c n e →
  0 ≤ _tid e < 65536 →
  0 ≤ n_type n < 4294967296 → 0 ≤ n_uid n < 4294967296 →
  0 ≤ n_msgid n < 4294967296 →
  ∃ (pkt : string) (p : parsed),
    make_atp_packet (_data e) = Ok pkt ∧
    parse_atp_packet pkt = Ok p ∧
    p_kind p = req ∧ p_tid p = _tid e ∧ p_udata p = "NOTI" ∧
    parse_notify_req (p_pdata p)
    = Ok (n_type n, n_uid n, n_msgid n, default EmptyString (n_data n)).
Proof.
  intros (_ & _ & _ & Hdata) Htid Ht Hu Hm.
  destruct (atp_packet_reads_back (_data e))
    as (pkt & p & Hmk & Hparse & Hk & _ & _ & Hptid & Hud & Hpd).
  - rewrite Hdata. cbn [atp_kind]. left.
  - rewrite Hdata. reflexivity.
  - rewrite Hdata. cbn [atp_seq]. lia.
  - rewrite Hdata. cbn [atp_tid]. lia.
  - exists pkt, p. rewrite Hdata in Hk, Hptid, Hud, Hpd.
    cbn [atp_kind atp_tid atp_udata atp_pdata default] in Hk, Hptid, Hud, Hpd.
    split; [exact Hmk|]. split; [exact Hparse|]. split; [exact Hk|].
    split; [exact Hptid|]. split; [exact Hud|].
    rewrite Hpd. apply notify_req_reads_back; assumption.
Qed.
End Wire.

Section PacketRoundTripExamples.
Import Py Packet Ntypes Notifyd Scenarios.

Lemma notify_req_roundtrip_witness :
  parse_notify_req (make_notify_req 2 7 100 (Some "hi")) = Ok (2, 7, 100, "hi").
Proof. apply (notify_req_roundtrip 2 7 100 (Some "hi")); lia. Defined.

Lemma clear_req_roundtrip_witness :
  parse_clear_req (make_clear_req 2 7) = Ok (7, 2).
Proof. apply (clear_req_roundtrip 2 7); lia. Defined.

Lemma parse_clear_req_wrong_length_witness :
  parse_clear_req "abc" = Raise NameError.
Proof. apply (parse_clear_req_wrong_length "abc"). simpl. lia. Defined.

Lemma register_req_roundtrip_witness :
  parse_register_req (make_register_req [1; 2] "#7" 4000)
  = Ok ("#7", 4000, [1; 2]).
Proof.
  apply (register_req_roundtrip [1; 2] "#7" 4000).
  - simpl. lia.
  - lia.
  - repeat constructor; lia.
  - simpl. lia.
Defined.

Lemma atp_packet_roundtrip_witness :
  ∃ (pkt : string) (p : parsed),
    make_atp_packet (ping 5) = Ok pkt ∧ parse_atp_packet pkt = Ok p ∧
    p_kind p = atp_kind (ping 5) ∧
    (∀ f, f ∈ p_flags p ↔ f ∈ atp_flags (ping 5)) ∧
    p_seq p = atp_seq (ping 5) ∧ p_tid p = atp_tid (ping 5) ∧
    p_udata p = atp_udata (ping 5) ∧
    p_pdata p = default EmptyString (atp_pdata (ping 5)).
Proof.
  apply (atp_packet_roundtrip (ping 5)).
  - simpl. left.
  - reflexivity.
  - simpl. lia.
  - simpl. lia.
Defined.
Lemma queued_notice_witness :
  ∃ (pkt : string) (p : parsed),
    make_atp_packet
      (_data (notify_elem 5000 65535
                (mk_Notice 7 2 100 false (Some "hi") None) ("10.0.0.7", 4000)))
      = Ok pkt ∧
    parse_atp_packet pkt = Ok p ∧
    p_kind p = req ∧
    p_tid p = _tid (notify_elem 5000 65535
                      (mk_Notice 7 2 100 false (Some "hi") None)
                      ("10.0.0.7", 4000)) ∧
    p_udata p = "NOTI" ∧
    parse_notify_req (p_pdata p)
    = Ok (n_type (mk_Notice 7 2 100 false (Some "hi") None),
          n_uid (mk_Notice 7 2 100 false (Some "hi") None),
          n_msgid (mk_Notice 7 2 100 false (Some "hi") None),
          default EmptyString (n_data (mk_Notice 7 2 100 false (Some "hi") None))).
Proof.
  apply (queued_notice_reads_back client_7
           (mk_Notice 7 2 100 false (Some "hi") None)
           (notify_elem 5000 65535
              (mk_Notice 7 2 100 false (Some "hi") None) ("10.0.0.7", 4000))).
  - repeat split.
  - simpl. lia.
  - simpl. lia.
  - simpl. lia.
  - simpl. lia.
Defined.
End PacketRoundTripExamples.


(* --------------------------------------------------------------------- *)
(** ** notify/ntypes.py and notify/notifyd.py: requests *)
(* --------------------------------------------------------------------- *)

Section Requests.
Import Py Packet Ntypes.
Context {X : Type}.

End Requests.

Section UdpRequests.
Import Py Packet Ntypes Notifyd.

(** X8.  The UDP server does not answer a request whose user data is neither
    NR02 nor CLEN: nothing is queued and nothing changes. *)
Theorem unknown_request_is_not_answered (p : parsed) (sndr : addr) (s : UDP) :
  p_kind p = req → p_udata p ≠ "NR02" → p_udata p ≠ "CLEN" →
  dispatch (H := udp_handlers) p sndr s = (Ok tt, s).
Proof.
  intros Hk Hn Hc. unfold dispatch. rewrite Hk.
  cbn [do_req udp_handlers]. unfold udp_do_req.
  destruct (String.eqb_spec (p_udata p) "NR02"); [done|].
  destruct (String.eqb_spec (p_udata p) "CLEN"); [done|].
  reflexivity.
Qed.

(** X9.  A CLEN request whose packet data does not hold exactly eight bytes
    ends the reader of the UDP server: the NameError of [parse_clear_req]
    is not caught, and the datagrams behind it stay unread. *)
Theorem malformed_clear_request_ends_reader (s : UDP) (pkt : string)
    (p : parsed) (sndr : addr) (rest : list (string * addr)) :
  sock_in s = (pkt, sndr) :: rest →
  pkt ≠ EmptyString →
  parse_atp_packet pkt = Ok p →
  p_kind p = req → p_udata p = "CLEN" →
  String.length (p_pdata p) ≠ 8%nat →
  _receiver (H := udp_handlers) s = (Raise NameError, set_sock_in rest s).
Proof.
  intros Hin Hne Hp Hk Hu Hlen.
  unfold _receiver, gets, bind, M_Bind, mbind', catch.
  rewrite Hin. cbn [receiver_loop]. unfold bind, M_Bind, mbind', modify, lift.
  destruct (String.eqb_spec pkt EmptyString) as [->|_]; [done|].
  rewrite Hp. unfold dispatch. rewrite Hk.
  cbn [do_req udp_handlers]. unfold udp_do_req. rewrite Hu.
  cbn [String.eqb Ascii.eqb Bool.eqb]. unfold lift, bind, M_Bind, mbind'.
  unfold parse_clear_req, unpack_II.
  destruct (Nat.eqb_spec (String.length (p_pdata p)) 8); [done|].
  reflexivity.
Qed.
End UdpRequests.

(* --------------------------------------------------------------------- *)
(** ** notify/notifyd.py: the commands of the control interface *)
(* --------------------------------------------------------------------- *)

Section Commands.
Import Py Packet Ntypes Notifyd.

(** X10.  PASS and PASE on a connection with no validation under way raise
    AttributeError, whatever their arguments: the finally clause closes a
    directory session that is not there, and its except clause does not
    catch AttributeError.  Nobody is authenticated by it. *)
Theorem pass_without_user_raises_AttributeError (D : Dnd) (cmd : string)
    (args : list string) (h : Handler) :
  dnd h = false → resp h = None →
  (∃ h', cmd_PASS D cmd args h = (Raise AttributeError, h')
         ∧ server h' = server h) ∧
  (∃ h', cmd_PASE D cmd args h = (Raise AttributeError, h')
         ∧ server h' = server h).
Proof.
  intros Hd Hr. split.
  - unfold cmd_PASS, finally_, close_dnd.
    destruct args as [|a [|b l]]; mred; unfold write; mred;
      cbn [dnd]; rewrite ?Hd; try by eexists.
    destruct (8 <? String.length a)%nat; mred; cbn [dnd resp];
      rewrite ?Hr, ?Hd; by eexists.
  - unfold cmd_PASE, finally_, close_dnd.
    destruct args as [|a [|b l]]; mred; unfold write; mred;
      cbn [dnd]; rewrite ?Hd; try by eexists.
    destruct (octal24 a); cbn [negb]; unfold finish_validation; mred;
      cbn [dnd resp]; rewrite ?Hr, ?Hd; by eexists.
Qed.

(** X11.  USER followed by PASS: the challenge of the directory is sent with
    300; the password, of at most eight characters, is encrypted with the
    challenge and handed to the validator.  When the validator accepts,
    the uid it returns becomes the authenticated user of the server and
    200 is sent; when it refuses, 551 is sent with its text and the
    server is left as it was.  Either way the validation is over. *)
Theorem user_then_pass_validates (D : Dnd) (user pw challenge : string)
    (cmd1 cmd2 : string) (h : Handler) :
  dnd_available D = true →
  begin_validate D user = inl challenge →
  (String.length pw ≤ 8)%nat →
  ∃ h1 h2,
    cmd_USER D cmd1 [user] h = (Ok tt, h1) ∧
    wfile h1 = wfile h ++ ["300 " +:+ challenge +:+ CRLF] ∧
    server h1 = server h ∧ dnd h1 = true ∧
    cmd_PASS D cmd2 [pw] h1 = (Ok tt, h2) ∧
    dnd h2 = false ∧ resp h2 = None ∧
    match validate D user (encrypt_challenge D challenge pw) with
    | inl uid =>
        auth (server h2) = Some uid ∧
        wfile h2 = wfile h1 ++ ["200 User validated." +:+ CRLF]
    | inr e =>
        server h2 = server h1 ∧
        wfile h2 = wfile h1 ++ ["551 " +:+ e +:+ CRLF]
    end.
Proof.
  intros Hav Hbv Hlen.
  assert (∃ h1, cmd_USER D cmd1 [user] h = (Ok tt, h1) ∧
            wfile h1 = wfile h ++ ["300 " +:+ challenge +:+ CRLF] ∧
            server h1 = server h ∧ dnd h1 = true ∧
            resp h1 = Some (challenge, user)) as (h1 & HU & Hw & Hs & Hd & Hr).
  { unfold cmd_USER. rewrite Hav, Hbv. cbn [negb]. unfold write. mred.
    by eexists. }
  exists h1.
  assert (cmd_PASS D cmd2 [pw] h1
          = match validate D user (encrypt_challenge D challenge pw) with
            | inl uid =>
                (Ok tt, set_dnd false None
                          (mk_Handler (set_auth (Some uid) (server h1))
                             (quit h1) (dnd h1) (resp h1)
                             (wfile h1 ++ ["200 User validated." +:+ CRLF])
                             (rfile h1)))
            | inr e =>
                (Ok tt, set_dnd false None
                          (mk_Handler (server h1) (quit h1) (dnd h1) (resp h1)
                             (wfile h1 ++ ["551 " +:+ e +:+ CRLF])
                             (rfile h1)))
            end) as HP.
  { unfold cmd_PASS, finally_, close_dnd, finish_validation.
    destruct (Nat.ltb_spec 8 (String.length pw)); [lia|].
    mred. rewrite Hr. mred. rewrite Hr.
    destruct (validate D user (encrypt_challenge D challenge pw)) as [uid|e];
      unfold write; mred; cbn [dnd set_server]; by rewrite Hd. }
  destruct (validate D user (encrypt_challenge D challenge pw)) as [uid|e];
    eexists; (split_and!; [exact HU|exact Hw|exact Hs|exact Hd|exact HP|..]);
    done.
Qed.

(** X12.  CLEAR with two integers: unless the uid is 0 and the broadcast
    permission is missing, the sticky notices of this uid and type, and no
    others, leave the database of the server, and 200 is sent; in that
    case 554 is sent and nothing is cleared. *)
Theorem clear_command_removes_matching_notices (cmd a1 a2 : string)
    (uid type : Z) (h : Handler) :
  int a1 = Ok uid → int a2 = Ok type →
  ∃ h',
    cmd_CLEAR cmd [a1; a2] h = (Ok tt, h') ∧
    rfile h' = rfile h ∧ auth (server h') = auth (server h) ∧
    if (uid =? 0) && negb (check_perms "broadcast" (server h)) then
      wfile h' = wfile h ++ ["554 Broadcast permission denied." +:+ CRLF] ∧
      server h' = server h
    else
      wfile h' = wfile h ++ ["200 Notifications cleared." +:+ CRLF] ∧
      ∀ n, n ∈ db_notices (t_db (server h'))
           ↔ n ∈ db_notices (t_db (server h))
             ∧ ¬ (n_uid n = uid ∧ n_type n = type).
Proof.
  intros H1 H2. unfold cmd_CLEAR. cbn [length Nat.eqb negb ints].
  rewrite H1, H2. cbn [bind result_Bind rbind]. mred.
  destruct ((uid =? 0) && negb (check_perms "broadcast" (server h))).
  - unfold write. mred. by eexists.
  - unfold server_clear, write. mred. eexists. split; [reflexivity|].
    cbn [rfile wfile server set_server auth set_t_db t_db].
    split_and!; try done.
    intros n. unfold db_notices, db_cleartype.
    rewrite !list_elem_of_fmap. split.
    + intros (r & -> & [Hr Hin]%list_elem_of_filter). split; [by exists r|].
      done.
    + intros [(r & -> & Hin) Hn]. exists r. split; [done|].
      by apply list_elem_of_filter.
Qed.
End Commands.

Section RequestExamples.
Import Py Packet Ntypes Notifyd Scenarios.

Lemma unknown_request_witness :
  dispatch (H := udp_handlers) (mk_parsed req [xo] 1 9 "PING" "") peer
    busy_server = (Ok tt, busy_server).
Proof.
  apply (unknown_request_is_not_answered
           (mk_parsed req [xo] 1 9 "PING" "") peer busy_server).
  - reflexivity.
  - simpl. discriminate.
  - simpl. discriminate.
Defined.

Lemma malformed_clear_request_witness :
  _receiver (H := udp_handlers)
    (set_sock_in [(short_clear_datagram, peer); (good_datagram, peer)]
       busy_server)
  = (Raise NameError,
     set_sock_in [(good_datagram, peer)]
       (set_sock_in [(short_clear_datagram, peer); (good_datagram, peer)]
          busy_server)).
Proof.
  apply (malformed_clear_request_ends_reader
           (set_sock_in [(short_clear_datagram, peer); (good_datagram, peer)]
              busy_server)
           short_clear_datagram
           (mk_parsed req [xo] 1 9 "CLEN" "abc") peer [(good_datagram, peer)]).
  - reflexivity.
  - vm_compute. discriminate.
  - vm_compute. reflexivity.
  - reflexivity.
  - reflexivity.
  - simpl. lia.
Defined.

Lemma pass_without_user_witness :
  (∃ h', cmd_PASS no_dnd "PASS" ["secret"] (connection "")
         = (Raise AttributeError, h')
         ∧ server h' = server (connection "")) ∧
  (∃ h', cmd_PASE no_dnd "PASE" ["secret"] (connection "")
         = (Raise AttributeError, h')
         ∧ server h' = server (connection "")).
Proof.
  apply (pass_without_user_raises_AttributeError no_dnd "PASS" ["secret"]
           (connection "")); reflexivity.
Defined.

Lemma user_then_pass_witness :
  ∃ h1 h2,
    cmd_USER a_dnd "USER" ["alice"] (connection "") = (Ok tt, h1) ∧
    wfile h1 = wfile (connection "") ++ ["300 " +:+ "12345670" +:+ CRLF] ∧
    server h1 = server (connection "") ∧ dnd h1 = true ∧
    cmd_PASS a_dnd "PASS" ["secret"] h1 = (Ok tt, h2) ∧
    dnd h2 = false ∧ resp h2 = None ∧
    match validate a_dnd "alice" (encrypt_challenge a_dnd "12345670" "secret")
    with
    | inl uid =>
        auth (server h2) = Some uid ∧
        wfile h2 = wfile h1 ++ ["200 User validated." +:+ CRLF]
    | inr e =>
        server h2 = server h1 ∧
        wfile h2 = wfile h1 ++ ["551 " +:+ e +:+ CRLF]
    end.
Proof.
  apply (user_then_pass_validates a_dnd "alice" "secret" "12345670"
           "USER" "PASS" (connection "")).
  - reflexivity.
  - reflexivity.
  - simpl. lia.
Defined.

(** The same exchange, run: uid 7 is authenticated. *)
Example user_then_pass_run :
  let '(_, h1) := cmd_USER a_dnd "USER" ["alice"] (connection "") in
  let '(r, h2) := cmd_PASS a_dnd "PASS" ["secret"] h1 in
  r = Ok tt ∧ auth (server h2) = Some 7 ∧
  wfile h2 = [ "300 12345670" +:+ CRLF; "200 User validated." +:+ CRLF ].
Proof. vm_compute. done. Qed.

Lemma clear_command_witness :
  ∃ h',
    cmd_CLEAR "CLEAR" ["7"; "1"] (connection "") = (Ok tt, h') ∧
    rfile h' = rfile (connection "") ∧
    auth (server h') = auth (server (connection "")) ∧
    if (7 =? 0) && negb (check_perms "broadcast" (server (connection ""))) then
      wfile h' = wfile (connection "")
                 ++ ["554 Broadcast permission denied." +:+ CRLF] ∧
      server h' = server (connection "")
    else
      wfile h' = wfile (connection "")
                 ++ ["200 Notifications cleared." +:+ CRLF] ∧
      ∀ n, n ∈ db_notices (t_db (server h'))
           ↔ n ∈ db_notices (t_db (server (connection "")))
             ∧ ¬ (n_uid n = 7 ∧ n_type n = 1).
Proof.
  apply (clear_command_removes_matching_notices "CLEAR" "7" "1" 7 1
           (connection "")); reflexivity.
Defined.
End RequestExamples.


(* --------------------------------------------------------------------- *)
(** ** notify/notifyd.py: the client table *)
(* --------------------------------------------------------------------- *)

Section ClientTable.
Import Py Packet Ntypes Notifyd.
Implicit Types (s : UDP) (c : Client) (n : Notice).

(** One step of the scan of [write_poll]. *)
Lemma stale_scan_cons c (l : list Client) (pos : nat) (dead : list nat) s :
  stale_scan (c :: l) pos dead s
  = stale_scan l (S pos)
      (if _maxage s <? (if rmark c <=? smark c
                         then clock s (ticks s) - rmark c else 0)
       then dead ++ [pos] else dead)
      (if rmark c <=? smark c then set_ticks (S (ticks s)) s else s).
Proof.
  cbn [stale_scan]. unfold client_age, time_time. mred.
  by destruct (rmark c <=? smark c).
Qed.

(** The scan of [write_poll] from position [length done] on: the
    positions it adds are those of the clients it finds too old, and
    removing them leaves the others in place. *)
Lemma stale_scan_spec : ∀ (l done : list Client) (dead : list nat) s,
  0 ≤ _maxage s →
  ∃ (dead' : list nat) (l' : list Client) s',
    stale_scan l (length done) dead s = (Ok (dead ++ dead'), s') ∧
    foldl (fun l pos => delete pos l) (done ++ l) (reverse dead')
      = done ++ l' ∧
    l' `sublist_of` l ∧
    (∀ c, c ∈ l →
       smark c < rmark c ∨ (∀ j, clock s j - rmark c ≤ _maxage s) →
       c ∈ l') ∧
    (∀ c, rmark c ≤ smark c → (∀ j, _maxage s < clock s j - rmark c) →
       c ∉ l') ∧
    _rqueue s' = _rqueue s ∧ _lqueue s' = _lqueue s ∧ ext s' = ext s ∧
    sock_out s' = sock_out s ∧ _maxage s' = _maxage s ∧ clock s' = clock s ∧
    tid s' = tid s.
Proof.
  induction l as [|c l IH]; intros done dead s Hmax.
  { exists [], [], s. cbn. rewrite !app_nil_r. split_and!; try done.
    intros c _ _. apply not_elem_of_nil. }
  rewrite stale_scan_cons.
  set (a := if rmark c <=? smark c then clock s (ticks s) - rmark c else 0).
  set (s1 := if rmark c <=? smark c then set_ticks (S (ticks s)) s else s).
  assert (_rqueue s1 = _rqueue s ∧ _lqueue s1 = _lqueue s ∧ ext s1 = ext s ∧
          sock_out s1 = sock_out s ∧ _maxage s1 = _maxage s ∧
          clock s1 = clock s ∧ tid s1 = tid s ∧
          (smark c < rmark c → a = 0) ∧
          (rmark c ≤ smark c → a = clock s (ticks s) - rmark c))
    as (Hq1 & Hl1 & He1 & Ho1 & Hm1 & Hc1 & Ht1 & Ha0 & Ha1).
  { subst a s1. destruct (Z.leb_spec (rmark c) (smark c));
      cbn; split_and!; try done; lia. }
  clearbody a s1.
  replace (S (length done)) with (length (done ++ [c]))
    by (rewrite length_app; cbn; lia).
  assert (0 ≤ _maxage s1) as Hmax1 by by rewrite Hm1.
  destruct (IH (done ++ [c])
              (if _maxage s <? a then dead ++ [length done] else dead)
              s1 Hmax1)
    as (dead2 & l2 & s' & Hrun & Hdel & Hsub & Hkeep & Hdrop & Hq & Hl & He
        & Ho & Hm & Hc & Ht).
  rewrite Hrun. rewrite <- !app_assoc in Hdel. cbn [app] in Hdel.
  rewrite Hc1, Hm1 in Hkeep, Hdrop.
  destruct (Z.ltb_spec (_maxage s) a) as [Hold|Hyoung].
  - exists (length done :: dead2), l2, s'. split_and!; try congruence.
    + by rewrite <- app_assoc.
    + rewrite reverse_cons, foldl_app. cbn [foldl]. rewrite Hdel.
      by rewrite delete_middle.
    + by apply sublist_cons.
    + intros c0 [->|Hin]%elem_of_cons Hc0; [|by apply Hkeep].
      destruct Hc0 as [Hresp|Hyng].
      * rewrite Ha0 in Hold by done. lia.
      * destruct (Z.leb_spec (rmark c) (smark c)) as [Hle|Hgt].
        -- rewrite Ha1 in Hold by done. specialize (Hyng (ticks s)). lia.
        -- rewrite Ha0 in Hold by done. lia.
    + done.
  - exists dead2, (c :: l2), s'. split_and!; try congruence.
    + by apply sublist_skip.
    + intros c0 [->|Hin]%elem_of_cons Hc0; [left|right; by apply Hkeep].
    + intros c0 Hle Hall [->|Hin]%elem_of_cons; [|by eapply Hdrop].
      rewrite Ha1 in Hyoung by done. specialize (Hall (ticks s)). lia.
Qed.

(** X13.  [write_poll] removes clients from the table and touches nothing
    else.  A client that has been heard from since the last packet sent
    to it stays, and so does one whose last word is never more than
    [_maxage] old; one that is owed an answer and is always older than
    [_maxage] goes. *)
Theorem write_poll_reaps_stale_clients s :
  0 ≤ _maxage s →
  ∃ s',
    udp_write_poll s = (Ok tt, s') ∧
    _clients (ext s') `sublist_of` _clients (ext s) ∧
    (∀ c, c ∈ _clients (ext s) →
       smark c < rmark c ∨ (∀ j, clock s j - rmark c ≤ _maxage s) →
       c ∈ _clients (ext s')) ∧
    (∀ c, rmark c ≤ smark c → (∀ j, _maxage s < clock s j - rmark c) →
       c ∉ _clients (ext s')) ∧
    db (ext s') = db (ext s) ∧ _rqueue s' = _rqueue s ∧
    sock_out s' = sock_out s.
Proof.
  intros Hmax. unfold udp_write_poll. mred.
  destruct (stale_scan_spec (_clients (ext s)) [] [] s Hmax)
    as (dead & l' & s1 & Hrun & Hdel & Hsub & Hkeep & Hdrop & Hq & Hl & He
        & Ho & Hm & Hc & Ht).
  cbn [length app] in Hrun, Hdel. rewrite Hrun. eexists. split; [reflexivity|].
  cbn [ext set_clients set_ext _clients db _rqueue sock_out].
  rewrite He, Hdel. split_and!; try done.
Qed.





End ClientTable.

Section NotifyCommand.
Import Py Packet Ntypes Notifyd.

End NotifyCommand.

Section ClientTableExamples.
Import Py Packet Ntypes Notifyd Scenarios.

Lemma write_poll_witness :
  ∃ s',
    udp_write_poll busy_server = (Ok tt, s') ∧
    _clients (ext s') `sublist_of` _clients (ext busy_server) ∧
    (∀ c, c ∈ _clients (ext busy_server) →
       smark c < rmark c
       ∨ (∀ j, clock busy_server j - rmark c ≤ _maxage busy_server) →
       c ∈ _clients (ext s')) ∧
    (∀ c, rmark c ≤ smark c →
       (∀ j, _maxage busy_server < clock busy_server j - rmark c) →
       c ∉ _clients (ext s')) ∧
    db (ext s') = db (ext busy_server) ∧
    _rqueue s' = _rqueue busy_server ∧
    sock_out s' = sock_out busy_server.
Proof. apply (write_poll_reaps_stale_clients busy_server). simpl. lia. Defined.

(** Run: the client heard from at 5001 stays; the one silent since 4000,
    which is 1000 seconds old and more, goes. *)
Example write_poll_run :
  let '(r, s') := udp_write_poll busy_server in
  r = Ok tt ∧ _clients (ext s') = [client_7].
Proof. vm_compute. done. Qed.

(** Run: a notice of type 2 for uid 7 is queued for the client that
    asked for type 2, and not for the other. *)
Example post_run :
  let '(r, s') := post (mk_Notice 7 2 100 false (Some "hi") None) busy_server in
  r = Ok tt ∧
  _rqueue s' = _rqueue busy_server
               ++ [notify_elem 5000 65535
                     (mk_Notice 7 2 100 false (Some "hi") None)
                     ("10.0.0.7", 4000)].
Proof. vm_compute. done. Qed.

End ClientTableExamples.


(* --------------------------------------------------------------------- *)
(** ** notify/ntypes.py and notify/notifyd.py: responses and releases *)
(* --------------------------------------------------------------------- *)

Section Transactions.
Import Py Packet Ntypes Notifyd.
Implicit Types (s : UDP) (c : Client) (e : QElem).

(** The positions [enumerate] pairs with the elements of a queue. *)
Lemma positions_cons (t : Z) (x : QElem) (l : list QElem) (k : nat) :
  (filter (fun '(_, elt) => tid_of elt = t)
     (imap (fun i e => ((k + i)%nat, e)) (x :: l))).*1
  = (if decide (tid_of x = t) then [k] else [])
    ++ (filter (fun '(_, elt) => tid_of elt = t)
          (imap (fun i e => ((S k + i)%nat, e)) l)).*1.
Proof.
  cbn [imap]. rewrite filter_cons. cbn beta iota.
  assert (imap ((fun i e => ((k + i)%nat, e)) ∘ S) l
          = imap (fun i e => ((S k + i)%nat, e)) l) as ->.
  { apply imap_ext. intros i y _. cbn. f_equal. lia. }
  replace (k + 0)%nat with k by lia.
  by destruct (decide (tid_of x = t)).
Qed.

(** Removing the positions of the elements with id [t], last first,
    leaves the elements with another id. *)
Lemma pop_positions_from (t : Z) : ∀ (l pre : list QElem),
  foldl (fun q pos => delete pos q) (pre ++ l)
    (reverse (filter (fun '(_, elt) => tid_of elt = t)
                (imap (fun i e => ((length pre + i)%nat, e)) l)).*1)
  = pre ++ filter (fun e => tid_of e ≠ t) l.
Proof.
  induction l as [|x l IH]; intros pre; [done|].
  rewrite positions_cons, filter_cons.
  specialize (IH (pre ++ [x])). rewrite <- !app_assoc in IH. cbn [app] in IH.
  replace (length (pre ++ [x])) with (S (length pre)) in IH
    by (rewrite length_app; cbn; lia).
  destruct (decide (tid_of x = t)) as [Heq|Hne].
  - rewrite decide_False by (intros ?; done).
    cbn [app]. rewrite reverse_cons, foldl_app. cbn [foldl].
    rewrite IH. by rewrite delete_middle.
  - rewrite decide_True by done. cbn [app]. by rewrite IH.
Qed.

Lemma pop_all_positions_with_tid (t : Z) (q : list QElem) :
  pop_all (positions_with_tid t q) q = filter (fun e => tid_of e ≠ t) q.
Proof. apply (pop_positions_from t q []). Qed.

(** The first position found is that of the first element with the id. *)
Lemma first_position_from (t : Z) : ∀ (l pre : list QElem),
  match (filter (fun '(_, elt) => tid_of elt = t)
           (imap (fun i e => ((length pre + i)%nat, e)) l)).*1 with
  | [] => filter (fun e => tid_of e = t) l = []
  | pos0 :: _ =>
      ∃ tobj rest, (pre ++ l) !! pos0 = Some tobj ∧
        filter (fun e => tid_of e = t) l = tobj :: rest
  end.
Proof.
  induction l as [|x l IH]; intros pre; [done|].
  rewrite positions_cons, filter_cons.
  specialize (IH (pre ++ [x])). rewrite <- !app_assoc in IH. cbn [app] in IH.
  replace (length (pre ++ [x])) with (S (length pre)) in IH
    by (rewrite length_app; cbn; lia).
  destruct (decide (tid_of x = t)) as [Heq|Hne].
  - cbn [app]. exists x, (filter (fun e => tid_of e = t) l).
    split; [by apply list_lookup_middle | done].
  - cbn [app]. done.
Qed.

(** [update(ip, port)] from position [length done] on. *)
Lemma update_loop_spec (ip : string) (cport : Z) :
  ∀ (todo done : list Client) s,
  _clients (ext s) = done ++ todo →
  ∃ (todo' : list Client) s',
    for_each (seq (length done) (length todo))
      (fun pos =>
         cl <- gets (fun s => _clients (ext s) !! pos) ;;
         match cl with
         | Some elt =>
             if bool_decide (c_ip elt = ip ∧ c_port elt = cport)
             then recvmark_at pos else ret tt
         | None => ret tt
         end) s = (Ok tt, s') ∧
    _clients (ext s') = done ++ todo' ∧
    Forall2 (fun c c' =>
               if bool_decide (c_ip c = ip ∧ c_port c = cport)
               then ∃ j : nat, (ticks s ≤ j < ticks s')%nat
                               ∧ c' = set_rmark (clock s j) c
               else c' = c) todo todo' ∧
    (ticks s ≤ ticks s')%nat ∧ clock s' = clock s ∧
    _rqueue s' = _rqueue s ∧ _lqueue s' = _lqueue s ∧
    db (ext s') = db (ext s) ∧ sock_out s' = sock_out s ∧ tid s' = tid s.
Proof.
  induction todo as [|c todo IH]; intros done s Hcl.
  { exists [], s. cbn. split_and!; try done; constructor. }
  cbn [length seq].
  match goal with |- context [for_each _ ?b _] => set (body := b) end.
  cbn [for_each]. unfold body at 1. mred.
  assert (_clients (ext s) !! length done = Some c) as ->.
  { rewrite Hcl. by apply list_lookup_middle. }
  destruct (bool_decide (c_ip c = ip ∧ c_port c = cport)) eqn:Hm.
  - unfold recvmark_at, time_time. mred.
    match goal with |- context [for_each _ _ ?st] => set (s2 := st) end.
    set (c' := set_rmark (clock s (ticks s)) c).
    assert (_clients (ext s2) = (done ++ [c']) ++ todo) as Hcl2.
    { subst s2. cbn. rewrite Hcl, <- app_assoc. cbn [app].
      rewrite alter_app_r_alt, Nat.sub_diag by done. done. }
    replace (S (length done)) with (length (done ++ [c']))
      by (rewrite length_app; cbn; lia).
    destruct (IH (done ++ [c']) s2 Hcl2)
      as (todo' & s' & Hrun & Hcl' & Hsame & Ht & Hc & Hq & Hl & Hdb & Ho
          & Htid).
    subst body. rewrite Hrun. cbn [ticks set_ticks set_clients set_ext s2] in Ht.
    exists (c' :: todo'), s'. split_and!; try done.
    + by rewrite Hcl', <- app_assoc.
    + constructor.
      * rewrite Hm. exists (ticks s). split; [lia | done].
      * eapply Forall2_impl; [exact Hsame|]. intros x y. cbn beta.
        destruct (bool_decide (c_ip x = ip ∧ c_port x = cport)); [|done].
        intros (j & Hj & ->). exists j. cbn in Hj. split; [lia | done].
    + lia.
  - replace (S (length done)) with (length (done ++ [c]))
      by (rewrite length_app; cbn; lia).
    assert (_clients (ext s) = (done ++ [c]) ++ todo) as Hcl2
      by by rewrite <- app_assoc.
    destruct (IH (done ++ [c]) s Hcl2)
      as (todo' & s' & Hrun & Hcl' & Hsame & Ht & Hc & Hq & Hl & Hdb & Ho
          & Htid).
    subst body. rewrite Hrun.
    exists (c :: todo'), s'. split_and!; try done.
    + by rewrite Hcl', <- app_assoc.
    + constructor; [by rewrite Hm | done].
Qed.

Lemma update_spec (ip : string) (cport : Z) s :
  ∃ s',
    update ip cport s = (Ok tt, s') ∧
    Forall2 (fun c c' =>
               if bool_decide (c_ip c = ip ∧ c_port c = cport)
               then ∃ j : nat, (ticks s ≤ j < ticks s')%nat
                               ∧ c' = set_rmark (clock s j) c
               else c' = c) (_clients (ext s)) (_clients (ext s')) ∧
    (ticks s ≤ ticks s')%nat ∧ clock s' = clock s ∧
    _rqueue s' = _rqueue s ∧ _lqueue s' = _lqueue s ∧
    db (ext s') = db (ext s) ∧ sock_out s' = sock_out s ∧ tid s' = tid s.
Proof.
  unfold update.
  match goal with |- context [for_each _ ?b] => set (body := b) end.
  mred. subst body.
  destruct (update_loop_spec ip cport (_clients (ext s)) [] s eq_refl)
    as (todo' & s' & Hrun & Hcl' & Hsame & Hrest).
  cbn [length app] in Hrun, Hcl'. rewrite Hrun. exists s'.
  rewrite Hcl'. done.
Qed.

(** Only the last-received times differ between the two tables. *)
Lemma update_keeps_clients (ip : string) (cport : Z) s s' :
  update ip cport s = (Ok tt, s') →
  set_rmark 0 <$> _clients (ext s') = set_rmark 0 <$> _clients (ext s).
Proof.
  intros Hrun. destruct (update_spec ip cport s) as (s2 & Hrun2 & Hsame & _).
  rewrite Hrun in Hrun2. injection Hrun2 as <-.
  induction Hsame as [|c c' l l' Hc _ IH]; [done|].
  cbn [fmap list_fmap]. f_equal; [|exact IH].
  destruct (bool_decide _); [|by subst]. by destruct Hc as (j & _ & ->).
Qed.

(** X17.  A response packet whose transaction id is that of no queued element
    is ignored.  Otherwise every queued element with this id leaves the
    retransmission queue, whoever sent the response and whatever the
    class of the element; the clients registered at the address of the
    first such element are marked as heard from, and one release, built
    from that element and addressed to its address, is left for the
    writer.  Nothing is sent by the reader itself. *)
Theorem response_retires_requests_with_its_tid (p : parsed) (sndr : addr) s :
  p_kind p = rsp →
  ∃ s',
    dispatch (H := udp_handlers) p sndr s = (Ok tt, s') ∧
    _rqueue s' = filter (fun e => tid_of e ≠ p_tid p) (_rqueue s) ∧
    sock_out s' = sock_out s ∧ db (ext s') = db (ext s) ∧
    match filter (fun e => tid_of e = p_tid p) (_rqueue s) with
    | [] => s' = s
    | tobj :: _ =>
        (∃ r, _lqueue s' = _lqueue s ++ [r] ∧
              q_class r = Release ∧ _addr r = _addr tobj ∧
              _data r = mk_atp rel (atp_flags (_data tobj))
                          (atp_seq (_data tobj)) (atp_tid (_data tobj))
                          (atp_udata (_data tobj)) None) ∧
        Forall2 (fun c c' =>
                   if bool_decide (c_addr c = _addr tobj)
                   then ∃ j : nat, (ticks s < j < ticks s')%nat
                                   ∧ c' = set_rmark (clock s j) c
                   else c' = c) (_clients (ext s)) (_clients (ext s'))
    end.
Proof.
  intros Hk. unfold dispatch. rewrite Hk. mred.
  pose proof (first_position_from (p_tid p) (_rqueue s) []) as Hfirst.
  pose proof (pop_all_positions_with_tid (p_tid p) (_rqueue s)) as Hpop.
  unfold positions_with_tid in *. cbn [length app Nat.add] in Hfirst.
  destruct ((filter (fun '(_, elt) => tid_of elt = p_tid p)
               (imap (fun i e => (i, e)) (_rqueue s))).*1)
    as [|pos0 dead] eqn:Hdead.
  { exists s. rewrite Hfirst, <- Hpop. done. }
  destruct Hfirst as (tobj & rest & Hlook & Hfil). rewrite Hlook, Hfil.
  unfold new_release, QElem_init, time_time. mred.
  cbn [_rqueue set_ticks]. rewrite Hpop.
  cbn [do_rsp udp_handlers]. unfold udp_do_rsp. mred.
  match goal with |- context [update _ _ ?st] => set (s1 := st) end.
  destruct (update_spec (_addr tobj).1 (_addr tobj).2 s1)
    as (s2 & Hrun & Hsame & Ht & Hc & Hq & Hl & Hdb & Ho & Htid).
  rewrite Hrun. eexists. split; [reflexivity|].
  cbn [_rqueue _lqueue set_lqueue sock_out ext ticks clock].
  rewrite Hq, Hl, Ho, Hdb. split_and!; try done.
  - by eexists.
  - eapply Forall2_impl; [exact Hsame|]. intros c c'. cbn beta.
    rewrite (bool_decide_ext (c_addr c = _addr tobj)
               (c_ip c = (_addr tobj).1 ∧ c_port c = (_addr tobj).2)).
    2:{ unfold c_addr. destruct (_addr tobj). cbn. split.
        - by intros [= -> ->].
        - by intros [-> ->]. }
    destruct (bool_decide _); [|done].
    intros (j & Hj & ->). exists j. cbn in Hj. split; [lia | done].
Qed.
(** The scan of the [rel] branch from position [length pre] on. *)
Lemma release_scan_spec (t : Z) : ∀ (l pre : list QElem) (dead : list nat) s,
  _rqueue s = pre ++ l →
  ∃ (dead' : list nat) s',
    release_scan (H := udp_handlers) t (length l) (length pre) dead s
      = (Ok (dead ++ dead'), s') ∧
    foldl (fun q pos => delete pos q) (pre ++ l) (reverse dead')
      = pre ++ filter (fun e => tid_of e ≠ t) l ∧
    _rqueue s' = _rqueue s ∧ _lqueue s' = _lqueue s ∧
    sock_out s' = sock_out s ∧ db (ext s') = db (ext s) ∧
    set_rmark 0 <$> _clients (ext s') = set_rmark 0 <$> _clients (ext s).
Proof.
  induction l as [|x l IH]; intros pre dead s Hq.
  { exists [], s. cbn. by rewrite !app_nil_r. }
  cbn [length release_scan]. mred.
  assert (_rqueue s !! length pre = Some x) as ->.
  { rewrite Hq. by apply list_lookup_middle. }
  rewrite filter_cons.
  replace (S (length pre)) with (length (pre ++ [x]))
    by (rewrite length_app; cbn; lia).
  destruct (decide (tid_of x = t)) as [Heq|Hne].
  - rewrite bool_decide_eq_true_2 by done.
    rewrite decide_False by (intros ?; done).
    cbn [do_rel udp_handlers]. unfold udp_do_rel.
    destruct (update_spec (_addr x).1 (_addr x).2 s)
      as (s1 & Hrun & _ & _ & _ & Hq1 & Hl1 & Hdb1 & Ho1 & _).
    pose proof (update_keeps_clients _ _ _ _ Hrun) as Hcl1.
    rewrite Hrun.
    assert (_rqueue s1 = (pre ++ [x]) ++ l) as Hq2
      by by rewrite Hq1, Hq, <- app_assoc.
    destruct (IH (pre ++ [x]) (dead ++ [length pre]) s1 Hq2)
      as (dead2 & s' & Hscan & Hdel & Hq' & Hl' & Ho' & Hdb' & Hcl').
    rewrite Hscan. rewrite <- !app_assoc in Hdel. cbn [app] in Hdel.
    exists (length pre :: dead2), s'. split_and!; try congruence.
    + by rewrite <- app_assoc.
    + rewrite reverse_cons, foldl_app. cbn [foldl]. rewrite Hdel.
      by rewrite delete_middle.
  - rewrite bool_decide_eq_false_2 by done.
    rewrite decide_True by done.
    assert (_rqueue s = (pre ++ [x]) ++ l) as Hq2 by by rewrite Hq, <- app_assoc.
    destruct (IH (pre ++ [x]) dead s Hq2)
      as (dead2 & s' & Hscan & Hdel & Hq' & Hl' & Ho' & Hdb' & Hcl').
    rewrite Hscan. rewrite <- !app_assoc in Hdel. cbn [app] in Hdel.
    exists dead2, s'. split_and!; try done.
Qed.

(** X18.  A release packet removes from the retransmission queue every element
    with its transaction id, whoever sent it, and no other; nothing is
    queued or sent in answer, and of the client table only last-received
    times change. *)
Theorem release_retires_elements_with_its_tid (p : parsed) (sndr : addr) s :
  p_kind p = rel →
  ∃ s',
    dispatch (H := udp_handlers) p sndr s = (Ok tt, s') ∧
    _rqueue s' = filter (fun e => tid_of e ≠ p_tid p) (_rqueue s) ∧
    _lqueue s' = _lqueue s ∧ sock_out s' = sock_out s ∧
    db (ext s') = db (ext s) ∧
    set_rmark 0 <$> _clients (ext s') = set_rmark 0 <$> _clients (ext s).
Proof.
  intros Hk. unfold dispatch. rewrite Hk. mred.
  destruct (release_scan_spec (p_tid p) (_rqueue s) [] [] s eq_refl)
    as (dead & s' & Hscan & Hdel & Hq' & Hl' & Ho' & Hdb' & Hcl').
  cbn [length app] in Hscan, Hdel. rewrite Hscan.
  eexists. split; [reflexivity|].
  cbn [_rqueue _lqueue set_rqueue sock_out ext]. unfold pop_all.
  rewrite Hq', Hdel. done.
Qed.
End Transactions.

Section TransactionExamples.
Import Py Packet Ntypes Notifyd Scenarios.

Lemma response_witness :
  ∃ s',
    dispatch (H := udp_handlers) (mk_parsed rsp [xo] 1 3 "NOTI" "") peer
      busy_server = (Ok tt, s') ∧
    _rqueue s' = filter (fun e => tid_of e ≠ 3) (_rqueue busy_server) ∧
    sock_out s' = sock_out busy_server ∧
    db (ext s') = db (ext busy_server) ∧
    match filter (fun e => tid_of e = 3) (_rqueue busy_server) with
    | [] => s' = busy_server
    | tobj :: _ =>
        (∃ r, _lqueue s' = _lqueue busy_server ++ [r] ∧
              q_class r = Release ∧ _addr r = _addr tobj ∧
              _data r = mk_atp rel (atp_flags (_data tobj))
                          (atp_seq (_data tobj)) (atp_tid (_data tobj))
                          (atp_udata (_data tobj)) None) ∧
        Forall2 (fun c c' =>
                   if bool_decide (c_addr c = _addr tobj)
                   then ∃ j : nat, (ticks busy_server < j < ticks s')%nat
                                   ∧ c' = set_rmark (clock busy_server j) c
                   else c' = c)
          (_clients (ext busy_server)) (_clients (ext s'))
    end.
Proof.
  apply (response_retires_requests_with_its_tid
           (mk_parsed rsp [xo] 1 3 "NOTI" "") peer busy_server).
  reflexivity.
Defined.

(** Run: a response under id 3 from [peer] retires the request sent to
    10.0.0.7 and the queued response of the same id; the release goes to
    10.0.0.7, and both clients registered there are marked. *)
Example response_run :
  let '(r, s') := dispatch (H := udp_handlers)
                    (mk_parsed rsp [xo] 1 3 "NOTI" "") peer busy_server in
  r = Ok tt ∧
  _rqueue s' = [mk_QElem Notify 4991 4996 4 (ping 4) peer] ∧
  _lqueue s' = [mk_QElem Release 5000 1 3
                  (mk_atp rel [xo] 1 3 "NOTI" None) ("10.0.0.7", 4000)] ∧
  _clients (ext s') = [set_rmark 5001 client_7; set_rmark 5002 client_8].
Proof. vm_compute. done. Qed.

Lemma release_witness :
  ∃ s',
    dispatch (H := udp_handlers) (mk_parsed rel [] 1 3 "NR02" "") peer
      busy_server = (Ok tt, s') ∧
    _rqueue s' = filter (fun e => tid_of e ≠ 3) (_rqueue busy_server) ∧
    _lqueue s' = _lqueue busy_server ∧ sock_out s' = sock_out busy_server ∧
    db (ext s') = db (ext busy_server) ∧
    set_rmark 0 <$> _clients (ext s')
    = set_rmark 0 <$> _clients (ext busy_server).
Proof.
  apply (release_retires_elements_with_its_tid
           (mk_parsed rel [] 1 3 "NR02" "") peer busy_server).
  reflexivity.
Defined.
End TransactionExamples.


(* --------------------------------------------------------------------- *)
(** ** session.py: the end of the stream *)
(* --------------------------------------------------------------------- *)

Section EndOfStream.
Import Py Session.

(** X19.  When the server has closed the stream, [_readline] closes the
    session and raises LostConnectionError; nothing is written.  From
    then on every command and every read raises NotConnectedError and
    leaves the session as it is. *)
Theorem end_of_stream_closes_session (s : Session) :
  _conn s = true →
  hd EmptyString (_input s) = EmptyString →
  ∃ s',
    _readline s = (Raise LostConnectionError, s') ∧
    is_connected s' = false ∧ sent s' = sent s ∧
    (∀ data, _rawsend data s' = (Raise NotConnectedError, s')) ∧
    _readline s' = (Raise NotConnectedError, s') ∧
    (∀ wanted, _expect wanted s' = (Raise NotConnectedError, s')) ∧
    (∀ wanted, blitz_expect wanted s' = (Raise NotConnectedError, s')).
Proof.
  intros Hc Hin. unfold _readline, _close. mred. rewrite Hc. cbn [negb].
  destruct (_input s) as [|line rest]; [|cbn in Hin; subst line];
    (eexists; split; [reflexivity|]);
    unfold is_connected, _rawsend, _expect, blitz_expect, _readline; mred;
    done.
Qed.
End EndOfStream.

(* --------------------------------------------------------------------- *)
(** ** bmesg.py: a header that begins with a continuation line *)
(* --------------------------------------------------------------------- *)

Section HeaderEdge.
Import Py Bmesg.

Lemma split_first_char (c : ascii) (s : string) :
  c ≠ LF → ∃ w ws, split LF (String c s) = String c w :: ws.
Proof.
  intros Hc. cbn [split]. destruct (Ascii.eqb_spec c LF) as [->|_]; [done|].
  destruct (split LF s); by eexists _, _.
Qed.

(** X20.  A text whose first line that is not empty begins with white space
    cannot be made a header: there is no line to join it to, and the
    constructor raises IndexError. *)
Theorem header_starting_with_continuation_raises_IndexError
    (n : nat) (c : ascii) (s : string) :
  isspace c = true → c ≠ LF →
  BlitzHeader_init (Nat.iter n (String LF) (String c s)) = Raise IndexError.
Proof.
  intros Hsp Hc. unfold BlitzHeader_init, header_lines.
  assert (unfold_lines (split LF (Nat.iter n (String LF) (String c s))) []
          = Raise IndexError) as ->; [|done].
  induction n as [|n IH].
  - change (Nat.iter 0 (String LF) (String c s)) with (String c s).
    destruct (split_first_char c s Hc) as (w & ws & ->).
    cbn [unfold_lines]. by rewrite Hsp.
  - change (Nat.iter (S n) (String LF) (String c s))
      with (String LF (Nat.iter n (String LF) (String c s))).
    change (split LF (String LF ?r)) with (EmptyString :: split LF r).
    cbn [unfold_lines]. exact IH.
Qed.
End HeaderEdge.

(* --------------------------------------------------------------------- *)
(** ** bulls.py: marking articles and the read list *)
(* --------------------------------------------------------------------- *)

Section Marking.
Import Py Bulls.

Lemma is_read_dom (k : Z) (t : Topic) : is_read k t = true ↔ k ∈ read_set t.
Proof.
  unfold is_read, read_set. by rewrite bool_decide_eq_true, elem_of_dom.
Qed.

(** X21.  The read list is a function of the ids at or above [id_low] that
    are marked read: two topics with the same [id_low] that hold the same
    such ids compact to the same string, however their dicts came
    about. *)
Theorem read_list_depends_on_read_ids_only (t t' : Topic) :
  id_low t = id_low t' →
  (∀ k, id_low t ≤ k → (is_read k t = true ↔ is_read k t' = true)) →
  ∃ (s : string) (t1 t1' : Topic),
    _make_read_list t = Some (s, t1) ∧
    _make_read_list t' = Some (s, t1') ∧
    read_set t1 = read_set t1'.
Proof.
  intros Hlow Hsame. rewrite !make_read_list_spec. cbv zeta.
  assert (dom (prune (id_low t) (_rcache t))
          = dom (prune (id_low t') (_rcache t'))) as Hdom.
  { apply set_eq. intros k. rewrite !dom_prune, <- Hlow.
    fold (read_set t) (read_set t'). rewrite <- !is_read_dom.
    split; intros [? ?]; (split; [by apply Hsame|done]). }
  rewrite (sorted_keys_dom _ _ Hdom).
  eexists _, _, _. split_and!; [reflexivity|reflexivity|done].
Qed.

(** X22.  Marking and the compactor: after [mark_read] the compactor keeps the
    article exactly when its id is not below [id_low]; after
    [mark_unread] the article is not read; and for every other article
    both leave what the compactor alone would leave. *)
Theorem marking_shows_in_read_list (id : Z) (t : Topic) :
  ∃ (s1 s2 : string) (t1 t2 : Topic),
    _make_read_list (mark_read id t) = Some (s1, t1) ∧
    _make_read_list (mark_unread id t) = Some (s2, t2) ∧
    (is_read id t1 = true ↔ id_low t ≤ id) ∧
    is_read id t2 = false ∧
    ∀ k, k ≠ id →
      (is_read k t1 = true ↔ is_read k t = true ∧ id_low t ≤ k) ∧
      (is_read k t2 = true ↔ is_read k t = true ∧ id_low t ≤ k).
Proof.
  rewrite !make_read_list_spec. cbv zeta.
  eexists _, _, _, _. split; [reflexivity|]. split; [reflexivity|].
  cbn [id_low mark_read mark_unread set_rcache _rcache].
  split_and!.
  - rewrite is_read_dom. unfold read_set. cbn [_rcache set_rcache].
    rewrite dom_prune, dom_insert, elem_of_union, elem_of_singleton. tauto.
  - apply not_true_is_false. rewrite is_read_dom. unfold read_set.
    cbn [_rcache set_rcache].
    rewrite dom_prune, dom_delete, elem_of_difference, elem_of_singleton.
    tauto.
  - intros k Hk. rewrite !is_read_dom. unfold read_set.
    cbn [_rcache set_rcache]. rewrite !dom_prune, dom_insert, dom_delete.
    rewrite elem_of_union, elem_of_difference, elem_of_singleton. tauto.
Qed.
End Marking.

Section EdgeExamples.
Import Py Session Bmesg Bulls Scenarios.

Lemma end_of_stream_witness :
  ∃ s',
    _readline (mk_Session true ["FLIS 12" +:+ nl] [] false)
      = (Raise LostConnectionError, s') ∧
    is_connected s' = false ∧
    sent s' = sent (mk_Session true ["FLIS 12" +:+ nl] [] false) ∧
    (∀ data, _rawsend data s' = (Raise NotConnectedError, s')) ∧
    _readline s' = (Raise NotConnectedError, s') ∧
    (∀ wanted, _expect wanted s' = (Raise NotConnectedError, s')) ∧
    (∀ wanted, blitz_expect wanted s' = (Raise NotConnectedError, s')).
Proof.
  apply (end_of_stream_closes_session
           (mk_Session true ["FLIS 12" +:+ nl] [] false)); reflexivity.
Defined.

Lemma header_continuation_witness :
  BlitzHeader_init (Nat.iter 1 (String LF) (String " " "and more"))
  = Raise IndexError.
Proof.
  apply (header_starting_with_continuation_raises_IndexError
           1 " "%char "and more").
  - reflexivity.
  - discriminate.
Defined.

Lemma read_list_witness :
  ∃ (s : string) (t1 t1' : Topic),
    _make_read_list (topic 3 10 [1; 4; 5]) = Some (s, t1) ∧
    _make_read_list (topic 3 20 [5; 4]) = Some (s, t1') ∧
    read_set t1 = read_set t1'.
Proof.
  apply (read_list_depends_on_read_ids_only
           (topic 3 10 [1; 4; 5]) (topic 3 20 [5; 4])).
  - reflexivity.
  - intros k Hk. change (3 ≤ k) in Hk. unfold is_read, topic.
    cbn [_rcache fmap list_fmap list_to_map foldr curry fst snd].
    rewrite !bool_decide_eq_true.
    rewrite (lookup_insert_ne _ 1) by lia.
    destruct (decide (k = 4)) as [->|H4];
      [by rewrite lookup_insert_eq, lookup_insert_ne, lookup_insert_eq by lia|].
    destruct (decide (k = 5)) as [->|H5];
      [by rewrite lookup_insert_ne, !lookup_insert_eq by lia|].
    by rewrite !lookup_insert_ne by done.
Defined.

(** Run: both compact to the same string. *)
Example read_list_run :
  fst <$> _make_read_list (topic 3 10 [1; 4; 5]) = Some "4-5" ∧
  fst <$> _make_read_list (topic 3 20 [5; 4]) = Some "4-5".
Proof. vm_compute. done. Qed.
End EdgeExamples.
